(** * Screenshot MCP server: window discovery, capture dispatch and history

    A shallow embedding of the JavaScript modules
    [core/windowDetection.js] (the window-discovery cascade),
    [core/screenshotManager.js] (capture functions and the in-memory
    history), [tools/captureTools.js] (tool handlers),
    [resources/screenshotResources.js] (resource handlers) and
    [core/mcpInterface.js] (the server object).

    Conventions of the embedding:
    - a JavaScript string is a [string]; its characters are code units
      below 256, so the white space recognised by [trim] is the
      Latin-1 part of the ECMAScript white-space set;
    - [undefined] is [None]; a JavaScript number that the code only
      copies or prints is an integer [Z]; [NaN] is explicit in [JsNum];
      [parseInt] and the printing of numbers are exact on integers, as
      JavaScript is between -2^53 and 2^53;
    - [path.join] is the concatenation it is for a file name without
      path separators, as the names built for the formats [png] and
      [jpg] of the tool schemas are;
    - every external collaborator (child processes, the sharp image
      library, the clock, the random generator) is an oracle field of
      [Env]; files live in the state, as a finite map from paths to
      contents;
    - [console.log] and [console.error] are diagnostics and are not
      part of the modelled state. *)

From Stdlib Require Import ZArith Ascii String List DecimalString.
From Stdlib Require DecimalPos DecimalN.
From stdpp Require Import base option list gmap strings.

Import ListNotations.
Local Open Scope string_scope.
Local Open Scope Z_scope.

(** ** JavaScript string primitives *)

Module Js.

(** The double-quote and line-feed characters, and one-character
    strings built from them. *)
Definition dq : string := String (ascii_of_nat 34) EmptyString.
Definition lf_char : ascii := ascii_of_nat 10.
Definition lf : string := String lf_char EmptyString.

(** ECMAScript WhiteSpace and LineTerminator code units below 256:
    TAB, LF, VT, FF, CR, SP and NBSP. *)
Definition isWhite (c : ascii) : bool :=
  let n := nat_of_ascii c in
  (Nat.eqb n 9 || Nat.eqb n 10 || Nat.eqb n 11 || Nat.eqb n 12
   || Nat.eqb n 13 || Nat.eqb n 32 || Nat.eqb n 160)%bool.

Fixpoint trimStart (s : string) : string :=
  match s with
  | EmptyString => EmptyString
  | String c s' => if isWhite c then trimStart s' else s
  end.

(** [trimEnd] keeps a character when it is not white space or when
    something that is kept follows it. *)
Fixpoint trimEnd (s : string) : string :=
  match s with
  | EmptyString => EmptyString
  | String c s' =>
      match trimEnd s' with
      | EmptyString => if isWhite c then EmptyString else String c EmptyString
      | r => String c r
      end
  end.

(** [String.prototype.trim]. *)
Definition trim (s : string) : string := trimEnd (trimStart s).

(** [String.prototype.startsWith]. *)
Definition startsWith (s p : string) : bool := String.prefix p s.

(** [String.prototype.includes]. *)
Fixpoint includes (s sub : string) : bool :=
  (String.prefix sub s
   || match s with
      | EmptyString => false
      | String _ s' => includes s' sub
      end)%bool.

(** Prepends a character to the first piece of a split. *)
Definition consHead (c : ascii) (pieces : list string) : list string :=
  match pieces with
  | [] => [String c EmptyString]
  | h :: t => String c h :: t
  end.

(** [String.prototype.split] with a non-empty separator.  [skip] counts
    the characters of a separator occurrence that remain to be
    consumed. *)
Fixpoint splitFrom (sep : string) (skip : nat) (s : string) : list string :=
  match s with
  | EmptyString => [EmptyString]
  | String c s' =>
      match skip with
      | S k => splitFrom sep k s'
      | O =>
          if String.prefix sep s
          then EmptyString :: splitFrom sep (Nat.pred (String.length sep)) s'
          else consHead c (splitFrom sep O s')
      end
  end.

Definition split (s sep : string) : list string := splitFrom sep O s.

(** [Array.prototype.join]. *)
Fixpoint join (sep : string) (l : list string) : string :=
  match l with
  | [] => EmptyString
  | [a] => a
  | a :: t => a ++ sep ++ join sep t
  end.

(** A JavaScript number as the code uses it: an integer or [NaN]. *)
Inductive JsNum : Type :=
| NaN : JsNum
| Num : Z -> JsNum.

Definition isDigit (c : ascii) : bool :=
  let n := nat_of_ascii c in (Nat.leb 48 n && Nat.leb n 57)%bool.

Definition digitValue (c : ascii) : Z := Z.of_nat (nat_of_ascii c) - 48.

(** Reads the longest prefix of decimal digits; [None] when there is
    none. *)
Fixpoint readDigits (acc : option Z) (s : string) : option Z :=
  match s with
  | EmptyString => acc
  | String c s' =>
      if isDigit c
      then readDigits (Some (10 * default 0 acc + digitValue c)) s'
      else acc
  end.

(** [parseInt(s, 10)] on a string: leading white space is skipped, a
    sign is accepted, the longest run of digits is read and the rest
    is ignored.  (Values beyond 2^53 lose precision in JavaScript;
    here they are exact.) *)
Definition parseIntStr (s : string) : JsNum :=
  match trimStart s with
  | EmptyString => NaN
  | String c r =>
      if Ascii.eqb c "-"%char
      then match readDigits None r with Some n => Num (- n) | None => NaN end
      else if Ascii.eqb c "+"%char
      then match readDigits None r with Some n => Num n | None => NaN end
      else match readDigits None (String c r) with Some n => Num n | None => NaN end
  end.

(** [parseInt(v, 10)] where [v] may be [undefined]: the argument is
    first converted to the string ["undefined"], which has no digits. *)
Definition parseInt (v : option string) : JsNum :=
  match v with
  | None => parseIntStr "undefined"
  | Some s => parseIntStr s
  end.

(** Decimal rendering of numbers in template literals. *)
Definition showN (n : N) : string := NilEmpty.string_of_uint (N.to_uint n).
Definition showNat (n : nat) : string := NilEmpty.string_of_uint (Nat.to_uint n).
Definition showZ (z : Z) : string := NilEmpty.string_of_int (Z.to_int z).

End Js.

(** ** Window records (windowDetection.js) *)

(** [bounds: { x, y, width, height }]. *)
Record Bounds : Type := mkBounds {
  bx : Js.JsNum;
  by_ : Js.JsNum;
  bwidth : Js.JsNum;
  bheight : Js.JsNum
}.

(** [{ id, title, owner: { name }, bounds }].  The Swift parser can leave
    [title] and [owner.name] undefined, and the permission-issue record
    has no [bounds] property. *)
Record WindowRecord : Type := mkWindow {
  win_id : string;
  win_title : option string;
  win_owner_name : option string;
  win_bounds : option Bounds
}.

Definition zeroBounds : Bounds :=
  mkBounds (Js.Num 0) (Js.Num 0) (Js.Num 0) (Js.Num 0).

(** *** Strategy 1: output of the Swift helper *)

(** Body of the [for (const line of lines)] loop of
    [getWindowListSwift]: blank lines are skipped, any other line is
    destructured into seven fields and pushed. *)
Definition swiftStep (windows : list WindowRecord) (line : string)
  : list WindowRecord :=
  match Js.trim line with
  | EmptyString => windows
  | _ =>
      let parts := Js.split line "|" in
      windows ++
      [ mkWindow (nth 0 parts EmptyString) (nth_error parts 2) (nth_error parts 1)
          (Some (mkBounds (Js.parseInt (nth_error parts 3))
                          (Js.parseInt (nth_error parts 4))
                          (Js.parseInt (nth_error parts 5))
                          (Js.parseInt (nth_error parts 6)))) ]
  end.

Definition parseSwiftOutput (stdout : string) : list WindowRecord :=
  fold_left swiftStep (Js.split stdout Js.lf) [].

(** *** Strategy 2: output of the AppleScript *)

(** Body of the [for] loop of [getWindowListAppleScript]: blank lines
    are skipped; a line is pushed only when it has at least three
    pipe-separated parts, read as application, title, id. *)
Definition appleScriptStep (windows : list WindowRecord) (line : string)
  : list WindowRecord :=
  match Js.trim line with
  | EmptyString => windows
  | _ =>
      match Js.split line "|" with
      | appName :: windowTitle :: windowId :: _ =>
          windows ++
          [ mkWindow (Js.trim windowId) (Some (Js.trim windowTitle))
              (Some (Js.trim appName)) (Some zeroBounds) ]
      | _ => windows
      end
  end.

(** From [const output = stdout.trim()] on. *)
Definition parseAppleScriptOutput (stdout : string) : list WindowRecord :=
  let output := Js.trim stdout in
  if Js.startsWith output "ERROR:" then []
  else fold_left appleScriptStep (Js.split output Js.lf) [].

(** *** Strategy 3: diagnostic text of [screencapture] *)

Fixpoint takeWhile (p : ascii -> bool) (s : string) : string :=
  match s with
  | EmptyString => EmptyString
  | String c s' => if p c then String c (takeWhile p s') else EmptyString
  end.

Fixpoint dropWhile (p : ascii -> bool) (s : string) : string :=
  match s with
  | EmptyString => EmptyString
  | String c s' => if p c then dropWhile p s' else s
  end.

(** What [.] matches in a regular expression without the [s] flag:
    anything but a line terminator. *)
Definition isDot (c : ascii) : bool :=
  let n := nat_of_ascii c in negb (Nat.eqb n 10 || Nat.eqb n 13)%bool.

(** An anchored match of [/(\d+)\. (.+)/] at the start of [s]: the
    two groups and the number of characters matched. *)
Definition matchWindowAt (s : string) : option (string * string * nat) :=
  let digits := takeWhile Js.isDigit s in
  match digits, dropWhile Js.isDigit s with
  | String _ _, String dot (String sp rest) =>
      if (Ascii.eqb dot "."%char && Ascii.eqb sp " "%char)%bool
      then match takeWhile isDot rest with
           | EmptyString => None
           | ttl => Some (digits, ttl,
                          (String.length digits + 2 + String.length ttl)%nat)
           end
      else None
  | _, _ => None
  end.

(** The [while ((match = windowRegex.exec(stderr)) !== null)] loop: the
    global regular expression resumes after each match; [skip] counts
    the characters of the last match still to pass. *)
Fixpoint regexScan (skip : nat) (s : string) : list WindowRecord :=
  match s with
  | EmptyString => []
  | String _ s' =>
      match skip with
      | S k => regexScan k s'
      | O =>
          match matchWindowAt s with
          | Some (i, ttl, n) =>
              mkWindow i (Some ttl) (Some (nth 0 (Js.split ttl " ") EmptyString))
                (Some zeroBounds)
              :: regexScan (Nat.pred n) s'
          | None => regexScan O s'
          end
      end
  end.

Definition parseScreencaptureOutput (stderr : string) : list WindowRecord :=
  regexScan O stderr.

(** *** Strategy 4: visible applications as pseudo-windows *)

(** The [for (let i = 0; i < apps.length; i++)] loop. *)
Fixpoint appsLoop (i : nat) (apps : list string) (windows : list WindowRecord)
  : list WindowRecord :=
  match apps with
  | [] => windows
  | a :: rest =>
      let appName := Js.trim a in
      match appName with
      | EmptyString => appsLoop (S i) rest windows
      | _ =>
          appsLoop (S i) rest
            (windows ++
             [ mkWindow ("app_" ++ Js.showNat i) (Some (appName ++ " Window"))
                 (Some appName) (Some zeroBounds) ])
      end
  end.

Definition parseApplications (stdout : string) : list WindowRecord :=
  appsLoop O (Js.split (Js.trim stdout) ", ") [].

(** The record returned when the process listing itself fails. *)
Definition dummyWindow : WindowRecord :=
  mkWindow "dummy_0" (Some "Screenshot MCP (Permission issue)") (Some "System") None.

(** ** Screenshot records and the process state (screenshotManager.js) *)

(** [region: { x, y, width, height }]. *)
Record Region : Type := mkRegion {
  rx : Z;
  ry : Z;
  rwidth : Z;
  rheight : Z
}.

(** The [screenshotData] object built by every capture function. *)
Record ScreenshotData : Type := mkShot {
  sd_id : string;
  sd_timestamp : string;
  sd_type : string;
  sd_windowTitle : option string;
  sd_windowId : option string;
  sd_region : option Region;
  sd_format : string;
  sd_quality : Z;
  sd_width : Z;
  sd_height : Z;
  sd_filePath : option string;
  sd_base64 : string
}.

(** Side effects on the outside world, in the order they happen. *)
Inductive Effect : Type :=
| WriteFile (path : string)
| RemoveFile (path : string)
| ExecSync (cmd : string)
| Exec (cmd : string)
| ScreenshotDesktop.

(** The mutable state: the module-level [screenshotHistory] array, the
    files on disk, the effects performed so far and the number of
    readings taken from the clock and the random generator. *)
Record State : Type := mkState {
  history : list ScreenshotData;
  files : gmap string string;
  trace : list Effect;
  ticks : nat
}.

Definition initialState : State := mkState [] ∅ [] O.

(** State updates of the primitive operations. *)
Definition withEffect (st : State) (e : Effect) : State :=
  mkState (history st) (files st) (trace st ++ [e]) (ticks st).

Definition withFiles (st : State) (fs : gmap string string) : State :=
  mkState (history st) fs (trace st) (ticks st).

Definition withTick (st : State) : State :=
  mkState (history st) (files st) (trace st) (S (ticks st)).

(** Result of [child_process.exec] as seen by its callback. *)
Record ExecResult : Type := mkExec {
  exec_error : option string;
  exec_stdout : string;
  exec_stderr : string
}.

(** Result of [child_process.execSync]: it throws, or it returns and
    may have left a file at the path named in the command. *)
Inductive SyncResult : Type :=
| SyncThrows (msg : string)
| SyncDone (written : option string).

(** A computation either returns or throws an [Error] with a message. *)
Inductive Res (A : Type) : Type :=
| Ok (a : A)
| Throw (msg : string).
Arguments Ok {A} a.
Arguments Throw {A} msg.

(** The environment of one call: everything the code asks of the
    operating system and of its libraries. *)
Record Env : Type := mkEnv {
  platform : string;
  screenshotDir : string;
  exec : string -> ExecResult;
  execSyncResult : string -> SyncResult;
  writeFileError : string -> option string;
  screenshotDesktop : Res string;
  sharpJpeg : string -> Z -> Res string;
  sharpMetadata : string -> Res (Z * Z);
  sharpExtractJpeg : string -> Region -> string -> Z -> Res string;
  base64 : string -> string;
  fromBase64 : string -> string;
  dateNow : nat -> N;
  isoString : nat -> string;
  random1000 : nat -> N
}.

(** *** The state-and-exception monad of the embedding *)

Definition M (A : Type) : Type := State -> Res A * State.

Definition ret {A : Type} (a : A) : M A := fun st => (Ok a, st).

Definition bind {A B : Type} (m : M A) (k : A -> M B) : M B :=
  fun st =>
    match m st with
    | (Ok a, st') => k a st'
    | (Throw e, st') => (Throw e, st')
    end.

Definition throw {A : Type} (msg : string) : M A := fun st => (Throw msg, st).

(** [try { m } catch (error) { h error.message }]: the state changes
    made before the exception stay. *)
Definition tryCatch {A : Type} (m : M A) (h : string -> M A) : M A :=
  fun st =>
    match m st with
    | (Ok a, st') => (Ok a, st')
    | (Throw e, st') => h e st'
    end.

Notation "x <-- m ;; k" := (bind m (fun x => k))
  (at level 100, m at next level, right associativity).
Notation "m ;;; k" := (bind m (fun _ => k))
  (at level 100, right associativity).

(** Records an effect in the trace. *)
Definition emit (e : Effect) : M unit :=
  fun st => (Ok tt, withEffect st e).

Definition setFiles (f : gmap string string -> gmap string string) : M unit :=
  fun st => (Ok tt, withFiles st (f (files st))).

(** Takes the next reading of the clock or the random generator. *)
Definition tick : M nat :=
  fun st => (Ok (ticks st), withTick st).

(** [path.join(dir, name)] for a file name without path separators, as
    the file names built here are for the formats [png] and [jpg] of the
    tool contract: nothing is normalised. *)
Definition pathJoin (dir name : string) : string := dir ++ "/" ++ name.

(** [child_process.exec], awaited through its callback. *)
Definition execAsync (env : Env) (cmd : string) : M ExecResult :=
  emit (Exec cmd) ;;; ret (exec env cmd).

(** [child_process.execSync]. *)
Definition execSync (env : Env) (cmd : string) : M (option string) :=
  emit (ExecSync cmd) ;;;
  match execSyncResult env cmd with
  | SyncThrows msg => throw msg
  | SyncDone written => ret written
  end.

(** [fs.writeFile]. *)
Definition writeFile (env : Env) (path data : string) : M unit :=
  emit (WriteFile path) ;;;
  match writeFileError env path with
  | Some msg => throw msg
  | None => setFiles (fun fs => <[path := data]> fs)
  end.

(** [fs.readFile]: it throws when the file is not there. *)
Definition readFile (path : string) : M string :=
  fun st =>
    match files st !! path with
    | Some data => (Ok data, st)
    | None => (Throw ("ENOENT: no such file or directory, open '" ++ path ++ "'"), st)
    end.

(** [fs.unlink] with its error ignored, and [fs.remove]. *)
Definition removeFile (path : string) : M unit :=
  emit (RemoveFile path) ;;; setFiles (fun fs => delete path fs).

(** [fs.existsSync]. *)
Definition existsSync (path : string) (st : State) : bool :=
  bool_decide (is_Some (files st !! path)).

(** ** The window-discovery cascade (windowDetection.js) *)

(** The text of the Swift helper, [swiftScript]: it prints one line
    [id|owner|name|x|y|width|height] per named on-screen window. *)
Definition swiftScript : string :=
  Js.join Js.lf
    [ EmptyString;
      "#!/usr/bin/swift";
      "import Cocoa";
      EmptyString;
      "// Get window list with detailed info";
      "let windowList = CGWindowListCopyWindowInfo([.optionOnScreenOnly, .excludeDesktopElements], kCGNullWindowID) as! [[String: Any]]";
      EmptyString;
      "for window in windowList {";
      "    let windowID = window[kCGWindowNumber as String] as! Int";
      "    let ownerName = window[kCGWindowOwnerName as String] as? String ?? " ++ Js.dq ++ "Unknown" ++ Js.dq;
      "    let windowName = window[kCGWindowName as String] as? String ?? " ++ Js.dq ++ Js.dq;
      "    ";
      "    // Skip windows without names or system windows we don't want to capture";
      "    if windowName.isEmpty || ownerName == " ++ Js.dq ++ "Window Server" ++ Js.dq ++ " || ownerName == " ++ Js.dq ++ "Dock" ++ Js.dq ++ " {";
      "        continue";
      "    }";
      "    ";
      "    let bounds = window[kCGWindowBounds as String] as! CFDictionary";
      "    let boundsDict = bounds as! [String: Any]";
      "    let x = boundsDict[" ++ Js.dq ++ "X" ++ Js.dq ++ "] as! CGFloat";
      "    let y = boundsDict[" ++ Js.dq ++ "Y" ++ Js.dq ++ "] as! CGFloat";
      "    let width = boundsDict[" ++ Js.dq ++ "Width" ++ Js.dq ++ "] as! CGFloat";
      "    let height = boundsDict[" ++ Js.dq ++ "Height" ++ Js.dq ++ "] as! CGFloat";
      "    ";
      "    // Output in a format we can easily parse (pipe-separated)";
      "    print(" ++ Js.dq ++ "\(windowID)|\(ownerName)|\(windowName)|\(Int(x))|\(Int(y))|\(Int(width))|\(Int(height))" ++ Js.dq ++ ")";
      "}";
      EmptyString ].

(** The AppleScript of strategy 2, [script]: it returns one line
    [application|window name|window id] per named window, or a text
    beginning with [ERROR: ]. *)
Definition appleScript : string :=
  Js.join Js.lf
    [ EmptyString;
      "      set output to " ++ Js.dq ++ Js.dq;
      "      tell application " ++ Js.dq ++ "System Events" ++ Js.dq;
      "        try";
      "          set windowList to {}";
      "          set allApps to application processes whose visible is true";
      "          repeat with currentApp in allApps";
      "            set appName to name of currentApp";
      "            try";
      "              repeat with currentWindow in (windows of currentApp)";
      "                try";
      "                  set windowName to name of currentWindow";
      "                  set windowID to id of currentWindow";
      "                  ";
      "                  -- Skip empty window names";
      "                  if windowName is not " ++ Js.dq ++ Js.dq ++ " then";
      "                    set windowInfo to appName & " ++ Js.dq ++ "|" ++ Js.dq ++ " & windowName & " ++ Js.dq ++ "|" ++ Js.dq ++ " & windowID";
      "                    set output to output & windowInfo & " ++ Js.dq ++ "\n" ++ Js.dq;
      "                  end if";
      "                end try";
      "              end repeat";
      "            end try";
      "          end repeat";
      "        on error errMsg";
      "          -- Return error info for debugging";
      "          return " ++ Js.dq ++ "ERROR: " ++ Js.dq ++ " & errMsg";
      "        end try";
      "      end tell";
      "      return output";
      "    " ].

(** Strategy 1, [getWindowListSwift]: writes the helper script, makes it
    executable, runs it, removes it and parses what it printed. *)
Definition getWindowListSwift (env : Env) : M (list WindowRecord) :=
  let scriptPath := pathJoin (screenshotDir env) "getWindows.swift" in
  writeFile env scriptPath swiftScript ;;;
  execSync env ("chmod +x " ++ Js.dq ++ scriptPath ++ Js.dq) ;;;
  r <-- execAsync env (Js.dq ++ scriptPath ++ Js.dq) ;;
  removeFile scriptPath ;;;
  match exec_error r with
  | Some _ => ret []
  | None => ret (parseSwiftOutput (exec_stdout r))
  end.

(** Strategy 2, [getWindowListAppleScript]. *)
Definition getWindowListAppleScript (env : Env) : M (list WindowRecord) :=
  r <-- execAsync env ("osascript -e '" ++ appleScript ++ "'") ;;
  match exec_error r with
  | Some _ => ret []
  | None => ret (parseAppleScriptOutput (exec_stdout r))
  end.

(** Strategy 3, [getWindowListScreencapture]. *)
Definition getWindowListScreencapture (env : Env) : M (list WindowRecord) :=
  r <-- execAsync env "screencapture -lc" ;;
  match exec_error r with
  | Some _ => ret []
  | None => ret (parseScreencaptureOutput (exec_stderr r))
  end.

Definition listProcessesCommand : string :=
  "osascript -e 'tell application " ++ Js.dq ++ "System Events" ++ Js.dq
  ++ " to get name of every process whose visible is true'".

(** Strategy 4, [getApplicationsAsFallback]. *)
Definition getApplicationsAsFallback (env : Env) : M (list WindowRecord) :=
  r <-- execAsync env listProcessesCommand ;;
  match exec_error r with
  | Some _ => ret [dummyWindow]
  | None => ret (parseApplications (exec_stdout r))
  end.

(** The [try { ... } catch (error) { return []; }] block of
    [getWindowList], for any four strategies. *)
Definition cascade (s1 s2 s3 s4 : M (list WindowRecord)) : M (list WindowRecord) :=
  tryCatch
    (swiftWindows <-- s1 ;;
     match swiftWindows with
     | _ :: _ => ret swiftWindows
     | [] =>
         appleScriptWindows <-- s2 ;;
         match appleScriptWindows with
         | _ :: _ => ret appleScriptWindows
         | [] =>
             screencaptureWindows <-- s3 ;;
             match screencaptureWindows with
             | _ :: _ => ret screencaptureWindows
             | [] =>
                 appWindows <-- s4 ;;
                 ret appWindows
             end
         end
     end)
    (fun _ => ret []).

(** [getWindowList] of the window-detection module. *)
Definition getWindowList (env : Env) : M (list WindowRecord) :=
  if String.eqb (platform env) "darwin"
  then cascade (getWindowListSwift env) (getWindowListAppleScript env)
         (getWindowListScreencapture env) (getApplicationsAsFallback env)
  else throw "Window listing is only supported on macOS".

(** ** Capture functions (screenshotManager.js) *)

(** The [options] object of the capture functions; an absent property
    is [None]. *)
Record Options : Type := mkOptions {
  opt_windowTitle : option string;
  opt_format : option string;
  opt_quality : option Z;
  opt_saveToFile : option bool;
  opt_x : option Z;
  opt_y : option Z;
  opt_width : option Z;
  opt_height : option Z
}.

(** [options.format || 'png']. *)
Definition formatOf (options : Options) : string :=
  match opt_format options with
  | None | Some EmptyString => "png"
  | Some f => f
  end.

(** [options.quality || 100]. *)
Definition qualityOf (options : Options) : Z :=
  match opt_quality options with
  | None | Some 0 => 100
  | Some q => q
  end.

(** [options.saveToFile !== undefined ? options.saveToFile : true]. *)
Definition saveToFileOf (options : Options) : bool :=
  match opt_saveToFile options with
  | None => true
  | Some b => b
  end.

Fixpoint mapChars (f : ascii -> ascii) (s : string) : string :=
  match s with
  | EmptyString => EmptyString
  | String c s' => String (f c) (mapChars f s')
  end.

(** [timestamp.replace(/[:.]/g, '-')]. *)
Definition safeTimestamp (timestamp : string) : string :=
  mapChars (fun c => if (Ascii.eqb c ":"%char || Ascii.eqb c "."%char)%bool
                     then "-"%char else c) timestamp.

Definition isAlnum (c : ascii) : bool :=
  let n := nat_of_ascii c in
  ((Nat.leb 48 n && Nat.leb n 57) || (Nat.leb 65 n && Nat.leb n 90)
   || (Nat.leb 97 n && Nat.leb n 122))%bool.

(** [windowTitle.replace(/[^a-zA-Z0-9]/g, '_')]. *)
Definition safeTitle (windowTitle : string) : string :=
  mapChars (fun c => if isAlnum c then c else "_"%char) windowTitle.

Definition lift {A : Type} (r : Res A) : M A := fun st => (r, st).

(** [generateId]: [ss_${Date.now()}_${Math.floor(Math.random() * 1000)}]. *)
Definition generateId (env : Env) : M string :=
  t <-- tick ;;
  ret ("ss_" ++ Js.showN (dateNow env t) ++ "_" ++ Js.showN (random1000 env t)).

(** [new Date().toISOString()]. *)
Definition isoNow (env : Env) : M string :=
  t <-- tick ;; ret (isoString env t).

(** [path.join(SCREENSHOT_DIR, `temp_${Date.now()}.png`)]. *)
Definition tempFilePathNow (env : Env) : M string :=
  t <-- tick ;;
  ret (pathJoin (screenshotDir env) ("temp_" ++ Js.showN (dateNow env t) ++ ".png")).

(** [addToHistory]: at 100 entries or more the oldest is shifted out
    before the push. *)
Definition addToHistoryList (h : list ScreenshotData) (screenshot : ScreenshotData)
  : list ScreenshotData :=
  (if (100 <=? length h)%nat then tl h else h) ++ [screenshot].

Definition withShot (st : State) (shot : ScreenshotData) : State :=
  mkState (addToHistoryList (history st) shot) (files st) (trace st) (ticks st).

Definition addToHistory (screenshot : ScreenshotData) : M unit :=
  fun st => (Ok tt, withShot st screenshot).

(** [getScreenshotById]: [Array.prototype.find] on the history. *)
Definition getScreenshotById (st : State) (id : string) : option ScreenshotData :=
  List.find (fun screenshot => String.eqb (sd_id screenshot) id) (history st).

(** [if (format === 'jpg' || quality < 100)
       processedBuffer = await sharp(buffer).jpeg({ quality }).toBuffer()]. *)
Definition convertIfNeeded (env : Env) (format : string) (quality : Z)
    (buffer : string) : M string :=
  if (String.eqb format "jpg" || (quality <? 100))%bool
  then lift (sharpJpeg env buffer quality)
  else ret buffer.

(** [if (saveToFile) await fs.writeFile(filePath, processedBuffer)]. *)
Definition saveIfRequested (env : Env) (filePath : option string)
    (buffer : string) : M unit :=
  match filePath with
  | Some path => writeFile env path buffer
  | None => ret tt
  end.

Definition captureFullScreen (env : Env) (options : Options) : M ScreenshotData :=
  let format := formatOf options in
  let quality := qualityOf options in
  let saveToFile := saveToFileOf options in
  tryCatch
    (timestamp <-- isoNow env ;;
     let filename := "fullscreen_" ++ safeTimestamp timestamp ++ "." ++ format in
     let filePath :=
       if saveToFile then Some (pathJoin (screenshotDir env) filename) else None in
     emit ScreenshotDesktop ;;;
     imgBuffer <-- lift (screenshotDesktop env) ;;
     processedBuffer <-- convertIfNeeded env format quality imgBuffer ;;
     saveIfRequested env filePath processedBuffer ;;;
     id <-- generateId env ;;
     metadata <-- lift (sharpMetadata env processedBuffer) ;;
     let screenshotData :=
       mkShot id timestamp "fullscreen" None None None format quality
         (fst metadata) (snd metadata) filePath (base64 env processedBuffer) in
     addToHistory screenshotData ;;;
     ret screenshotData)
    (fun message => throw ("Failed to capture full screen: " ++ message)).

(** The predicate of [windows.find]:
    [win.title && win.title.includes(windowTitle)]. *)
Definition titleMatches (windowTitle : string) (win : WindowRecord) : bool :=
  match win_title win with
  | None | Some EmptyString => false
  | Some t => Js.includes t windowTitle
  end.

(** The command handed to [execSync] by [captureWindow]: the whole
    screen for an [app_] id, the [-l] flag with the id otherwise. *)
Definition windowCaptureCommand (targetWindow : WindowRecord)
    (tempFilePath : string) : string :=
  if Js.startsWith (win_id targetWindow) "app_"
  then "screencapture " ++ Js.dq ++ tempFilePath ++ Js.dq
  else "screencapture -l " ++ win_id targetWindow ++ " "
       ++ Js.dq ++ tempFilePath ++ Js.dq.

(** Runs a [screencapture] command whose target is [tempFilePath]. *)
Definition runScreencapture (env : Env) (cmd tempFilePath : string) : M unit :=
  written <-- execSync env cmd ;;
  match written with
  | Some data => setFiles (fun fs => <[tempFilePath := data]> fs)
  | None => ret tt
  end.

Definition captureWindow (env : Env) (options : Options) : M ScreenshotData :=
  let format := formatOf options in
  let quality := qualityOf options in
  let saveToFile := saveToFileOf options in
  match opt_windowTitle options with
  | None | Some EmptyString => throw "Window title is required"
  | Some windowTitle =>
      tryCatch
        (windows <-- getWindowList env ;;
         match List.find (titleMatches windowTitle) windows with
         | None =>
             throw ("Window with title " ++ Js.dq ++ windowTitle ++ Js.dq ++ " not found")
         | Some targetWindow =>
             timestamp <-- isoNow env ;;
             let filename :=
               "window_" ++ safeTitle windowTitle ++ "_" ++ safeTimestamp timestamp
               ++ "." ++ format in
             let filePath :=
               if saveToFile then Some (pathJoin (screenshotDir env) filename)
               else None in
             if String.eqb (platform env) "darwin"
             then
               tryCatch
                 (tempFilePath <-- tempFilePathNow env ;;
                  runScreencapture env
                    (windowCaptureCommand targetWindow tempFilePath) tempFilePath ;;;
                  buffer <-- readFile tempFilePath ;;
                  processedBuffer <-- convertIfNeeded env format quality buffer ;;
                  saveIfRequested env filePath processedBuffer ;;;
                  removeFile tempFilePath ;;;
                  metadata <-- lift (sharpMetadata env processedBuffer) ;;
                  id <-- generateId env ;;
                  let screenshotData :=
                    mkShot id timestamp "window" (Some windowTitle)
                      (Some (win_id targetWindow)) None format quality
                      (fst metadata) (snd metadata) filePath
                      (base64 env processedBuffer) in
                  addToHistory screenshotData ;;;
                  ret screenshotData)
                 (fun message =>
                    throw ("Failed to capture window using screencapture: " ++ message))
             else throw "Window capture is currently only supported on macOS"
         end)
        (fun message => throw ("Failed to capture window: " ++ message))
  end.

Definition regionRequiredMessage : string :=
  "Region coordinates (x, y, width, height) are required".

Definition regionFilename (r : Region) (timestamp format : string) : string :=
  "region_" ++ Js.showZ (rx r) ++ "_" ++ Js.showZ (ry r) ++ "_"
  ++ Js.showZ (rwidth r) ++ "_" ++ Js.showZ (rheight r) ++ "_"
  ++ safeTimestamp timestamp ++ "." ++ format.

Definition regionCaptureCommand (r : Region) (tempFilePath : string) : string :=
  "screencapture -R" ++ Js.showZ (rx r) ++ "," ++ Js.showZ (ry r) ++ ","
  ++ Js.showZ (rwidth r) ++ "," ++ Js.showZ (rheight r) ++ " "
  ++ Js.dq ++ tempFilePath ++ Js.dq.

(** [captureRegion]; the first [match] is the guard
    [x === undefined || y === undefined || width === undefined
     || height === undefined]. *)
Definition captureRegion (env : Env) (options : Options) : M ScreenshotData :=
  let format := formatOf options in
  let quality := qualityOf options in
  let saveToFile := saveToFileOf options in
  match opt_x options, opt_y options, opt_width options, opt_height options with
  | Some x, Some y, Some width, Some height =>
      let region := mkRegion x y width height in
      tryCatch
        (if String.eqb (platform env) "darwin"
         then
           tryCatch
             (tempFilePath <-- tempFilePathNow env ;;
              timestamp <-- isoNow env ;;
              let filePath :=
                if saveToFile
                then Some (pathJoin (screenshotDir env)
                             (regionFilename region timestamp format))
                else None in
              runScreencapture env
                (regionCaptureCommand region tempFilePath) tempFilePath ;;;
              buffer <-- readFile tempFilePath ;;
              processedBuffer <-- convertIfNeeded env format quality buffer ;;
              saveIfRequested env filePath processedBuffer ;;;
              removeFile tempFilePath ;;;
              id <-- generateId env ;;
              let screenshotData :=
                mkShot id timestamp "region" None None (Some region) format quality
                  width height filePath (base64 env processedBuffer) in
              addToHistory screenshotData ;;;
              ret screenshotData)
             (fun message =>
                throw ("Failed to capture region using screencapture: " ++ message))
         else
           fullScreenCapture <--
             captureFullScreen env
               (mkOptions None (Some "png") None (Some false) None None None None) ;;
           processedBuffer <--
             lift (sharpExtractJpeg env (fromBase64 env (sd_base64 fullScreenCapture))
                     region (if String.eqb format "jpg" then "jpeg" else "png")
                     quality) ;;
           timestamp <-- isoNow env ;;
           let filePath :=
             if saveToFile
             then Some (pathJoin (screenshotDir env)
                          (regionFilename region timestamp format))
             else None in
           saveIfRequested env filePath processedBuffer ;;;
           id <-- generateId env ;;
           let screenshotData :=
             mkShot id timestamp "region" None None (Some region) format quality
               width height filePath (base64 env processedBuffer) in
           addToHistory screenshotData ;;;
           ret screenshotData)
        (fun message => throw ("Failed to capture region: " ++ message))
  | _, _, _, _ => throw regionRequiredMessage
  end.

(** ** Tool handlers (captureTools.js) and the history resource
       (screenshotResources.js) *)

(** The [screenshot] object of a tool response. *)
Record ToolScreenshot : Type := mkToolShot {
  ts_id : string;
  ts_timestamp : string;
  ts_type : string;
  ts_windowTitle : option string;
  ts_windowId : option string;
  ts_region : option Region;
  ts_format : string;
  ts_width : Z;
  ts_height : Z;
  ts_filePath : option string;
  ts_base64Preview : string
}.

(** [{ success: true, screenshot }] or [{ success: false, error }]. *)
Inductive Response (A : Type) : Type :=
| Success (screenshot : A)
| Failure (error : string).
Arguments Success {A} screenshot.
Arguments Failure {A} error.

(** [result.base64.substring(0, 100) + '...']. *)
Definition base64Preview (b64 : string) : string :=
  String.substring 0 100 b64 ++ "...".

Definition toolView (withWindow withRegion : bool) (result : ScreenshotData)
  : ToolScreenshot :=
  mkToolShot (sd_id result) (sd_timestamp result) (sd_type result)
    (if withWindow then sd_windowTitle result else None)
    (if withWindow then sd_windowId result else None)
    (if withRegion then sd_region result else None)
    (sd_format result) (sd_width result) (sd_height result)
    (sd_filePath result) (base64Preview (sd_base64 result)).

(** The [try { ... return { success: true, ... } } catch (error)
    { return { success: false, error: error.message } }] of every
    handler. *)
Definition handle (view : ScreenshotData -> ToolScreenshot)
    (m : M ScreenshotData) (st : State) : Response ToolScreenshot * State :=
  match m st with
  | (Ok result, st') => (Success (view result), st')
  | (Throw message, st') => (Failure message, st')
  end.

(** Tool [capture_full_screen]. *)
Definition captureFullScreenHandler (env : Env) (params : Options) :=
  handle (toolView false false) (captureFullScreen env params).

(** Tool [capture_window]. *)
Definition captureWindowHandler (env : Env) (params : Options) :=
  handle (toolView true false) (captureWindow env params).

(** Tool [capture_region]. *)
Definition captureRegionHandler (env : Env) (params : Options) :=
  handle (toolView false true) (captureRegion env params).

(** The [screenshot] object of a resource response. *)
Record ResourceScreenshot : Type := mkResShot {
  rs_id : string;
  rs_timestamp : string;
  rs_type : string;
  rs_format : string;
  rs_width : Z;
  rs_height : Z;
  rs_filePath : option string;
  rs_base64 : string
}.

(** Resource template [history/{id}]: the handler of [screenshotById]. *)
Definition screenshotById (env : Env) (id : option string) (st : State)
  : Response ResourceScreenshot :=
  match id with
  | None | Some EmptyString => Failure "Screenshot ID is required"
  | Some i =>
      match getScreenshotById st i with
      | None => Failure ("Screenshot with ID " ++ Js.dq ++ i ++ Js.dq ++ " not found")
      | Some screenshot =>
          let view := fun data =>
            Success (mkResShot (sd_id screenshot) (sd_timestamp screenshot)
                       (sd_type screenshot) (sd_format screenshot)
                       (sd_width screenshot) (sd_height screenshot)
                       (sd_filePath screenshot) data) in
          match sd_filePath screenshot with
          | None | Some EmptyString => view (sd_base64 screenshot)
          | Some path =>
              if negb (existsSync path st)
              then Failure "Screenshot file no longer exists"
              else match readFile path st with
                   | (Ok buffer, _) => view (base64 env buffer)
                   | (Throw message, _) => Failure message
                   end
          end
      end
  end.

(** ** Application capture, window listing and history queries
       (screenshotManager.js) *)

(** [options.appType || 'any']. *)
Definition appTypeOf (appType : option string) : string :=
  match appType with
  | None | Some EmptyString => "any"
  | Some t => t
  end.

(** The message of the [TypeError] raised by [win.owner.name.includes]
    when [win.owner.name] is undefined. *)
Definition undefinedIncludes : string :=
  "Cannot read properties of undefined (reading 'includes')".

(** The predicate of the first [windows.find] of [captureApplication]:
    [win.title && (win.title.includes('Godot')
                   || win.owner.name.includes('Godot'))]. *)
Definition godotMatches (win : WindowRecord) : Res bool :=
  match win_title win with
  | None | Some EmptyString => Ok false
  | Some t =>
      if Js.includes t "Godot" then Ok true
      else match win_owner_name win with
           | Some ownerName => Ok (Js.includes ownerName "Godot")
           | None => Throw undefinedIncludes
           end
  end.

(** The predicate of the second [windows.find]:
    [win.title && (win.title.includes('pygame')
                   || win.title.includes('PyGame'))]. *)
Definition pygameMatches (win : WindowRecord) : bool :=
  match win_title win with
  | None | Some EmptyString => false
  | Some t => (Js.includes t "pygame" || Js.includes t "PyGame")%bool
  end.

(** [Array.prototype.find] with a predicate that can throw: the first
    window for which the predicate holds, and the exception of the
    first window for which it throws when that one comes earlier. *)
Fixpoint findRes (p : WindowRecord -> Res bool) (windows : list WindowRecord)
  : Res (option WindowRecord) :=
  match windows with
  | [] => Ok None
  | win :: rest =>
      match p win with
      | Throw message => Throw message
      | Ok true => Ok (Some win)
      | Ok false => findRes p rest
      end
  end.

(** [`No ${appType === 'any' ? 'Godot or PyGame' : appType} application
    found`]. *)
Definition noApplicationMessage (appType : string) : string :=
  "No " ++ (if String.eqb appType "any" then "Godot or PyGame" else appType)
  ++ " application found".

(** [{ windowTitle: targetWindow.title, ...options }]: a [windowTitle]
    among the options replaces the title of the window found. *)
Definition withWindowTitleOf (targetWindow : WindowRecord) (options : Options)
  : Options :=
  mkOptions
    (match opt_windowTitle options with
     | Some t => Some t
     | None => win_title targetWindow
     end)
    (opt_format options) (opt_quality options) (opt_saveToFile options)
    (opt_x options) (opt_y options) (opt_width options) (opt_height options).

(** [appType === 'godot' || appType === 'any'] and
    [appType === 'pygame' || appType === 'any']. *)
Definition wantsGodot (appType : string) : bool :=
  (String.eqb appType "godot" || String.eqb appType "any")%bool.

Definition wantsPygame (appType : string) : bool :=
  (String.eqb appType "pygame" || String.eqb appType "any")%bool.

(** The body of the [try] block of [captureApplication] up to the
    choice of the target window. *)
Definition findApplicationWindow (env : Env) (appType : string) : M WindowRecord :=
  windows <-- getWindowList env ;;
  godotWindow <--
    (if wantsGodot appType then lift (findRes godotMatches windows) else ret None) ;;
  let targetWindow :=
    match godotWindow with
    | Some win => Some win
    | None => if wantsPygame appType then List.find pygameMatches windows else None
    end in
  match targetWindow with
  | None => throw (noApplicationMessage appType)
  | Some win => ret win
  end.

(** [captureApplication].  The options object is the record [options]
    together with its [appType] property.  The call of [captureWindow]
    is returned without [await]: the promise it returns settles after
    the [try] block has been left, so a failure of [captureWindow]
    reaches the caller as it is and only the failures before it get the
    prefix of the [catch] block. *)
Definition captureApplication (env : Env) (appType : option string)
    (options : Options) : M ScreenshotData :=
  targetWindow <--
    tryCatch (findApplicationWindow env (appTypeOf appType))
      (fun message => throw ("Failed to capture application: " ++ message)) ;;
  captureWindow env (withWindowTitleOf targetWindow options).

(** An element of the array returned by [listWindows]. *)
Record WindowEntry : Type := mkEntry {
  we_id : string;
  we_title : option string;
  we_application : option string
}.

(** [win => ({ id: win.id, title: win.title, application: win.owner.name })]. *)
Definition windowEntry (win : WindowRecord) : WindowEntry :=
  mkEntry (win_id win) (win_title win) (win_owner_name win).

(** [listWindows]. *)
Definition listWindows (env : Env) : M (list WindowEntry) :=
  tryCatch
    (windows <-- getWindowList env ;; ret (map windowEntry windows))
    (fun message => throw ("Failed to list windows: " ++ message)).

(** [getLatestScreenshot]: [null] for an empty history, otherwise the
    element at index [length - 1]. *)
Definition getLatestScreenshot (st : State) : option ScreenshotData :=
  if (length (history st) =? 0)%nat then None
  else nth_error (history st) (length (history st) - 1).

(** [Array.prototype.slice(0, end)]: a negative [end] counts from the
    end of the array. *)
Definition sliceTo {A : Type} (end_ : Z) (l : list A) : list A :=
  let len := Z.of_nat (length l) in
  let final := if end_ <? 0 then Z.max (len + end_) 0 else Z.min end_ len in
  firstn (Z.to_nat final) l.

(** [Array.prototype.slice(start)]: a negative [start] counts from the
    end of the array. *)
Definition sliceFrom {A : Type} (start : Z) (l : list A) : list A :=
  let len := Z.of_nat (length l) in
  let first := if start <? 0 then Z.max (len + start) 0 else Z.min start len in
  skipn (Z.to_nat first) l.

(** An element of the array returned by [getScreenshotHistory]. *)
Record HistoryItem : Type := mkItem {
  hi_id : string;
  hi_timestamp : string;
  hi_type : string;
  hi_filePath : option string;
  hi_width : Z;
  hi_height : Z;
  hi_format : string
}.

Definition historyItem (item : ScreenshotData) : HistoryItem :=
  mkItem (sd_id item) (sd_timestamp item) (sd_type item) (sd_filePath item)
    (sd_width item) (sd_height item) (sd_format item).

(** The default value of the parameter [limit = 10]. *)
Definition limitOf (limit : option Z) : Z := default 10 limit.

(** [getScreenshotHistory]:
    [[...screenshotHistory].reverse().slice(0, limit).map(...)]. *)
Definition getScreenshotHistory (limit : option Z) (st : State) : list HistoryItem :=
  map historyItem (sliceTo (limitOf limit) (rev (history st))).

(** The earlier version of the module, which the source keeps beside
    the current one. *)
Module Legacy.

(** [screenshotHistory.slice(-limit).reverse().map(...)]. *)
Definition getScreenshotHistory (limit : option Z) (st : State) : list HistoryItem :=
  map historyItem (rev (sliceFrom (- limitOf limit) (history st))).

End Legacy.

(** ** The remaining tool handlers (captureTools.js) and resources
       (screenshotResources.js) *)

(** The [screenshot] object of the response of [capture_application]. *)
Record ApplicationScreenshot : Type := mkAppShot {
  as_id : string;
  as_timestamp : string;
  as_type : string;
  as_appType : string;
  as_windowTitle : option string;
  as_format : string;
  as_width : Z;
  as_height : Z;
  as_filePath : option string;
  as_base64Preview : string
}.

(** Tool [capture_application]. *)
Definition captureApplicationHandler (env : Env) (appType : option string)
    (params : Options) (st : State) : Response ApplicationScreenshot * State :=
  match captureApplication env appType params st with
  | (Ok result, st') =>
      (Success (mkAppShot (sd_id result) (sd_timestamp result) (sd_type result)
                  (appTypeOf appType) (sd_windowTitle result) (sd_format result)
                  (sd_width result) (sd_height result) (sd_filePath result)
                  (base64Preview (sd_base64 result))), st')
  | (Throw message, st') => (Failure message, st')
  end.

(** Tool [list_windows]: [{ success: true, windows }] or
    [{ success: false, error }]. *)
Definition listWindowsHandler (env : Env) (st : State)
  : Response (list WindowEntry) * State :=
  match listWindows env st with
  | (Ok windows, st') => (Success windows, st')
  | (Throw message, st') => (Failure message, st')
  end.

(** Resource [latest]: the handler of [latestScreenshot]. *)
Definition latestScreenshot (env : Env) (st : State) : Response ResourceScreenshot :=
  match getLatestScreenshot st with
  | None => Failure "No screenshots available"
  | Some screenshot =>
      let view := fun data =>
        Success (mkResShot (sd_id screenshot) (sd_timestamp screenshot)
                   (sd_type screenshot) (sd_format screenshot)
                   (sd_width screenshot) (sd_height screenshot)
                   (sd_filePath screenshot) data) in
      match sd_filePath screenshot with
      | None | Some EmptyString => view (sd_base64 screenshot)
      | Some path =>
          if negb (existsSync path st)
          then Failure "Screenshot file no longer exists"
          else match readFile path st with
               | (Ok buffer, _) => view (base64 env buffer)
               | (Throw message, _) => Failure message
               end
      end
  end.

(** Resource [history]: the handler of [screenshotHistory], which asks
    for the history without a limit of its own. *)
Definition screenshotHistory (st : State) : Response (list HistoryItem) :=
  Success (getScreenshotHistory None st).

(** ** The server object (mcpInterface.js) *)

(** The [options] of the constructor of [MCPServer]. *)
Record ServerOptions : Type := mkServerOptions {
  so_name : option string;
  so_description : option string;
  so_version : option string;
  so_baseUrl : option string;
  so_port : option Z
}.

(** An entry of [this.resources]: the definition handed in, and the
    properties [isTemplate] and [template] that
    [registerTemplateResource] adds to its copy of it. *)
Record ResourceEntry (D : Type) : Type := mkResource {
  re_def : D;
  re_isTemplate : bool;
  re_template : option string
}.
Arguments mkResource {D} re_def re_isTemplate re_template.
Arguments re_def {D} r.
Arguments re_isTemplate {D} r.
Arguments re_template {D} r.

(** An instance of [MCPServer]; [D] is the type of tool and resource
    definitions (a description and a handler).  The objects [tools] and
    [resources] are used as maps from names to definitions. *)
Record MCPServer (D : Type) : Type := mkServer {
  srv_name : string;
  srv_description : string;
  srv_version : string;
  srv_tools : gmap string D;
  srv_resources : gmap string (ResourceEntry D);
  srv_baseUrl : string;
  srv_isRunning : bool;
  srv_port : Z
}.
Arguments mkServer {D} srv_name srv_description srv_version srv_tools
  srv_resources srv_baseUrl srv_isRunning srv_port.
Arguments srv_name {D} m.
Arguments srv_description {D} m.
Arguments srv_version {D} m.
Arguments srv_tools {D} m.
Arguments srv_resources {D} m.
Arguments srv_baseUrl {D} m.
Arguments srv_isRunning {D} m.
Arguments srv_port {D} m.

(** [value || fallback] on strings. *)
Definition orString (value : option string) (fallback : string) : string :=
  match value with
  | None | Some EmptyString => fallback
  | Some s => s
  end.

(** The constructor. *)
Definition newServer (D : Type) (options : ServerOptions) : MCPServer D :=
  mkServer
    (orString (so_name options) "screenshot-mcp")
    (orString (so_description options)
       "Screenshot MCP Server for capturing screenshots of applications")
    (orString (so_version options) "1.0.0")
    ∅ ∅
    (orString (so_baseUrl options) "screenshot://")
    false
    (match so_port options with
     | None | Some 0 => 3000
     | Some p => p
     end).

(** [registerTool]. *)
Definition registerTool {D : Type} (name : string) (toolDef : D)
    (server : MCPServer D) : MCPServer D :=
  mkServer (srv_name server) (srv_description server) (srv_version server)
    (<[name := toolDef]> (srv_tools server)) (srv_resources server)
    (srv_baseUrl server) (srv_isRunning server) (srv_port server).

(** [uri.startsWith(this.baseUrl) ? uri : `${this.baseUrl}${uri}`]. *)
Definition fullUri {D : Type} (server : MCPServer D) (uri : string) : string :=
  if Js.startsWith uri (srv_baseUrl server) then uri
  else srv_baseUrl server ++ uri.

Definition withResource {D : Type} (server : MCPServer D) (key : string)
    (entry : ResourceEntry D) : MCPServer D :=
  mkServer (srv_name server) (srv_description server) (srv_version server)
    (srv_tools server) (<[key := entry]> (srv_resources server))
    (srv_baseUrl server) (srv_isRunning server) (srv_port server).

(** [registerResource]. *)
Definition registerResource {D : Type} (uri : string) (resourceDef : D)
    (server : MCPServer D) : MCPServer D :=
  withResource server (fullUri server uri) (mkResource resourceDef false None).

(** [registerTemplateResource]. *)
Definition registerTemplateResource {D : Type} (uriTemplate : string)
    (resourceDef : D) (server : MCPServer D) : MCPServer D :=
  let fullUriTemplate := fullUri server uriTemplate in
  withResource server fullUriTemplate
    (mkResource resourceDef true (Some fullUriTemplate)).

Definition withRunning {D : Type} (server : MCPServer D) (running : bool)
  : MCPServer D :=
  mkServer (srv_name server) (srv_description server) (srv_version server)
    (srv_tools server) (srv_resources server) (srv_baseUrl server)
    running (srv_port server).

(** [start]: nothing changes when the server is running already. *)
Definition start {D : Type} (server : MCPServer D) : MCPServer D :=
  if srv_isRunning server then server else withRunning server true.

(** [stop]: nothing changes when the server is not running. *)
Definition stop {D : Type} (server : MCPServer D) : MCPServer D :=
  if negb (srv_isRunning server) then server else withRunning server false.

(** ** Auxiliary definitions used in the statements *)

(** [firstNonEmpty ss st ws st']: run in sequence from [st], every
    strategy of [ss] but the last returns the empty list, and the last
    returns the non-empty list [ws], leaving the state [st']. *)
Inductive firstNonEmpty :
  list (M (list WindowRecord)) -> State -> list WindowRecord -> State -> Prop :=
| fne_hit (s : M (list WindowRecord)) (st st' : State) (ws : list WindowRecord) :
    s st = (Ok ws, st') -> ws <> [] -> firstNonEmpty [s] st ws st'
| fne_skip (s : M (list WindowRecord)) (ss : list (M (list WindowRecord)))
    (st st1 st' : State) (ws : list WindowRecord) :
    s st = (Ok [], st1) -> firstNonEmpty ss st1 ws st' ->
    firstNonEmpty (s :: ss) st ws st'.

(** The effects of window discovery, in the order they can happen. *)
Definition discoveryEffects (env : Env) : list Effect :=
  let scriptPath := pathJoin (screenshotDir env) "getWindows.swift" in
  [ WriteFile scriptPath;
    ExecSync ("chmod +x " ++ Js.dq ++ scriptPath ++ Js.dq);
    Exec (Js.dq ++ scriptPath ++ Js.dq);
    RemoveFile scriptPath;
    Exec ("osascript -e '" ++ appleScript ++ "'");
    Exec "screencapture -lc";
    Exec listProcessesCommand ].

(** A string without a line feed, that is, a single line. *)
Fixpoint noLf (s : string) : bool :=
  match s with
  | EmptyString => true
  | String c s' => (negb (Ascii.eqb c Js.lf_char) && noLf s')%bool
  end.



(** [steps R m]: running [m] from any state [st] leads to a state
    related to [st] by [R]. *)
Definition steps (R : State -> State -> Prop) {A : Type} (m : M A) : Prop :=
  forall st, R st (snd (m st)).

(** The bound of the history is kept from one state to the next. *)
Definition keepsBound (st st' : State) : Prop :=
  (length (history st) <= 100)%nat -> (length (history st') <= 100)%nat.

Definition isExecSync (e : Effect) : bool :=
  match e with
  | ExecSync _ => true
  | _ => false
  end.

(** The effects tolerated by [noExecSync]. *)
Definition quietEffect (e : Effect) : bool := negb (isExecSync e).

(** From one state to the next the trace only grows, and by effects
    other than [execSync] calls. *)
Definition noExecSync (st st' : State) : Prop :=
  exists rest, trace st' = (trace st ++ rest)%list
               /\ Forall (fun e => isExecSync e = false) rest.

(** A call of one of the capture tools. *)
Inductive Call : Type :=
| CallFullScreen (env : Env) (params : Options)
| CallWindow (env : Env) (params : Options)
| CallRegion (env : Env) (params : Options).

Definition runCall (st : State) (c : Call) : Response ToolScreenshot * State :=
  match c with
  | CallFullScreen env params => captureFullScreenHandler env params st
  | CallWindow env params => captureWindowHandler env params st
  | CallRegion env params => captureRegionHandler env params st
  end.

(** The state after a sequence of calls. *)
Definition runCalls (calls : list Call) (st : State) : State :=
  fold_left (fun s c => snd (runCall s c)) calls st.

(** The capture function behind a call, its environment and its
    parameters. *)
Definition capture (c : Call) : M ScreenshotData :=
  match c with
  | CallFullScreen env params => captureFullScreen env params
  | CallWindow env params => captureWindow env params
  | CallRegion env params => captureRegion env params
  end.

Definition callEnv (c : Call) : Env :=
  match c with
  | CallFullScreen env _ | CallWindow env _ | CallRegion env _ => env
  end.

Definition callParams (c : Call) : Options :=
  match c with
  | CallFullScreen _ params | CallWindow _ params | CallRegion _ params => params
  end.

(** The history after a list of screenshots has been added in order. *)
Definition addAll (shots : list ScreenshotData) (st : State) : State :=
  fold_left (fun s shot => snd (addToHistory shot s)) shots st.

(** The number of history entries that carry the id [id]. *)
Definition countId (st : State) (id : string) : nat :=
  length (List.filter (fun screenshot => String.eqb (sd_id screenshot) id) (history st)).

(** The message of [capture_window] when no window matches. *)
Definition notFoundMessage (windowTitle : string) : string :=
  "Failed to capture window: Window with title " ++ Js.dq ++ windowTitle ++ Js.dq
  ++ " not found".

(** The temporary image path built from the reading number [t] of the
    clock. *)
Definition tempPathAt (env : Env) (t : nat) : string :=
  pathJoin (screenshotDir env) ("temp_" ++ Js.showN (dateNow env t) ++ ".png").

(** The region a call asks for, when all four numbers are given. *)
Definition requestedRegion (params : Options) : option Region :=
  match opt_x params, opt_y params, opt_width params, opt_height params with
  | Some x, Some y, Some width, Some height => Some (mkRegion x y width height)
  | _, _, _, _ => None
  end.

(** [raw] is the image that the capture command [cmd], run in the state
    [st], leaves at [tempFilePath] for [fs.readFile]: what the command
    writes there, or what the file held before when the command writes
    nothing. *)
Definition imageLeftBy (env : Env) (cmd tempFilePath : string) (st : State)
    (raw : string) : Prop :=
  match execSyncResult env cmd with
  | SyncThrows _ => False
  | SyncDone (Some data) => raw = data
  | SyncDone None => files st !! tempFilePath = Some raw
  end.

(** [buffer] is the output of the sharp pipeline ending with
    [.jpeg({ quality })] that the call [c], started in the state [st],
    runs on the image it has captured.  For the whole screen that image
    is the one [screenshot-desktop] returns.  For a window it is the
    image that [screencapture], run for the first window discovery has
    found whose title contains the requested one, leaves at the
    temporary path.  For a region on macOS it
    is the image that [screencapture -R] leaves at the temporary path;
    off macOS it is the image of the whole screen, decoded from its
    base64 text, and the pipeline extracts the region from it before
    encoding. *)
Definition jpegOfCapture (c : Call) (st : State) (quality : Z) (buffer : string)
  : Prop :=
  match c with
  | CallFullScreen env _ =>
      exists img, screenshotDesktop env = Ok img /\ sharpJpeg env img quality = Ok buffer
  | CallWindow env _ =>
      exists windowTitle windows st1 targetWindow raw,
        opt_windowTitle (callParams c) = Some windowTitle
        /\ getWindowList env st = (Ok windows, st1)
        /\ List.find (titleMatches windowTitle) windows = Some targetWindow
        /\ imageLeftBy env
             (windowCaptureCommand targetWindow (tempPathAt env (S (ticks st1))))
             (tempPathAt env (S (ticks st1))) st1 raw
        /\ sharpJpeg env raw quality = Ok buffer
  | CallRegion env params =>
      exists region,
        requestedRegion params = Some region
        /\ if String.eqb (platform env) "darwin"
           then exists raw,
                  imageLeftBy env
                    (regionCaptureCommand region (tempPathAt env (ticks st)))
                    (tempPathAt env (ticks st)) st raw
                  /\ sharpJpeg env raw quality = Ok buffer
           else exists img,
                  screenshotDesktop env = Ok img
                  /\ sharpExtractJpeg env (fromBase64 env (base64 env img)) region
                       (if String.eqb (formatOf params) "jpg" then "jpeg" else "png")
                       quality = Ok buffer
  end.

(** What the call [c], started in the state [st], has done when it
    returned [shot] in the state [st']: [shot] is the newest entry of
    the history; it carries the requested format, the quality the
    function worked with and the base64 text of the processed buffer;
    that buffer is the JPEG encoding of the captured image whenever the
    format is [jpg] or the quality is below 100; and when a file path
    is recorded, the file holds that buffer and its name ends with the
    requested format. *)
Definition captured (c : Call) (st st' : State) (shot : ScreenshotData) : Prop :=
  exists processed,
    (exists older, history st' = (older ++ [shot])%list)
    /\ Js.startsWith (sd_id shot) "ss_" = true
    /\ sd_format shot = formatOf (callParams c)
    /\ sd_quality shot = qualityOf (callParams c)
    /\ sd_base64 shot = base64 (callEnv c) processed
    /\ ((String.eqb (formatOf (callParams c)) "jpg"
         || (qualityOf (callParams c) <? 100))%bool = true ->
        jpegOfCapture c st (qualityOf (callParams c)) processed)
    /\ match sd_filePath shot with
       | None => True
       | Some path =>
           files st' !! path = Some processed
           /\ exists stem,
                path = pathJoin (screenshotDir (callEnv c))
                         (stem ++ "." ++ formatOf (callParams c))
       end.

(** The capture tool, the sharp library and the file system all do
    their work: an [execSync] capture command leaves the image [raw],
    and no conversion, measurement or write fails. *)
Definition toolsWork (env : Env) (command raw : string) : Prop :=
  execSyncResult env command = SyncDone (Some raw)
  /\ (forall buffer quality, exists out, sharpJpeg env buffer quality = Ok out)
  /\ (forall buffer, exists size, sharpMetadata env buffer = Ok size)
  /\ (forall path, writeFileError env path = None).

(** ** Sample environments and parameters *)

Definition failedExec : ExecResult :=
  mkExec (Some "Command failed") EmptyString EmptyString.

Definition sampleEnvOn (platformName : string)
    (execOracle : string -> ExecResult) (clock : nat -> N) : Env :=
  mkEnv platformName "/srv/screenshots" execOracle
    (fun _ => SyncDone (Some "RAW")) (fun _ => None) (Ok "RAW")
    (fun buffer _ => Ok ("JPEG:" ++ buffer)) (fun _ => Ok (1440, 900))
    (fun buffer _ _ _ => Ok ("CROP:" ++ buffer))
    (fun buffer => "b64:" ++ buffer)
    (fun text => String.substring 4 (String.length text) text)
    clock (fun _ => "2024-05-01T10:00:00.000Z") (fun _ => 7%N).

Definition sampleEnv : (string -> ExecResult) -> (nat -> N) -> Env :=
  sampleEnvOn "darwin".

(** Every child process started with [exec] fails. *)
Definition deniedEnv : Env := sampleEnv (fun _ => failedExec) N.of_nat.

(** Every child process succeeds and prints nothing. *)
Definition silentEnv : Env :=
  sampleEnv (fun _ => mkExec None EmptyString EmptyString) N.of_nat.

(** The Swift helper fails and the AppleScript reports one window. *)
Definition safariEnv : Env :=
  sampleEnv
    (fun cmd =>
       if String.prefix "osascript -e '" cmd
       then mkExec None ("Safari|Start Page|77" ++ Js.lf) EmptyString
       else failedExec)
    N.of_nat.

(** Only [screencapture -lc] reports a window. *)
Definition listingEnv : Env :=
  sampleEnv
    (fun cmd =>
       if String.eqb cmd "screencapture -lc"
       then mkExec None EmptyString ("1234. Safari Start Page" ++ Js.lf)
       else failedExec)
    N.of_nat.

(** An environment in which only the process listing answers. *)
Definition appsEnv : Env :=
  sampleEnv
    (fun cmd =>
       if String.eqb cmd listProcessesCommand
       then mkExec None ("Finder, Godot" ++ Js.lf) EmptyString
       else failedExec)
    N.of_nat.

(** A Linux environment in which the first four clock readings fall in
    the same millisecond. *)
Definition sameMillisecondEnv : Env :=
  sampleEnvOn "linux" (fun _ => failedExec)
    (fun t => N.of_nat (if (t <=? 3)%nat then 1 else t)).

(** Options that keep the screenshot in memory only. *)
Definition inMemory : Options :=
  mkOptions None None None (Some false) None None None None.

(** A ten-by-ten region kept in memory only. *)
Definition smallRegion : Options :=
  mkOptions None None None (Some false) (Some 0) (Some 0) (Some 10) (Some 10).

(** A capture of the window whose title contains [Godot]. *)
Definition godotParams : Options :=
  mkOptions (Some "Godot") None None None None None None None.

(** A [png] capture of the window titled [Start] at a given quality. *)
Definition pngWindow (q : Z) : Options :=
  mkOptions (Some "Start") (Some "png") (Some q) None None None None None.

(** A screenshot record that only differs from the others by its id. *)
Definition sampleShot (i : nat) : ScreenshotData :=
  mkShot ("ss_" ++ Js.showNat i ++ "_7") "2024-05-01T10:00:00.000Z" "fullscreen"
    None None None "png" 100 1440 900 None "b64:RAW".

(** ** Auxiliary definitions for the remaining properties *)

(** The path of the Swift helper script of strategy 1. *)
Definition helperScriptPath (env : Env) : string :=
  pathJoin (screenshotDir env) "getWindows.swift".

(** The command that makes the helper script executable. *)
Definition chmodCommand (env : Env) : string :=
  "chmod +x " ++ Js.dq ++ helperScriptPath env ++ Js.dq.

(** An environment in which the helper script cannot be made
    executable. *)
Definition chmodFailsEnv : Env :=
  mkEnv "darwin" "/srv/screenshots" (fun _ => failedExec)
    (fun _ => SyncThrows "Command failed: chmod") (fun _ => None) (Ok "RAW")
    (fun buffer _ => Ok ("JPEG:" ++ buffer)) (fun _ => Ok (1440, 900))
    (fun buffer _ _ _ => Ok ("CROP:" ++ buffer))
    (fun buffer => "b64:" ++ buffer)
    (fun text => String.substring 4 (String.length text) text)
    N.of_nat (fun _ => "2024-05-01T10:00:00.000Z") (fun _ => 7%N).

(** A window record with a title has an owner name. *)
Definition titledHasOwner (win : WindowRecord) : Prop :=
  is_Some (win_title win) -> is_Some (win_owner_name win).

(** The parameters of [capture_application] without any option. *)
Definition noOptions : Options :=
  mkOptions None None None None None None None None.

(** The process listing names two applications, a PyGame game first
    and the Godot editor second. *)
Definition gamesEnv : Env :=
  sampleEnv
    (fun cmd =>
       if String.eqb cmd listProcessesCommand
       then mkExec None ("pygame, Godot" ++ Js.lf) EmptyString
       else failedExec)
    N.of_nat.

(** The [screenshot] object a resource returns for a history entry
    whose image data are [sd_base64]. *)
Definition resourceView (shot : ScreenshotData) : ResourceScreenshot :=
  mkResShot (sd_id shot) (sd_timestamp shot) (sd_type shot) (sd_format shot)
    (sd_width shot) (sd_height shot) (sd_filePath shot) (sd_base64 shot).

(** The [n] most recent entries of a list that grows at its end. *)
Definition mostRecent {A : Type} (n : nat) (l : list A) : list A :=
  skipn (length l - n) l.

(** From one state to the next the history is the same. *)
Definition sameHistory (st st' : State) : Prop := history st' = history st.

(** A computation that adds the screenshot it returns to the history,
    and nothing else, and that leaves the history alone when it
    throws. *)
Definition addsOnSuccess (m : M ScreenshotData) : Prop :=
  forall st,
    match m st with
    | (Ok shot, st') => history st' = addToHistoryList (history st) shot
    | (Throw _, st') => history st' = history st
    end.

(** The options of the whole-screen capture inside [captureRegion]:
    [{ format: 'png', saveToFile: false }]. *)
Definition pngInMemory : Options :=
  mkOptions None (Some "png") None (Some false) None None None None.

(** A Linux environment in which cropping an image fails. *)
Definition cropFailsEnv : Env :=
  mkEnv "linux" "/srv/screenshots" (fun _ => failedExec)
    (fun _ => SyncDone (Some "RAW")) (fun _ => None) (Ok "RAW")
    (fun buffer _ => Ok ("JPEG:" ++ buffer)) (fun _ => Ok (1440, 900))
    (fun _ _ _ _ => Throw "extract_area: bad extract area")
    (fun buffer => "b64:" ++ buffer)
    (fun text => String.substring 4 (String.length text) text)
    N.of_nat (fun _ => "2024-05-01T10:00:00.000Z") (fun _ => 7%N).

(** A string of decimal digits. *)
Fixpoint onlyDigits (s : string) : bool :=
  match s with
  | EmptyString => true
  | String c s' => (Js.isDigit c && onlyDigits s')%bool
  end.

(** The id that [generateId] builds from the reading number [t] of the
    clock and of the random generator. *)
Definition idAt (env : Env) (t : nat) : string :=
  "ss_" ++ Js.showN (dateNow env t) ++ "_" ++ Js.showN (random1000 env t).



(** Every character of a string satisfies a test. *)
Fixpoint allChars (p : ascii -> bool) (s : string) : bool :=
  match s with
  | EmptyString => true
  | String c s' => (p c && allChars p s')%bool
  end.

(** The characters of a sanitised window title. *)
Definition isTitleChar (c : ascii) : bool :=
  (isAlnum c || Ascii.eqb c "_"%char)%bool.

(** The characters a sanitised timestamp cannot contain. *)
Definition isStampChar (c : ascii) : bool :=
  negb (Ascii.eqb c ":"%char || Ascii.eqb c "."%char)%bool.

(** A Linux environment whose clock advances with every reading. *)
Definition linuxEnv : Env := sampleEnvOn "linux" (fun _ => failedExec) N.of_nat.

(** The response of a resource for the screenshot [shot] saved at
    [path]: the image data are read from the file at the time of the
    request. *)
Definition servedFromFile (env : Env) (st : State) (shot : ScreenshotData)
    (path : string) : Response ResourceScreenshot :=
  match files st !! path with
  | Some data =>
      Success (mkResShot (sd_id shot) (sd_timestamp shot) (sd_type shot)
                 (sd_format shot) (sd_width shot) (sd_height shot)
                 (sd_filePath shot) (base64 env data))
  | None => Failure "Screenshot file no longer exists"
  end.

(** A state whose only screenshot was saved to a file that has been
    overwritten since. *)
Definition overwrittenState : State :=
  mkState
    [ mkShot "ss_1_7" "2024-05-01T10:00:00.000Z" "fullscreen" None None None "png" 100
        1440 900 (Some "/srv/screenshots/a.png") "b64:RAW" ]
    {[ "/srv/screenshots/a.png" := "EDITED" ]} [] 1.

(** The registrations and the life-cycle calls made on a server. *)
Inductive ServerCall (D : Type) : Type :=
| CallRegisterTool (name : string) (toolDef : D)
| CallRegisterResource (uri : string) (resourceDef : D)
| CallRegisterTemplateResource (uriTemplate : string) (resourceDef : D)
| CallStart
| CallStop.
Arguments CallRegisterTool {D} name toolDef.
Arguments CallRegisterResource {D} uri resourceDef.
Arguments CallRegisterTemplateResource {D} uriTemplate resourceDef.
Arguments CallStart {D}.
Arguments CallStop {D}.

Definition serverCall {D : Type} (server : MCPServer D) (c : ServerCall D)
  : MCPServer D :=
  match c with
  | CallRegisterTool name toolDef => registerTool name toolDef server
  | CallRegisterResource uri resourceDef => registerResource uri resourceDef server
  | CallRegisterTemplateResource uriTemplate resourceDef =>
      registerTemplateResource uriTemplate resourceDef server
  | CallStart => start server
  | CallStop => stop server
  end.

Definition serverCalls {D : Type} (calls : list (ServerCall D))
    (server : MCPServer D) : MCPServer D :=
  fold_left serverCall calls server.

(** The options of the server created in [index.js]. *)
Definition indexOptions : ServerOptions :=
  mkServerOptions (Some "screenshot-mcp")
    (Some "MCP Server for capturing screenshots of applications, particularly Godot games and PyGame")
    (Some "1.0.0") (Some "screenshot://") (Some 3000).

(** The registrations of [index.js]; a definition is named here by the
    name of the exported object. *)
Definition indexCalls : list (ServerCall string) :=
  [ CallRegisterTool "capture_full_screen" "captureFullScreen";
    CallRegisterTool "capture_window" "captureWindow";
    CallRegisterTool "capture_application" "captureApplication";
    CallRegisterTool "list_windows" "listWindows";
    CallRegisterTool "capture_region" "captureRegion";
    CallRegisterResource "latest" "latestScreenshot";
    CallRegisterResource "history" "screenshotHistory";
    CallRegisterTemplateResource "history/{id}" "screenshotById";
    CallStart ].

(** A string without a vertical bar, that is, a single field of a
    pipe-separated line. *)
Fixpoint noBar (s : string) : bool :=
  match s with
  | EmptyString => true
  | String c s' => (negb (Ascii.eqb c "|"%char) && noBar s')%bool
  end.

(** A window as the Swift helper sees it: the window number, the names
    of the owner and of the window, and the bounds as integers. *)
Record SwiftWindow : Type := mkSwiftWindow {
  sw_windowID : Z;
  sw_ownerName : string;
  sw_windowName : string;
  sw_x : Z;
  sw_y : Z;
  sw_width : Z;
  sw_height : Z
}.

(** The line the helper prints for a window, from its [print]
    statement: [windowID|ownerName|windowName|x|y|width|height]; Swift
    prints an integer with all its digits. *)
Definition swiftLine (w : SwiftWindow) : string :=
  Js.showZ (sw_windowID w) ++ "|" ++ sw_ownerName w ++ "|" ++ sw_windowName w ++ "|"
  ++ Js.showZ (sw_x w) ++ "|" ++ Js.showZ (sw_y w) ++ "|"
  ++ Js.showZ (sw_width w) ++ "|" ++ Js.showZ (sw_height w).

(** What the helper prints for a list of windows: one line each, every
    line ended by a line feed. *)
Fixpoint swiftOutput (ws : list SwiftWindow) : string :=
  match ws with
  | [] => EmptyString
  | w :: rest => swiftLine w ++ Js.lf ++ swiftOutput rest
  end.

(** The record that describes a window of the helper. *)
Definition swiftRecord (w : SwiftWindow) : WindowRecord :=
  mkWindow (Js.showZ (sw_windowID w)) (Some (sw_windowName w)) (Some (sw_ownerName w))
    (Some (mkBounds (Js.Num (sw_x w)) (Js.Num (sw_y w))
             (Js.Num (sw_width w)) (Js.Num (sw_height w)))).

(** The names of a window hold neither a vertical bar nor a line
    feed. *)
Definition plainNames (w : SwiftWindow) : Prop :=
  noBar (sw_ownerName w) = true /\ noLf (sw_ownerName w) = true
  /\ noBar (sw_windowName w) = true /\ noLf (sw_windowName w) = true.

(** The two shapes of the capture command of [captureWindow]. *)
Definition wholeScreenCommand (tempFilePath : string) : string :=
  "screencapture " ++ Js.dq ++ tempFilePath ++ Js.dq.

Definition windowIdCommand (id tempFilePath : string) : string :=
  "screencapture -l " ++ id ++ " " ++ Js.dq ++ tempFilePath ++ Js.dq.

(** The buffer that [convertIfNeeded] returns for a captured image. *)
Definition processedBy (env : Env) (options : Options) (buffer : string)
  : Res string :=
  if (String.eqb (formatOf options) "jpg" || (qualityOf options <? 100))%bool
  then sharpJpeg env buffer (qualityOf options)
  else Ok buffer.

(** The path at which [captureFullScreen] saves a screenshot whose
    timestamp is the reading number [t] of the clock. *)
Definition fullScreenPath (env : Env) (options : Options) (t : nat) : string :=
  pathJoin (screenshotDir env)
    ("fullscreen_" ++ safeTimestamp (isoString env t) ++ "." ++ formatOf options).

(** An environment in which the image cannot be measured. *)
Definition metadataFailsEnv : Env :=
  mkEnv "darwin" "/srv/screenshots" (fun _ => failedExec)
    (fun _ => SyncDone (Some "RAW")) (fun _ => None) (Ok "RAW")
    (fun buffer _ => Ok ("JPEG:" ++ buffer))
    (fun _ => Throw "Input buffer contains unsupported image format")
    (fun buffer _ _ _ => Ok ("CROP:" ++ buffer))
    (fun buffer => "b64:" ++ buffer)
    (fun text => String.substring 4 (String.length text) text)
    N.of_nat (fun _ => "2024-05-01T10:00:00.000Z") (fun _ => 7%N).

(** Every collaborator of the capture functions does its work: the
    desktop capture and each [screencapture] command leave an image,
    and no conversion, crop, measurement or write fails. *)
Definition everythingWorks (env : Env) : Prop :=
  (exists img, screenshotDesktop env = Ok img)
  /\ (forall cmd, exists raw, execSyncResult env cmd = SyncDone (Some raw))
  /\ (forall buffer quality, exists out, sharpJpeg env buffer quality = Ok out)
  /\ (forall buffer region format quality,
        exists out, sharpExtractJpeg env buffer region format quality = Ok out)
  /\ (forall buffer, exists size, sharpMetadata env buffer = Ok size)
  /\ (forall path, writeFileError env path = None).

(** The format is one of the two the schemas of the capture tools
    allow ([enum: ['png', 'jpg']]). *)
Definition schemaFormat (options : Options) : Prop :=
  formatOf options = "png" \/ formatOf options = "jpg".

(** An integer that a JavaScript number holds exactly. *)
Definition safeInteger (z : Z) : Prop := - 2 ^ 53 <= z <= 2 ^ 53.

(** The four bounds of a window of the helper are integers that
    JavaScript numbers hold exactly. *)
Definition exactBounds (w : SwiftWindow) : Prop :=
  safeInteger (sw_x w) /\ safeInteger (sw_y w)
  /\ safeInteger (sw_width w) /\ safeInteger (sw_height w).

(** The four numbers of a region are integers that JavaScript numbers
    hold exactly. *)
Definition safeRegion (r : Region) : Prop :=
  safeInteger (rx r) /\ safeInteger (ry r)
  /\ safeInteger (rwidth r) /\ safeInteger (rheight r).




(** * Properties *)

(** ** The primitives and the parsers on examples *)

Example split_pipe :
  Js.split "1234|Safari|My Page" "|" = ["1234"; "Safari"; "My Page"].
Proof. reflexivity. Qed.

Example split_comma_space :
  Js.split "Finder, Safari, , Mail" ", " = ["Finder"; "Safari"; EmptyString; "Mail"].
Proof. reflexivity. Qed.

Example split_empty : Js.split EmptyString "|" = [EmptyString].
Proof. reflexivity. Qed.

Example trim_both : Js.trim "  a b  " = "a b".
Proof. reflexivity. Qed.

Example parseInt_examples :
  Js.parseInt (Some "42px") = Js.Num 42 /\ Js.parseInt (Some " -7") = Js.Num (-7)
  /\ Js.parseInt None = Js.NaN /\ Js.parseInt (Some EmptyString) = Js.NaN.
Proof. repeat split; reflexivity. Qed.

Example show_examples :
  Js.showN 0 = "0" /\ Js.showNat 12 = "12" /\ Js.showZ (-5) = "-5".
Proof. repeat split; reflexivity. Qed.

Example parseSwift_example :
  parseSwiftOutput ("77|Safari|Start Page|0|25|1440|875" ++ Js.lf)
  = [ mkWindow "77" (Some "Start Page") (Some "Safari")
        (Some (mkBounds (Js.Num 0) (Js.Num 25) (Js.Num 1440) (Js.Num 875))) ].
Proof. reflexivity. Qed.

Example parseAppleScript_example :
  parseAppleScriptOutput ("Safari|Start Page|77" ++ Js.lf ++ "Mail|Inbox|12" ++ Js.lf)
  = [ mkWindow "77" (Some "Start Page") (Some "Safari") (Some zeroBounds);
      mkWindow "12" (Some "Inbox") (Some "Mail") (Some zeroBounds) ].
Proof. reflexivity. Qed.

Example parseScreencapture_example :
  parseScreencaptureOutput ("usage: x" ++ Js.lf ++ "1234. Safari Start" ++ Js.lf ++ "9. Mail")
  = [ mkWindow "1234" (Some "Safari Start") (Some "Safari") (Some zeroBounds);
      mkWindow "9" (Some "Mail") (Some "Mail") (Some zeroBounds) ].
Proof. reflexivity. Qed.

Example parseApplications_example :
  parseApplications ("Finder, Safari" ++ Js.lf)
  = [ mkWindow "app_0" (Some "Finder Window") (Some "Finder") (Some zeroBounds);
      mkWindow "app_1" (Some "Safari Window") (Some "Safari") (Some zeroBounds) ]
  /\ parseApplications EmptyString = [].
Proof. split; reflexivity. Qed.

(** ** The monad *)

Lemma bind_ok {A B : Type} (m : M A) (k : A -> M B) (st st' : State) (a : A) :
  m st = (Ok a, st') -> bind m k st = k a st'.
Proof. intros H. unfold bind. now rewrite H. Qed.

Lemma bind_throw {A B : Type} (m : M A) (k : A -> M B) (st st' : State) (e : string) :
  m st = (Throw e, st') -> bind m k st = (Throw e, st').
Proof. intros H. unfold bind. now rewrite H. Qed.

Lemma tryCatch_ok {A : Type} (m : M A) (h : string -> M A) (st st' : State) (a : A) :
  m st = (Ok a, st') -> tryCatch m h st = (Ok a, st').
Proof. intros H. unfold tryCatch. now rewrite H. Qed.

Lemma tryCatch_throw {A : Type} (m : M A) (h : string -> M A) (st st' : State)
    (e : string) :
  m st = (Throw e, st') -> tryCatch m h st = h e st'.
Proof. intros H. unfold tryCatch. now rewrite H. Qed.

(** ** The cascade *)

Lemma cascade_first (s1 s2 s3 s4 : M (list WindowRecord)) st ws st' :
  s1 st = (Ok ws, st') -> ws <> [] -> cascade s1 s2 s3 s4 st = (Ok ws, st').
Proof.
  intros H1 Hne. unfold cascade. apply tryCatch_ok.
  rewrite (bind_ok _ _ _ _ _ H1). destruct ws; [congruence | reflexivity].
Qed.

Lemma cascade_second (s1 s2 s3 s4 : M (list WindowRecord)) st st1 ws st' :
  s1 st = (Ok [], st1) -> s2 st1 = (Ok ws, st') -> ws <> [] ->
  cascade s1 s2 s3 s4 st = (Ok ws, st').
Proof.
  intros H1 H2 Hne. unfold cascade. apply tryCatch_ok.
  rewrite (bind_ok _ _ _ _ _ H1), (bind_ok _ _ _ _ _ H2).
  destruct ws; [congruence | reflexivity].
Qed.

Lemma cascade_third (s1 s2 s3 s4 : M (list WindowRecord)) st st1 st2 ws st' :
  s1 st = (Ok [], st1) -> s2 st1 = (Ok [], st2) -> s3 st2 = (Ok ws, st') ->
  ws <> [] -> cascade s1 s2 s3 s4 st = (Ok ws, st').
Proof.
  intros H1 H2 H3 Hne. unfold cascade. apply tryCatch_ok.
  rewrite (bind_ok _ _ _ _ _ H1), (bind_ok _ _ _ _ _ H2), (bind_ok _ _ _ _ _ H3).
  destruct ws; [congruence | reflexivity].
Qed.

(** The last strategy's answer is returned whatever it is. *)
Lemma cascade_fourth (s1 s2 s3 s4 : M (list WindowRecord)) st st1 st2 st3 ws st' :
  s1 st = (Ok [], st1) -> s2 st1 = (Ok [], st2) -> s3 st2 = (Ok [], st3) ->
  s4 st3 = (Ok ws, st') -> cascade s1 s2 s3 s4 st = (Ok ws, st').
Proof.
  intros H1 H2 H3 H4. unfold cascade. apply tryCatch_ok.
  rewrite (bind_ok _ _ _ _ _ H1), (bind_ok _ _ _ _ _ H2), (bind_ok _ _ _ _ _ H3).
  now rewrite (bind_ok _ _ _ _ _ H4).
Qed.

(** A strategy that throws ends the cascade with the empty list: the
    [catch] block of [getWindowList]. *)
Lemma cascade_catches (s1 s2 s3 s4 : M (list WindowRecord)) st st1 e :
  s1 st = (Throw e, st1) -> cascade s1 s2 s3 s4 st = (Ok [], st1).
Proof.
  intros H1. unfold cascade.
  rewrite (tryCatch_throw _ _ st st1 e); [reflexivity | ].
  now apply bind_throw.
Qed.

(** C2. For every k in 1..4: when strategies 1..k-1 return empty lists
    and strategy k returns a non-empty list, the cascade returns exactly
    that list and stops in the state strategy k left.  The strategies
    after k are arbitrary and unconstrained, so nothing of them is
    merged in and none of them runs. *)
Theorem cascade_first_nonempty_wins :
  forall (s1 s2 s3 s4 : M (list WindowRecord)) (k : nat)
         (st st' : State) (ws : list WindowRecord),
    (1 <= k <= 4)%nat ->
    firstNonEmpty (firstn k [s1; s2; s3; s4]) st ws st' ->
    cascade s1 s2 s3 s4 st = (Ok ws, st').
Proof.
  intros s1 s2 s3 s4 k st st' ws Hk Hrun.
  destruct k as [|[|[|[|[|k]]]]]; try lia; simpl in Hrun.
  - inversion Hrun; subst; [ | match goal with H : firstNonEmpty [] _ _ _ |- _ => inversion H end ].
    now apply cascade_first.
  - inversion Hrun as [ | ? ? ? ? ? ? Ha Hb ]; subst.
    inversion Hb as [ ? ? ? ? Hc Hd | ? ? ? ? ? ? ? He ]; subst; [ | inversion He ].
    eapply cascade_second; eauto.
  - inversion Hrun as [ | ? ? ? ? ? ? Ha Hb ]; subst.
    inversion Hb as [ | ? ? ? ? ? ? Hc Hd ]; subst.
    inversion Hd as [ ? ? ? ? He Hf | ? ? ? ? ? ? ? Hg ]; subst; [ | inversion Hg ].
    eapply cascade_third; eauto.
  - inversion Hrun as [ | ? ? ? ? ? ? Ha Hb ]; subst.
    inversion Hb as [ | ? ? ? ? ? ? Hc Hd ]; subst.
    inversion Hd as [ | ? ? ? ? ? ? He Hf ]; subst.
    inversion Hf as [ ? ? ? ? Hg Hh | ? ? ? ? ? ? ? Hi ]; subst; [ | inversion Hi ].
    eapply cascade_fourth; eauto.
Qed.

(** Witness for C2: the Swift helper fails, the AppleScript reports one
    window, and the cascade returns that window. *)
Lemma cascade_first_nonempty_wins_witness :
  cascade (getWindowListSwift safariEnv) (getWindowListAppleScript safariEnv)
    (getWindowListScreencapture safariEnv) (getApplicationsAsFallback safariEnv)
    initialState
  = (Ok [mkWindow "77" (Some "Start Page") (Some "Safari") (Some zeroBounds)],
     snd (getWindowListAppleScript safariEnv
            (snd (getWindowListSwift safariEnv initialState)))).
Proof.
  apply (cascade_first_nonempty_wins _ _ _ _ 2); [lia | ].
  simpl. eapply fne_skip.
  - vm_compute. reflexivity.
  - apply fne_hit.
    + vm_compute. reflexivity.
    + discriminate.
Defined.

(** On any platform but macOS the function throws before any strategy
    runs. *)
Lemma getWindowList_other_platform (env : Env) (st : State) :
  String.eqb (platform env) "darwin" = false ->
  getWindowList env st = (Throw "Window listing is only supported on macOS", st).
Proof. intros H. unfold getWindowList. now rewrite H. Qed.

(** Strategy 4 returns the permission-issue record exactly when the
    process listing fails. *)
Lemma fallback_on_error (env : Env) (st : State) (e : string) :
  exec_error (exec env listProcessesCommand) = Some e ->
  fst (getApplicationsAsFallback env st) = Ok [dummyWindow].
Proof.
  intros H. unfold getApplicationsAsFallback, execAsync, bind, emit, ret.
  simpl. now rewrite H.
Qed.

(** Counterexample to C1 as stated: when every child process succeeds
    and prints nothing, each of the four strategies returns the empty
    list, and so does the cascade: no sentinel record is produced. *)
Lemma getWindowList_all_empty_counterexample :
  (forall st, fst (getWindowListSwift silentEnv st) = Ok [])
  /\ (forall st, fst (getWindowListAppleScript silentEnv st) = Ok [])
  /\ (forall st, fst (getWindowListScreencapture silentEnv st) = Ok [])
  /\ (forall st, fst (getApplicationsAsFallback silentEnv st) = Ok [])
  /\ fst (getWindowList silentEnv initialState) = Ok [].
Proof. repeat split; intros; reflexivity. Qed.

(** C1 (amended). On macOS [getWindowList] always returns a list and
    never throws.  When strategies 1 to 3 return empty lists and the
    process listing of strategy 4 fails, the list it returns holds
    exactly one record, the permission-issue sentinel. *)
Theorem getWindowList_sentinel :
  forall (env : Env) (st : State),
    platform env = "darwin" ->
    (exists ws st', getWindowList env st = (Ok ws, st'))
    /\ forall (st1 st2 st3 : State) (e : string),
         getWindowListSwift env st = (Ok [], st1) ->
         getWindowListAppleScript env st1 = (Ok [], st2) ->
         getWindowListScreencapture env st2 = (Ok [], st3) ->
         exec_error (exec env listProcessesCommand) = Some e ->
         getWindowList env st
         = (Ok [dummyWindow], snd (getApplicationsAsFallback env st3)).
Proof.
  intros env st Hp. unfold getWindowList. rewrite Hp. simpl. split.
  - unfold cascade, tryCatch.
    match goal with
    | |- context [let (_, _) := ?m st in _] => destruct (m st) as [[ws|e] st']
    end; eauto.
  - intros st1 st2 st3 e H1 H2 H3 He.
    eapply cascade_fourth; eauto.
    pose proof (fallback_on_error env st3 e He) as Hf.
    destruct (getApplicationsAsFallback env st3) as [r st4]. simpl in *. now subst.
Qed.

(** Witness for C1 (amended): every child process fails. *)
Lemma getWindowList_sentinel_witness :
  getWindowList deniedEnv initialState
  = (Ok [dummyWindow],
     snd (getApplicationsAsFallback deniedEnv
            (snd (getWindowListScreencapture deniedEnv
               (snd (getWindowListAppleScript deniedEnv
                  (snd (getWindowListSwift deniedEnv initialState)))))))).
Proof.
  apply (proj2 (getWindowList_sentinel deniedEnv initialState eq_refl)
           (snd (getWindowListSwift deniedEnv initialState))
           (snd (getWindowListAppleScript deniedEnv
                   (snd (getWindowListSwift deniedEnv initialState))))
           (snd (getWindowListScreencapture deniedEnv
                   (snd (getWindowListAppleScript deniedEnv
                      (snd (getWindowListSwift deniedEnv initialState))))))
           "Command failed");
    vm_compute; reflexivity.
Defined.

(** ** The parsers *)

(** Counterexample to C3 as stated: on the line [1234|Safari|My Page]
    the AppleScript parser reads application, title, id in that order,
    and the Swift parser finds no geometry fields; neither returns the
    record with id [1234], owner [Safari], title [My Page] and zero
    bounds. *)
Lemma parse_1234_Safari_counterexample :
  parseAppleScriptOutput "1234|Safari|My Page"
  = [mkWindow "My Page" (Some "Safari") (Some "1234") (Some zeroBounds)]
  /\ parseSwiftOutput "1234|Safari|My Page"
     = [mkWindow "1234" (Some "My Page") (Some "Safari")
          (Some (mkBounds Js.NaN Js.NaN Js.NaN Js.NaN))]
  /\ parseAppleScriptOutput "1234|Safari|My Page"
     <> [mkWindow "1234" (Some "My Page") (Some "Safari") (Some zeroBounds)]
  /\ parseSwiftOutput "1234|Safari|My Page"
     <> [mkWindow "1234" (Some "My Page") (Some "Safari") (Some zeroBounds)].
Proof.
  split; [reflexivity | ]. split; [reflexivity | ].
  split; vm_compute; discriminate.
Qed.

(** C3 (amended). Parsing the single AppleScript output line
    [Safari|My Page|1234] (application, title, id) yields exactly one
    window record with id [1234], owner name [Safari], title [My Page]
    and bounds [{x:0, y:0, width:0, height:0}]. *)
Theorem parse_Safari_MyPage_1234 :
  parseAppleScriptOutput "Safari|My Page|1234"
  = [mkWindow "1234" (Some "My Page") (Some "Safari") (Some zeroBounds)].
Proof. reflexivity. Qed.



Lemma prefix_lf (c : ascii) (s : string) :
  String.prefix Js.lf (String c s) = Ascii.eqb c Js.lf_char.
Proof.
  change (String.prefix Js.lf (String c s))
    with (if ascii_dec Js.lf_char c then String.prefix EmptyString s else false).
  destruct (ascii_dec Js.lf_char c) as [E|E].
  - subst. rewrite Ascii.eqb_refl. now destruct s.
  - symmetry. apply Ascii.eqb_neq. congruence.
Qed.


Lemma split_first_line (l rest : string) :
  noLf l = true ->
  Js.splitFrom Js.lf O (l ++ Js.lf ++ rest) = l :: Js.splitFrom Js.lf O rest.
Proof.
  induction l as [|c l IH]; intros H.
  - change (EmptyString ++ Js.lf ++ rest) with (String Js.lf_char rest).
    cbn [Js.splitFrom]. rewrite prefix_lf, Ascii.eqb_refl. reflexivity.
  - simpl in H. apply andb_prop in H as [Hc Hl].
    change (String c l ++ Js.lf ++ rest) with (String c (l ++ Js.lf ++ rest)).
    cbn [Js.splitFrom]. rewrite prefix_lf.
    apply negb_true_iff in Hc. rewrite Hc, (IH Hl). reflexivity.
Qed.




(** *** The [screencapture] scanner works line by line *)








(** *** Numbered lines and lines without a number *)











(** *** The entries of the process listing *)









(** ** How computations move the state

    [steps R m] is proved by following the structure of [m], for any
    relation [R] that is reflexive, transitive and respected by the
    primitive state updates.  The effects a relation tolerates are
    given by [allowed]. *)

Section StateRelation.

Variable R : State -> State -> Prop.
Variable allowed : Effect -> bool.
Hypothesis R_refl : forall st, R st st.
Hypothesis R_trans : forall a b c, R a b -> R b c -> R a c.
Hypothesis R_effect : forall st e, allowed e = true -> R st (withEffect st e).
Hypothesis R_files : forall st fs, R st (withFiles st fs).
Hypothesis R_tick : forall st, R st (withTick st).

Lemma steps_ret {A : Type} (a : A) : steps R (ret a).
Proof. intros st. apply R_refl. Qed.

Lemma steps_throw {A : Type} (e : string) : steps R (@throw A e).
Proof. intros st. apply R_refl. Qed.

Lemma steps_lift {A : Type} (r : Res A) : steps R (lift r).
Proof. intros st. apply R_refl. Qed.

Lemma steps_emit (e : Effect) : allowed e = true -> steps R (emit e).
Proof. intros H st. now apply R_effect. Qed.

Lemma steps_setFiles f : steps R (setFiles f).
Proof. intros st. apply R_files. Qed.

Lemma steps_tick : steps R tick.
Proof. intros st. apply R_tick. Qed.

Lemma steps_readFile (path : string) : steps R (readFile path).
Proof. intros st. unfold readFile. destruct (files st !! path); apply R_refl. Qed.

Lemma steps_bind {A B : Type} (m : M A) (k : A -> M B) :
  steps R m -> (forall a, steps R (k a)) -> steps R (bind m k).
Proof.
  intros Hm Hk st. unfold bind. specialize (Hm st).
  destruct (m st) as [[a|e] st1]; simpl in *.
  - eapply R_trans; [exact Hm | apply Hk].
  - exact Hm.
Qed.

Lemma steps_tryCatch {A : Type} (m : M A) (h : string -> M A) :
  steps R m -> (forall e, steps R (h e)) -> steps R (tryCatch m h).
Proof.
  intros Hm Hh st. unfold tryCatch. specialize (Hm st).
  destruct (m st) as [[a|e] st1]; simpl in *.
  - exact Hm.
  - eapply R_trans; [exact Hm | apply Hh].
Qed.

Ltac steps_tac :=
  repeat first
    [ apply steps_ret | apply steps_throw | apply steps_lift
    | apply steps_emit; solve [reflexivity | auto]
    | apply steps_setFiles | apply steps_tick | apply steps_readFile
    | apply steps_bind; [ | intros ? ]
    | apply steps_tryCatch; [ | intros ? ]
    | match goal with
      | |- steps _ (match ?x with _ => _ end) => destruct x
      end ].

Lemma steps_execAsync env cmd :
  allowed (Exec cmd) = true -> steps R (execAsync env cmd).
Proof. intros H. unfold execAsync. steps_tac. Qed.

Lemma steps_execSync env cmd :
  allowed (ExecSync cmd) = true -> steps R (execSync env cmd).
Proof. intros H. unfold execSync. steps_tac. Qed.

Lemma steps_writeFile env path data :
  allowed (WriteFile path) = true -> steps R (writeFile env path data).
Proof. intros H. unfold writeFile. steps_tac. Qed.

Lemma steps_removeFile path :
  allowed (RemoveFile path) = true -> steps R (removeFile path).
Proof. intros H. unfold removeFile. steps_tac. Qed.

Lemma steps_generateId env : steps R (generateId env).
Proof. unfold generateId. steps_tac. Qed.

Lemma steps_isoNow env : steps R (isoNow env).
Proof. unfold isoNow. steps_tac. Qed.

Lemma steps_tempFilePathNow env : steps R (tempFilePathNow env).
Proof. unfold tempFilePathNow. steps_tac. Qed.

Lemma steps_convertIfNeeded env format quality buffer :
  steps R (convertIfNeeded env format quality buffer).
Proof. unfold convertIfNeeded. steps_tac. Qed.

Lemma steps_saveIfRequested env filePath buffer :
  (forall path, allowed (WriteFile path) = true) ->
  steps R (saveIfRequested env filePath buffer).
Proof.
  intros H. unfold saveIfRequested.
  destruct filePath; [now apply steps_writeFile | steps_tac].
Qed.

Ltac steps_all :=
  repeat first
    [ apply steps_execAsync; solve [reflexivity | auto]
    | apply steps_execSync; solve [reflexivity | auto]
    | apply steps_writeFile; solve [reflexivity | auto]
    | apply steps_removeFile; solve [reflexivity | auto]
    | apply steps_saveIfRequested; solve [reflexivity | auto]
    | apply steps_generateId | apply steps_isoNow
    | apply steps_tempFilePathNow | apply steps_convertIfNeeded
    | progress steps_tac ].

Lemma steps_runScreencapture env cmd tempFilePath :
  allowed (ExecSync cmd) = true -> steps R (runScreencapture env cmd tempFilePath).
Proof. intros H. unfold runScreencapture. steps_all. Qed.

(** *** With every effect tolerated *)

Hypothesis allowed_all : forall e, allowed e = true.

Lemma steps_getWindowList env : steps R (getWindowList env).
Proof.
  unfold getWindowList, cascade, getWindowListSwift, getWindowListAppleScript,
    getWindowListScreencapture, getApplicationsAsFallback.
  steps_all.
Qed.

Hypothesis R_shot : forall st shot, R st (withShot st shot).

Lemma steps_addToHistory shot : steps R (addToHistory shot).
Proof. intros st. apply R_shot. Qed.

Lemma steps_captureFullScreen env options : steps R (captureFullScreen env options).
Proof.
  unfold captureFullScreen. cbv zeta.
  repeat first [ apply steps_addToHistory | progress steps_all ].
Qed.

Lemma steps_captureWindow env options : steps R (captureWindow env options).
Proof.
  unfold captureWindow. cbv zeta.
  repeat first [ apply steps_addToHistory | apply steps_getWindowList
               | apply steps_runScreencapture; solve [auto]
               | progress steps_all ].
Qed.

Lemma steps_captureRegion env options : steps R (captureRegion env options).
Proof.
  unfold captureRegion. cbv zeta.
  repeat first [ apply steps_addToHistory | apply steps_captureFullScreen
               | apply steps_runScreencapture; solve [auto]
               | progress steps_all ].
Qed.

End StateRelation.

(** ** The history *)

Lemma keepsBound_refl (st : State) : keepsBound st st.
Proof. intros H. exact H. Qed.

Lemma keepsBound_trans (a b c : State) :
  keepsBound a b -> keepsBound b c -> keepsBound a c.
Proof. unfold keepsBound. auto. Qed.

Lemma addToHistoryList_length (h : list ScreenshotData) (s : ScreenshotData) :
  (length h <= 100)%nat -> (length (addToHistoryList h s) <= 100)%nat.
Proof.
  intros H. unfold addToHistoryList.
  destruct (Nat.leb_spec 100 (length h)) as [Hge|Hlt];
    rewrite length_app; simpl.
  - destruct h; simpl in *; lia.
  - lia.
Qed.

Lemma runCall_keepsBound (st : State) (c : Call) :
  (length (history st) <= 100)%nat ->
  (length (history (snd (runCall st c))) <= 100)%nat.
Proof.
  intros H.
  assert (Hh : forall view m, steps keepsBound m ->
             (length (history (snd (handle view m st))) <= 100)%nat).
  { intros view m Hm. unfold handle. specialize (Hm st H).
    destruct (m st) as [[a|e] st1]; exact Hm. }
  destruct c as [env params|env params|env params]; simpl; apply Hh;
    [ apply (steps_captureFullScreen keepsBound (fun _ => true))
    | apply (steps_captureWindow keepsBound (fun _ => true))
    | apply (steps_captureRegion keepsBound (fun _ => true)) ];
    try exact keepsBound_refl; try exact keepsBound_trans;
    try (intros; exact (fun H => H)); try reflexivity;
    try (intros s0 shot; exact (addToHistoryList_length (history s0) shot)).
Qed.

Lemma runCalls_keepsBound (calls : list Call) (st : State) :
  (length (history st) <= 100)%nat ->
  (length (history (runCalls calls st)) <= 100)%nat.
Proof.
  revert st. induction calls as [|c calls IH]; intros st H; simpl; [exact H | ].
  apply IH. now apply runCall_keepsBound.
Qed.

Lemma addAll_history (shots : list ScreenshotData) (st : State) :
  history (addAll shots st) = fold_left addToHistoryList shots (history st).
Proof.
  revert st. induction shots as [|s shots IH]; intros st; simpl; [reflexivity | ].
  now rewrite IH.
Qed.

(** Below the capacity nothing is evicted. *)
Lemma fold_add_below (shots h : list ScreenshotData) :
  (length h + length shots <= 100)%nat ->
  fold_left addToHistoryList shots h = (h ++ shots)%list.
Proof.
  revert h. induction shots as [|s shots IH]; intros h H; simpl in *.
  - now rewrite app_nil_r.
  - rewrite IH.
    + unfold addToHistoryList.
      destruct (Nat.leb_spec 100 (length h)); [lia | ].
      now rewrite <- app_assoc.
    + unfold addToHistoryList.
      destruct (Nat.leb_spec 100 (length h)); [lia | ].
      rewrite length_app. simpl. lia.
Qed.

(** The 101st screenshot pushes the first one out. *)
Lemma fold_add_101 (first : ScreenshotData) (rest : list ScreenshotData) :
  length rest = 100%nat ->
  fold_left addToHistoryList (first :: rest) [] = rest.
Proof.
  intros Hlen.
  destruct (exists_last (l := rest)) as (front & lastShot & ->);
    [ intros ->; discriminate | ].
  rewrite length_app in Hlen. simpl in Hlen.
  change (first :: front ++ [lastShot])%list
    with ((first :: front) ++ [lastShot])%list.
  rewrite fold_left_app, (fold_add_below (first :: front) []) by (simpl; lia).
  simpl. unfold addToHistoryList.
  destruct (Nat.leb_spec 100 (length (first :: front))) as [_|Hlt];
    [reflexivity | simpl in Hlt; lia].
Qed.

Lemma find_absent_id (h : list ScreenshotData) (id : string) :
  ~ In id (map sd_id h) ->
  List.find (fun screenshot => String.eqb (sd_id screenshot) id) h = None.
Proof.
  induction h as [|s h IH]; intros Hn; simpl; [reflexivity | ].
  destruct (String.eqb_spec (sd_id s) id) as [E|E].
  - exfalso. apply Hn. simpl. now left.
  - apply IH. intros Hin. apply Hn. simpl. now right.
Qed.

Lemma find_unique_id (h : list ScreenshotData) (s : ScreenshotData) :
  List.NoDup (map sd_id h) -> In s h ->
  List.find (fun screenshot => String.eqb (sd_id screenshot) (sd_id s)) h = Some s.
Proof.
  induction h as [|x h IH]; intros Hnd Hin; [destruct Hin | ].
  simpl in Hnd. inversion Hnd as [|? ? Hx Hrest]; subst. simpl.
  destruct (String.eqb_spec (sd_id x) (sd_id s)) as [E|E].
  - destruct Hin as [->|Hin]; [reflexivity | ].
    exfalso. apply Hx. rewrite E. now apply in_map.
  - destruct Hin as [->|Hin]; [congruence | now apply IH].
Qed.

(** C6, at an input at which the code fails the claim.  [generateId]
    is documented to generate a unique id, but it builds the id from
    the millisecond of the clock and a random number below 1000, and
    two calls can return the same id.  Off macOS a region capture adds
    two screenshots, the whole screen and then the region, each with an
    id from [generateId]; here both ids are drawn in the same
    millisecond with the same random number and are equal.  After 99
    further captures 101 screenshots have been added, the history
    holds 100 and begins with the region, the whole-screen screenshot,
    the oldest, having been evicted; yet [getScreenshotById] still
    answers for the id of that first screenshot, which the claim has
    no longer retrievable. *)
Lemma repeated_id_outlives_eviction :
  let first := CallRegion sameMillisecondEnv smallRegion in
  let calls := first :: repeat (CallFullScreen sameMillisecondEnv inMemory) 99 in
  map sd_id (history (runCalls [first] initialState)) = ["ss_1_7"; "ss_1_7"]
  /\ map sd_type (history (runCalls [first] initialState)) = ["fullscreen"; "region"]
  /\ length (history (runCalls calls initialState)) = 100%nat
  /\ option_map sd_type (head (history (runCalls calls initialState))) = Some "region"
  /\ getScreenshotById (runCalls calls initialState) "ss_1_7" <> None.
Proof.
  cbv zeta. repeat split; try (vm_compute; reflexivity). vm_compute. discriminate.
Qed.

(** ** Strings *)

Lemma prefix_app (p s : string) : String.prefix p (p ++ s) = true.
Proof.
  induction p as [|c p IH]; simpl; [now destruct s | ].
  destruct (ascii_dec c c); [exact IH | congruence].
Qed.

Lemma append_inj_l (p a b : string) : p ++ a = p ++ b -> a = b.
Proof.
  induction p as [|c p IH]; simpl; intros H; [exact H | ].
  injection H as H. now apply IH.
Qed.

Lemma append_assoc (a b c : string) : (a ++ b) ++ c = a ++ (b ++ c).
Proof.
  induction a as [|x a IH]; [reflexivity | ].
  change (String x ((a ++ b) ++ c) = String x (a ++ b ++ c)). now rewrite IH.
Qed.

(** ** Validation in [captureRegion] *)

(** A [try] block whose [catch] rethrows with a prefix either returns
    or throws a message that begins with that prefix. *)
Lemma tryCatch_rethrow {A : Type} (m : M A) (p : string) (st : State) :
  match fst (tryCatch m (fun message => throw (p ++ message)) st) with
  | Ok _ => True
  | Throw e => Js.startsWith e p = true
  end.
Proof.
  unfold tryCatch, throw. destruct (m st) as [[a|e] st1]; simpl; [exact I | ].
  apply prefix_app.
Qed.

(** C8. When any of [x], [y], [width], [height] is absent,
    [capture_region] answers [{success: false, error}] with the
    validation message and the state is untouched: nothing was spawned
    or written and the history is the same.  When all four are present
    the validation passes: the call either succeeds or fails with a
    message of the capture itself. *)
Theorem captureRegion_requires_coordinates :
  forall (env : Env) (params : Options) (st : State),
    (opt_x params = None \/ opt_y params = None
     \/ opt_width params = None \/ opt_height params = None ->
     captureRegionHandler env params st = (Failure regionRequiredMessage, st))
    /\ (opt_x params <> None -> opt_y params <> None ->
        opt_width params <> None -> opt_height params <> None ->
        match fst (captureRegionHandler env params st) with
        | Success _ => True
        | Failure e => Js.startsWith e "Failed to capture region: " = true
                       /\ e <> regionRequiredMessage
        end).
Proof.
  intros env params st. unfold captureRegionHandler, handle, captureRegion.
  destruct (opt_x params) as [x|], (opt_y params) as [y|],
    (opt_width params) as [w|], (opt_height params) as [h|]; cbv zeta; split;
    try (intros _; reflexivity); try (intros; congruence);
    try (intros [H|[H|[H|H]]]; discriminate).
  intros _ _ _ _.
  match goal with
  | |- context [tryCatch ?m ?h st] =>
      pose proof (tryCatch_rethrow m "Failed to capture region: " st) as Hr;
      destruct (tryCatch m h st) as [[a|e] st1]
  end; simpl in *; [exact I | ].
  split; [exact Hr | ].
  intros ->. vm_compute in Hr. discriminate.
Qed.

(** Witness for C8: a call without [height] changes nothing, and a
    call with all four coordinates gets past the validation. *)
Lemma captureRegion_requires_coordinates_witness :
  captureRegionHandler deniedEnv
    (mkOptions None None None None (Some 100) (Some 100) (Some 400) None) initialState
  = (Failure regionRequiredMessage, initialState)
  /\ match fst (captureRegionHandler deniedEnv
                  (mkOptions None None None None (Some 100) (Some 100) (Some 400)
                     (Some 300)) initialState) with
     | Success _ => True
     | Failure e => Js.startsWith e "Failed to capture region: " = true
                    /\ e <> regionRequiredMessage
     end.
Proof.
  split.
  - apply (captureRegion_requires_coordinates deniedEnv
             (mkOptions None None None None (Some 100) (Some 100) (Some 400) None)
             initialState).
    simpl. right. right. right. reflexivity.
  - apply (captureRegion_requires_coordinates deniedEnv
             (mkOptions None None None None (Some 100) (Some 100) (Some 400)
                (Some 300)) initialState); simpl; discriminate.
Defined.

(** ** Effects of window discovery *)

Ltac run_discovery :=
  cbv [getWindowList cascade getWindowListSwift getWindowListAppleScript
       getWindowListScreencapture getApplicationsAsFallback execAsync execSync
       writeFile removeFile setFiles emit bind ret throw tryCatch].

Ltac split_scrutinee :=
  match goal with
  | |- context [match ?x with _ => _ end] =>
      lazymatch x with
      | context [match _ with _ => _ end] => fail
      | _ => destruct x eqn:?
      end
  end.

(** Strategies 2 to 4 always return, after their one child process. *)
Lemma appleScript_run (env : Env) (st : State) :
  exists ws,
    getWindowListAppleScript env st
    = (Ok ws, mkState (history st) (files st)
                (trace st ++ [Exec ("osascript -e '" ++ appleScript ++ "'")]) (ticks st)).
Proof.
  run_discovery. destruct (exec_error _); eexists; reflexivity.
Qed.

Lemma screencapture_run (env : Env) (st : State) :
  exists ws,
    getWindowListScreencapture env st
    = (Ok ws, mkState (history st) (files st)
                (trace st ++ [Exec "screencapture -lc"]) (ticks st)).
Proof.
  run_discovery. destruct (exec_error _); eexists; reflexivity.
Qed.

Lemma fallback_run (env : Env) (st : State) :
  exists ws,
    getApplicationsAsFallback env st
    = (Ok ws, mkState (history st) (files st)
                (trace st ++ [Exec listProcessesCommand]) (ticks st)).
Proof.
  run_discovery. destruct (exec_error _); eexists; reflexivity.
Qed.

(** Strategy 1 performs at most its four effects, and all four when it
    returns. *)
Lemma swift_run (env : Env) (st : State) :
  exists n,
    trace (snd (getWindowListSwift env st))
    = (trace st ++ firstn n (discoveryEffects env))%list
    /\ ticks (snd (getWindowListSwift env st)) = ticks st
    /\ history (snd (getWindowListSwift env st)) = history st
    /\ match fst (getWindowListSwift env st) with
       | Ok _ => n = 4%nat
       | Throw _ => (n < 4)%nat
       end.
Proof.
  run_discovery.
  destruct (writeFileError _ _); cbv beta iota;
    [ exists 1%nat; cbn; repeat split; lia | ].
  destruct (execSyncResult _ _); cbv beta iota;
    [ exists 2%nat; cbn; rewrite <- app_assoc; repeat split; lia | ].
  exists 4%nat. destruct (exec_error _); cbn; repeat rewrite <- app_assoc;
    repeat split; reflexivity.
Qed.

(** Discovery performs an initial segment of [discoveryEffects], reads
    neither the clock nor the random generator, and leaves the history
    alone. *)
Lemma getWindowList_effects (env : Env) (st : State) :
  exists n,
    trace (snd (getWindowList env st)) = (trace st ++ firstn n (discoveryEffects env))%list
    /\ ticks (snd (getWindowList env st)) = ticks st
    /\ history (snd (getWindowList env st)) = history st.
Proof.
  unfold getWindowList. destruct (String.eqb (platform env) "darwin");
    [ | exists 0%nat; cbn; rewrite app_nil_r; auto ].
  unfold cascade, tryCatch, bind.
  destruct (swift_run env st) as (n & Ht & Hk & Hh & Hr).
  destruct (getWindowListSwift env st) as [[ws1|e1] st1]; cbn [fst snd] in *;
    [ | exists n; auto ].
  subst n. destruct ws1 as [|w1 ws1]; [ | exists 4%nat; auto ].
  destruct (appleScript_run env st1) as (ws2 & ->).
  destruct ws2 as [|w2 ws2];
    [ | exists 5%nat; cbn [ret snd trace ticks history]; rewrite Ht, <- app_assoc; auto ].
  match goal with
  | |- context [getWindowListScreencapture env ?s] =>
      destruct (screencapture_run env s) as (ws3 & ->)
  end.
  destruct ws3 as [|w3 ws3];
    [ | exists 6%nat; cbn [ret snd trace ticks history];
        rewrite Ht, <- !app_assoc; auto ].
  match goal with
  | |- context [getApplicationsAsFallback env ?s] =>
      destruct (fallback_run env s) as (ws4 & ->)
  end.
  exists 7%nat. cbn [ret snd trace ticks history]. rewrite Ht, <- !app_assoc. auto.
Qed.

(** ** [capture_window] with a title that matches no window *)

(** Counterexample to C7 as stated.  With only [screencapture -lc]
    reporting a window and a title that matches none, the call fails
    with the not-found message, yet discovery has written the temporary
    file [getWindows.swift] and has invoked the capture tool in its
    list mode.  And with an empty title, which matches no window when
    none is discovered, the call fails with another message. *)
Lemma captureWindow_not_found_counterexample :
  let params := mkOptions (Some "Nope") None None None None None None None in
  let run := captureWindowHandler listingEnv params initialState in
  fst run = Failure (notFoundMessage "Nope")
  /\ In (WriteFile "/srv/screenshots/getWindows.swift") (trace (snd run))
  /\ In (Exec "screencapture -lc") (trace (snd run))
  /\ fst (getWindowList silentEnv initialState) = Ok []
  /\ fst (captureWindowHandler silentEnv
            (mkOptions (Some EmptyString) None None None None None None None)
            initialState)
     = Failure "Window title is required".
Proof.
  cbv zeta. split; [vm_compute; reflexivity | ].
  split; [vm_compute; tauto | ].
  split; [vm_compute; tauto | ].
  split; reflexivity.
Qed.

(** A title that is a substring of no window title selects no window. *)
Lemma find_no_title (windowTitle : string) (ws : list WindowRecord) :
  (forall w t, In w ws -> win_title w = Some t -> Js.includes t windowTitle = false) ->
  List.find (titleMatches windowTitle) ws = None.
Proof.
  induction ws as [|w ws IH]; intros H; [reflexivity | ].
  simpl. unfold titleMatches at 1.
  destruct (win_title w) as [[|c t]|] eqn:E.
  - apply IH. intros w' t' Hin. apply H. now right.
  - rewrite (H w (String c t)); [ | now left | exact E ].
    apply IH. intros w' t' Hin. apply H. now right.
  - apply IH. intros w' t' Hin. apply H. now right.
Qed.

(** C7 (amended). When window discovery returns a list and the given
    non-empty [windowTitle] is a substring of no discovered window's
    title, [capture_window] answers [{success: false, error}] with the
    not-found message and stops in the state discovery left: the only
    effects are those of discovery (an initial segment of
    [discoveryEffects]), so no [screencapture] capture command is run,
    no temporary image path is generated or written, and the history
    is unchanged. *)
Theorem captureWindow_title_not_found :
  forall (env : Env) (params : Options) (st st1 : State)
         (windowTitle : string) (ws : list WindowRecord),
    opt_windowTitle params = Some windowTitle ->
    windowTitle <> EmptyString ->
    getWindowList env st = (Ok ws, st1) ->
    (forall w t, In w ws -> win_title w = Some t ->
                 Js.includes t windowTitle = false) ->
    captureWindowHandler env params st = (Failure (notFoundMessage windowTitle), st1)
    /\ history st1 = history st
    /\ ticks st1 = ticks st
    /\ exists n, trace st1 = (trace st ++ firstn n (discoveryEffects env))%list.
Proof.
  intros env params st st1 windowTitle ws Ht Hne Hget Hnone.
  pose proof (find_no_title windowTitle ws Hnone) as Hfind. split.
  - unfold captureWindowHandler, handle, captureWindow. rewrite Ht.
    destruct windowTitle as [|c t]; [congruence | ].
    cbv zeta. unfold tryCatch at 1. unfold bind at 1. rewrite Hget, Hfind.
    reflexivity.
  - destruct (getWindowList_effects env st) as (n & H1 & H2 & H3).
    rewrite Hget in H1, H2, H3. simpl in *. eauto.
Qed.

(** Witness for C7 (amended): only [screencapture -lc] reports a
    window, and the title asked for is not in it. *)
Lemma captureWindow_title_not_found_witness :
  captureWindowHandler listingEnv
    (mkOptions (Some "Nope") None None None None None None None) initialState
  = (Failure (notFoundMessage "Nope"), snd (getWindowList listingEnv initialState)).
Proof.
  apply (captureWindow_title_not_found listingEnv
           (mkOptions (Some "Nope") None None None None None None None)
           initialState (snd (getWindowList listingEnv initialState)) "Nope"
           [mkWindow "1234" (Some "Safari Start Page") (Some "Safari") (Some zeroBounds)]).
  - reflexivity.
  - discriminate.
  - vm_compute. reflexivity.
  - intros w t [<-|[]] Ht. injection Ht as <-. reflexivity.
Defined.

(** ** Successful captures *)

Lemma bind_inv {A B : Type} (m : M A) (k : A -> M B) (st st' : State) (b : B) :
  bind m k st = (Ok b, st') ->
  exists a st1, m st = (Ok a, st1) /\ k a st1 = (Ok b, st').
Proof.
  unfold bind. destruct (m st) as [[a|e] st1]; intros H; [eauto | discriminate].
Qed.

Lemma tryCatch_rethrow_inv {A : Type} (m : M A) (f : string -> string)
    (st st' : State) (a : A) :
  tryCatch m (fun message => throw (f message)) st = (Ok a, st') ->
  m st = (Ok a, st').
Proof.
  unfold tryCatch, throw. destruct (m st) as [[x|e] st1]; intros H;
    [exact H | discriminate].
Qed.

Lemma lift_inv {A : Type} (r : Res A) (st st' : State) (a : A) :
  lift r st = (Ok a, st') -> r = Ok a /\ st' = st.
Proof. unfold lift. intros H. injection H as -> ->. auto. Qed.

Lemma isoNow_run (env : Env) (st : State) :
  isoNow env st = (Ok (isoString env (ticks st)), withTick st).
Proof. reflexivity. Qed.

Lemma tempFilePathNow_run (env : Env) (st : State) :
  tempFilePathNow env st
  = (Ok (pathJoin (screenshotDir env)
           ("temp_" ++ Js.showN (dateNow env (ticks st)) ++ ".png")), withTick st).
Proof. reflexivity. Qed.

Lemma generateId_run (env : Env) (st : State) :
  generateId env st
  = (Ok ("ss_" ++ Js.showN (dateNow env (ticks st)) ++ "_"
         ++ Js.showN (random1000 env (ticks st))), withTick st).
Proof. reflexivity. Qed.

Lemma emit_run (e : Effect) (st : State) : emit e st = (Ok tt, withEffect st e).
Proof. reflexivity. Qed.

Lemma removeFile_run (path : string) (st : State) :
  removeFile path st
  = (Ok tt, withFiles (withEffect st (RemoveFile path)) (delete path (files st))).
Proof. reflexivity. Qed.

Lemma addToHistory_run (shot : ScreenshotData) (st : State) :
  addToHistory shot st = (Ok tt, withShot st shot).
Proof. reflexivity. Qed.

Lemma readFile_inv (path : string) (st st' : State) (data : string) :
  readFile path st = (Ok data, st') -> files st !! path = Some data /\ st' = st.
Proof.
  unfold readFile. destruct (files st !! path); intros H; [ | discriminate ].
  injection H as -> ->. auto.
Qed.

Lemma convertIfNeeded_inv (env : Env) (format : string) (quality : Z)
    (buffer processed : string) (st st' : State) :
  convertIfNeeded env format quality buffer st = (Ok processed, st') ->
  st' = st
  /\ ((String.eqb format "jpg" || (quality <? 100))%bool = true ->
      sharpJpeg env buffer quality = Ok processed).
Proof.
  unfold convertIfNeeded.
  destruct (String.eqb format "jpg" || (quality <? 100))%bool; intros H.
  - apply lift_inv in H as [H ->]. auto.
  - injection H as -> ->. split; [reflexivity | discriminate].
Qed.

Lemma saveIfRequested_inv (env : Env) (filePath : option string) (buffer : string)
    (st st' : State) (u : unit) :
  saveIfRequested env filePath buffer st = (Ok u, st') ->
  match filePath with
  | None => st' = st
  | Some path =>
      st' = withFiles (withEffect st (WriteFile path)) (<[path := buffer]> (files st))
  end.
Proof.
  unfold saveIfRequested. destruct filePath as [path|]; intros H.
  - unfold writeFile, bind, emit in H.
    destruct (writeFileError env path); [discriminate | ].
    inversion H. reflexivity.
  - inversion H. reflexivity.
Qed.

Lemma addToHistoryList_last (h : list ScreenshotData) (shot : ScreenshotData) :
  exists older, addToHistoryList h shot = (older ++ [shot])%list.
Proof. unfold addToHistoryList. eauto. Qed.

(** A temporary image path is never the path of a saved screenshot. *)
Lemma temp_path_differs (dir stamp name : string) (c : ascii) :
  c <> "t"%char ->
  pathJoin dir ("temp_" ++ stamp) <> pathJoin dir (String c name).
Proof.
  intros Hc H. unfold pathJoin in H.
  apply append_inj_l in H. simpl in H. injection H as H. congruence.
Qed.

(** The image [fs.readFile] finds at the temporary path after the
    capture command has run. *)
Lemma runScreencapture_image (env : Env) (cmd tempFilePath : string) (st st' : State)
    (u : unit) (raw : string) :
  runScreencapture env cmd tempFilePath st = (Ok u, st') ->
  files st' !! tempFilePath = Some raw ->
  imageLeftBy env cmd tempFilePath st raw.
Proof.
  unfold runScreencapture, execSync, bind, emit, setFiles, ret, throw, imageLeftBy.
  destruct (execSyncResult env cmd) as [e|[data|]]; intros H; try discriminate;
    injection H as _ <-; cbn [files withFiles withEffect].
  - rewrite lookup_insert_eq. congruence.
  - auto.
Qed.

(** The capture of the whole screen that [captureRegion] asks for off
    macOS returns the base64 text of the image of [screenshot-desktop],
    unconverted. *)
Lemma captureFullScreen_plain (env : Env) (st st' : State) (full : ScreenshotData) :
  captureFullScreen env
    (mkOptions None (Some "png") None (Some false) None None None None) st
  = (Ok full, st') ->
  exists img, screenshotDesktop env = Ok img /\ sd_base64 full = base64 env img.
Proof.
  intros H. unfold captureFullScreen in H. cbv zeta in H.
  apply tryCatch_rethrow_inv in H.
  apply bind_inv in H as (ts & s1 & _ & H).
  apply bind_inv in H as ([] & s2 & _ & H).
  apply bind_inv in H as (img & s3 & H3 & H). apply lift_inv in H3 as [H3 _].
  apply bind_inv in H as (processed & s4 & H4 & H).
  change (ret img s3 = (Ok processed, s4)) in H4. injection H4 as <- _.
  apply bind_inv in H as ([] & s5 & _ & H).
  apply bind_inv in H as (id & s6 & _ & H).
  apply bind_inv in H as (meta & s7 & _ & H).
  apply bind_inv in H as ([] & s8 & _ & H).
  injection H as <- _. exists img. split; [exact H3 | reflexivity].
Qed.

Lemma captureFullScreen_captured (env : Env) (params : Options) (st st' : State)
    (shot : ScreenshotData) :
  captureFullScreen env params st = (Ok shot, st') ->
  captured (CallFullScreen env params) st st' shot.
Proof.
  intros H. unfold captureFullScreen in H. cbv zeta in H.
  apply tryCatch_rethrow_inv in H.
  apply bind_inv in H as (ts & s1 & H1 & H). rewrite isoNow_run in H1.
  injection H1 as <- <-.
  apply bind_inv in H as ([] & s2 & H2 & H). rewrite emit_run in H2.
  injection H2 as <-.
  apply bind_inv in H as (img & s3 & H3 & H). apply lift_inv in H3 as [H3 ->].
  apply bind_inv in H as (processed & s4 & H4 & H).
  apply convertIfNeeded_inv in H4 as [-> H4].
  apply bind_inv in H as ([] & s5 & H5 & H). apply saveIfRequested_inv in H5.
  apply bind_inv in H as (id & s6 & H6 & H). rewrite generateId_run in H6.
  injection H6 as <- <-.
  apply bind_inv in H as (meta & s7 & H7 & H). apply lift_inv in H7 as [H7 ->].
  apply bind_inv in H as ([] & s8 & H8 & H). rewrite addToHistory_run in H8.
  injection H8 as <-. injection H as <- <-.
  exists processed.
  cbn [callEnv callParams sd_format sd_quality sd_base64 sd_filePath history withShot].
  split; [apply addToHistoryList_last | ].
  split; [apply prefix_app | ].
  split; [reflexivity | ]. split; [reflexivity | ]. split; [reflexivity | ].
  split; [intros Hq; exists img; split; [exact H3 | exact (H4 Hq)] | ].
  destruct (saveToFileOf params); [ | exact I ].
  subst s5. cbn [files withShot withTick withFiles]. split.
  - apply lookup_insert_eq.
  - exists ("fullscreen_" ++ safeTimestamp (isoString env (ticks st))).
    now rewrite append_assoc.
Qed.

Lemma captureWindow_captured (env : Env) (params : Options) (st st' : State)
    (shot : ScreenshotData) :
  captureWindow env params st = (Ok shot, st') ->
  captured (CallWindow env params) st st' shot.
Proof.
  intros H. unfold captureWindow in H.
  destruct (opt_windowTitle params) as [[|c t]|] eqn:Htitle; try discriminate.
  cbv zeta in H. apply tryCatch_rethrow_inv in H.
  apply bind_inv in H as (ws & s1 & H1 & H).
  destruct (List.find (titleMatches (String c t)) ws) as [target|] eqn:Hfind;
    [ | discriminate ].
  apply bind_inv in H as (ts & s2 & H2 & H). rewrite isoNow_run in H2.
  injection H2 as <- <-.
  destruct (String.eqb (platform env) "darwin"); [ | discriminate ].
  apply tryCatch_rethrow_inv in H.
  apply bind_inv in H as (temp & s3 & H3 & H). rewrite tempFilePathNow_run in H3.
  injection H3 as <- <-.
  apply bind_inv in H as ([] & s4 & H4 & H).
  apply bind_inv in H as (raw & s5 & H5 & H). apply readFile_inv in H5 as [H5 ->].
  pose proof (runScreencapture_image _ _ _ _ _ _ _ H4 H5) as Himage.
  apply bind_inv in H as (processed & s6 & H6 & H).
  apply convertIfNeeded_inv in H6 as [-> H6].
  apply bind_inv in H as ([] & s7 & H7 & H). apply saveIfRequested_inv in H7.
  apply bind_inv in H as ([] & s8 & H8 & H). rewrite removeFile_run in H8.
  injection H8 as <-.
  apply bind_inv in H as (meta & s9 & H9 & H). apply lift_inv in H9 as [H9 ->].
  apply bind_inv in H as (id & s10 & H10 & H). rewrite generateId_run in H10.
  injection H10 as <- <-.
  apply bind_inv in H as ([] & s11 & H11 & H). rewrite addToHistory_run in H11.
  injection H11 as <-. injection H as <- <-.
  exists processed.
  cbn [callEnv callParams sd_format sd_quality sd_base64 sd_filePath history withShot].
  split; [apply addToHistoryList_last | ].
  split; [apply prefix_app | ].
  split; [reflexivity | ]. split; [reflexivity | ]. split; [reflexivity | ].
  split.
  { intros Hq. exists (String c t), ws, s1, target, raw.
    split; [exact Htitle | ]. split; [exact H1 | ]. split; [exact Hfind | ].
    split; [exact Himage | exact (H6 Hq)]. }
  destruct (saveToFileOf params); [ | exact I ].
  subst s7. cbn [files withShot withTick withFiles withEffect]. split.
  - rewrite lookup_delete_ne; [apply lookup_insert_eq | ].
    apply (temp_path_differs _ _ _ "w"%char). discriminate.
  - exists ("window_" ++ safeTitle (String c t) ++ "_"
            ++ safeTimestamp (isoString env (ticks s1))).
    now rewrite !append_assoc.
Qed.

Lemma captureRegion_captured (env : Env) (params : Options) (st st' : State)
    (shot : ScreenshotData) :
  captureRegion env params st = (Ok shot, st') ->
  captured (CallRegion env params) st st' shot.
Proof.
  intros H. unfold captureRegion in H. unfold captured, jpegOfCapture, requestedRegion.
  destruct (opt_x params) as [x|], (opt_y params) as [y|],
    (opt_width params) as [w|], (opt_height params) as [h|]; try discriminate.
  cbv zeta in H. apply tryCatch_rethrow_inv in H.
  destruct (String.eqb (platform env) "darwin").
  - apply tryCatch_rethrow_inv in H.
    apply bind_inv in H as (temp & s1 & H1 & H). rewrite tempFilePathNow_run in H1.
    injection H1 as <- <-.
    apply bind_inv in H as (ts & s2 & H2 & H). rewrite isoNow_run in H2.
    injection H2 as <- <-.
    apply bind_inv in H as ([] & s3 & H3 & H).
    apply bind_inv in H as (raw & s4 & H4 & H). apply readFile_inv in H4 as [H4 ->].
    pose proof (runScreencapture_image _ _ _ _ _ _ _ H3 H4) as Himage.
    apply bind_inv in H as (processed & s5 & H5 & H).
    apply convertIfNeeded_inv in H5 as [-> H5].
    apply bind_inv in H as ([] & s6 & H6 & H). apply saveIfRequested_inv in H6.
    apply bind_inv in H as ([] & s7 & H7 & H). rewrite removeFile_run in H7.
    injection H7 as <-.
    apply bind_inv in H as (id & s8 & H8 & H). rewrite generateId_run in H8.
    injection H8 as <- <-.
    apply bind_inv in H as ([] & s9 & H9 & H). rewrite addToHistory_run in H9.
    injection H9 as <-. injection H as <- <-.
    exists processed.
    cbn [callEnv callParams sd_format sd_quality sd_base64 sd_filePath history withShot].
    split; [apply addToHistoryList_last | ].
    split; [apply prefix_app | ].
    split; [reflexivity | ]. split; [reflexivity | ]. split; [reflexivity | ].
    split.
    { intros Hq. exists (mkRegion x y w h). split; [reflexivity | ].
      exists raw. split; [exact Himage | exact (H5 Hq)]. }
    destruct (saveToFileOf params); [ | exact I ].
    subst s6. cbn [files withShot withTick withFiles withEffect]. split.
    + rewrite lookup_delete_ne; [apply lookup_insert_eq | ].
      apply (temp_path_differs _ _ _ "r"%char). discriminate.
    + unfold regionFilename.
      exists ("region_" ++ Js.showZ x ++ "_" ++ Js.showZ y ++ "_" ++ Js.showZ w ++ "_"
              ++ Js.showZ h ++ "_" ++ safeTimestamp (isoString env (S (ticks st)))).
      cbn [rx ry rwidth rheight]. now rewrite !append_assoc.
  - apply bind_inv in H as (full & s1 & Hfull & H).
    apply captureFullScreen_plain in Hfull as (img & Himg & Hb64).
    apply bind_inv in H as (processed & s2 & H2 & H). apply lift_inv in H2 as [H2 ->].
    rewrite Hb64 in H2.
    apply bind_inv in H as (ts & s3 & H3 & H). rewrite isoNow_run in H3.
    injection H3 as <- <-.
    apply bind_inv in H as ([] & s4 & H4 & H). apply saveIfRequested_inv in H4.
    apply bind_inv in H as (id & s5 & H5 & H). rewrite generateId_run in H5.
    injection H5 as <- <-.
    apply bind_inv in H as ([] & s6 & H6 & H). rewrite addToHistory_run in H6.
    injection H6 as <-. injection H as <- <-.
    exists processed.
    cbn [callEnv callParams sd_format sd_quality sd_base64 sd_filePath history withShot].
    split; [apply addToHistoryList_last | ].
    split; [apply prefix_app | ].
    split; [reflexivity | ]. split; [reflexivity | ]. split; [reflexivity | ].
    split.
    { intros _. exists (mkRegion x y w h). split; [reflexivity | ].
      exists img. split; [exact Himg | exact H2]. }
    destruct (saveToFileOf params); [ | exact I ].
    subst s4. cbn [files withShot withTick withFiles withEffect]. split.
    + apply lookup_insert_eq.
    + unfold regionFilename.
      exists ("region_" ++ Js.showZ x ++ "_" ++ Js.showZ y ++ "_" ++ Js.showZ w ++ "_"
              ++ Js.showZ h ++ "_" ++ safeTimestamp (isoString env (ticks s1))).
      cbn [rx ry rwidth rheight]. now rewrite !append_assoc.
Qed.

Lemma capture_captured (c : Call) (st st' : State) (shot : ScreenshotData) :
  capture c st = (Ok shot, st') -> captured c st st' shot.
Proof.
  destruct c as [env params|env params|env params]; simpl.
  - apply captureFullScreen_captured.
  - apply captureWindow_captured.
  - apply captureRegion_captured.
Qed.




(** ** Round trip through the history resource *)

Lemma handle_success_inv (view : ScreenshotData -> ToolScreenshot)
    (m : M ScreenshotData) (st st' : State) (shot : ToolScreenshot) :
  handle view m st = (Success shot, st') ->
  exists result, m st = (Ok result, st') /\ shot = view result.
Proof.
  unfold handle. destruct (m st) as [[result|e] st1]; intros H; [ | discriminate ].
  injection H as <- <-. eauto.
Qed.

Lemma runCall_success_inv (c : Call) (st st' : State) (shot : ToolScreenshot) :
  runCall st c = (Success shot, st') ->
  exists result,
    capture c st = (Ok result, st')
    /\ ts_id shot = sd_id result /\ ts_format shot = sd_format result
    /\ ts_width shot = sd_width result /\ ts_height shot = sd_height result.
Proof.
  destruct c as [env params|env params|env params]; simpl; intros H;
    apply handle_success_inv in H as (result & H & ->);
    exists result; repeat split; assumption.
Qed.

(** When exactly one entry has the id of the newest entry, looking that
    id up finds the newest entry. *)
Lemma find_newest (older : list ScreenshotData) (shot : ScreenshotData) :
  length (List.filter (fun s => String.eqb (sd_id s) (sd_id shot)) (older ++ [shot])%list)
  = 1%nat ->
  List.find (fun s => String.eqb (sd_id s) (sd_id shot)) (older ++ [shot])%list
  = Some shot.
Proof.
  induction older as [|x older IH]; simpl; intros H.
  - now rewrite String.eqb_refl.
  - destruct (String.eqb (sd_id x) (sd_id shot)) eqn:E.
    + exfalso. simpl in H. rewrite List.filter_app in H. simpl in H.
      rewrite String.eqb_refl, length_app in H. simpl in H. lia.
    + now apply IH.
Qed.

(** C9, at an input at which the code fails the claim.  [generateId]
    is documented to generate a unique id, but two calls can return
    the same id.  Off macOS a region capture first records the whole
    screen and then the region, each with an id from [generateId];
    when both ids are drawn in the same millisecond with the same
    random number they are equal, and reading [history/{id}] right
    after the capture returns the whole-screen screenshot (1440 by
    900) instead of the region the capture answered with (10 by
    10). *)
Lemma repeated_id_breaks_roundtrip :
  let run := runCall initialState (CallRegion sameMillisecondEnv smallRegion) in
  exists shot found,
    fst run = Success shot
    /\ screenshotById sameMillisecondEnv (Some (ts_id shot)) (snd run) = Success found
    /\ (ts_width shot, ts_height shot) = (10, 10)
    /\ (rs_width found, rs_height found) = (1440, 900).
Proof. cbv zeta. do 2 eexists. repeat split; vm_compute; reflexivity. Qed.

(** ** The capture dispatch of [captureWindow] *)

Lemma noExecSync_refl (st : State) : noExecSync st st.
Proof. exists []. split; [now rewrite app_nil_r | constructor]. Qed.

Lemma noExecSync_trans (a b c : State) :
  noExecSync a b -> noExecSync b c -> noExecSync a c.
Proof.
  intros (r1 & H1 & F1) (r2 & H2 & F2). exists (r1 ++ r2)%list. split.
  - now rewrite H2, H1, <- app_assoc.
  - apply Forall_app. auto.
Qed.

Lemma noExecSync_effect (st : State) (e : Effect) :
  quietEffect e = true -> noExecSync st (withEffect st e).
Proof.
  intros H. exists [e]. split; [reflexivity | ].
  constructor; [ | constructor ]. now apply negb_true_iff in H.
Qed.

Lemma noExecSync_files (st : State) (fs : gmap string string) :
  noExecSync st (withFiles st fs).
Proof. exists []. split; [simpl; now rewrite app_nil_r | constructor]. Qed.

Lemma noExecSync_tick (st : State) : noExecSync st (withTick st).
Proof. exists []. split; [simpl; now rewrite app_nil_r | constructor]. Qed.

Lemma noExecSync_shot (st : State) (shot : ScreenshotData) :
  noExecSync st (withShot st shot).
Proof. exists []. split; [simpl; now rewrite app_nil_r | constructor]. Qed.

Ltac quiet :=
  repeat first
    [ apply (steps_ret noExecSync noExecSync_refl)
    | apply (steps_throw noExecSync noExecSync_refl)
    | apply (steps_lift noExecSync noExecSync_refl)
    | apply (steps_readFile noExecSync noExecSync_refl)
    | apply (steps_setFiles noExecSync noExecSync_files)
    | apply (steps_convertIfNeeded noExecSync noExecSync_refl)
    | apply (steps_generateId noExecSync noExecSync_tick)
    | apply (steps_addToHistory noExecSync noExecSync_shot)
    | apply (steps_saveIfRequested noExecSync quietEffect noExecSync_refl
               noExecSync_trans noExecSync_effect noExecSync_files); reflexivity
    | apply (steps_removeFile noExecSync quietEffect noExecSync_trans
               noExecSync_effect noExecSync_files); reflexivity
    | apply (steps_bind noExecSync noExecSync_trans); [ | intros ? ]
    | match goal with
      | |- steps _ (match ?x with _ => _ end) => destruct x
      end ].

Lemma bind_assoc {A B C : Type} (m : M A) (k : A -> M B) (k' : B -> M C) (st : State) :
  bind (bind m k) k' st = bind m (fun a => bind (k a) k') st.
Proof. unfold bind. destruct (m st) as [[a|e] st1]; reflexivity. Qed.

Lemma snd_tryCatch_rethrow {A : Type} (m : M A) (f : string -> string) (st : State) :
  snd (tryCatch m (fun message => throw (f message)) st) = snd (m st).
Proof. unfold tryCatch, throw. destruct (m st) as [[a|e] st1]; reflexivity. Qed.

Lemma getWindowList_ok_darwin (env : Env) (st st1 : State) (ws : list WindowRecord) :
  getWindowList env st = (Ok ws, st1) -> String.eqb (platform env) "darwin" = true.
Proof.
  intros H. destruct (String.eqb (platform env) "darwin") eqn:E; [reflexivity | ].
  rewrite (getWindowList_other_platform env st E) in H. discriminate.
Qed.

(** What remains of [captureWindow] once a target window is chosen:
    two clock readings, then the [execSync] of the capture command,
    then a continuation [body] that runs no other [execSync] and that
    returns a screenshot when the tools do their work. *)
Lemma captureWindow_target (env : Env) (params : Options) (st st1 : State)
    (windowTitle : string) (ws : list WindowRecord) (target : WindowRecord) :
  opt_windowTitle params = Some windowTitle ->
  windowTitle <> EmptyString ->
  getWindowList env st = (Ok ws, st1) ->
  List.find (titleMatches windowTitle) ws = Some target ->
  let command :=
    windowCaptureCommand target
      (pathJoin (screenshotDir env)
         ("temp_" ++ Js.showN (dateNow env (S (ticks st1))) ++ ".png")) in
  exists body : unit -> M ScreenshotData,
    captureWindow env params st
    = tryCatch
        (tryCatch (bind (emit (ExecSync command)) body)
           (fun message =>
              throw ("Failed to capture window using screencapture: " ++ message)))
        (fun message => throw ("Failed to capture window: " ++ message))
        (withTick (withTick st1))
    /\ steps noExecSync (body tt)
    /\ forall raw,
         toolsWork env command raw ->
         forall s, exists shot s',
           body tt s = (Ok shot, s')
           /\ sd_windowId shot = Some (win_id target) /\ sd_type shot = "window".
Proof.
  intros Ht Hne Hget Hfind command.
  eexists. split; [ | split ].
  - unfold captureWindow. rewrite Ht.
    destruct windowTitle as [|c t]; [congruence | ].
    cbv zeta. unfold tryCatch at 1. unfold bind at 1. rewrite Hget, Hfind.
    rewrite (getWindowList_ok_darwin _ _ _ _ Hget).
    unfold bind at 1. rewrite isoNow_run.
    unfold tryCatch at 1 2. unfold bind at 1. rewrite tempFilePathNow_run.
    unfold runScreencapture, execSync. rewrite !bind_assoc.
    reflexivity.
  - cbv beta. quiet.
  - cbv beta. intros raw (Hsync & Hjpeg & Hmeta & Hwrite) s.
    unfold command in Hsync.
    change (S (ticks st1)) with (ticks (withTick st1)) in Hsync.
    rewrite Hsync. cbv [bind ret setFiles readFile withFiles].
    cbn [files]. rewrite lookup_insert_eq.
    unfold convertIfNeeded, saveIfRequested, writeFile, lift, bind, emit, setFiles,
      removeFile, generateId, tick, addToHistory, ret.
    destruct (String.eqb (formatOf params) "jpg" || (qualityOf params <? 100))%bool;
      [ destruct (Hjpeg raw (qualityOf params)) as [out ->] | ];
      destruct (saveToFileOf params); try rewrite Hwrite;
      match goal with
      | |- context [sharpMetadata env ?b] => destruct (Hmeta b) as [size ->]
      end;
      do 2 eexists; repeat split.
Qed.

(** C5.  Once [capture_window] has chosen a target window, the first
    thing it does after discovery is one [execSync] of the capture
    tool: for an id that starts with [app_] the command is
    [screencapture "<temp>"], the whole screen with no [-l] flag, and
    for any other id it is [screencapture -l <id> "<temp>"].  No other
    [execSync] follows.  Whichever branch is taken, the call returns a
    screenshot carrying the target's id whenever the capture tool, the
    sharp library and the file system do their work; in particular the
    [app_] branch does not fail. *)
Theorem captureWindow_dispatch :
  forall (env : Env) (params : Options) (st st1 : State)
         (windowTitle : string) (ws : list WindowRecord) (target : WindowRecord),
    opt_windowTitle params = Some windowTitle ->
    windowTitle <> EmptyString ->
    getWindowList env st = (Ok ws, st1) ->
    List.find (titleMatches windowTitle) ws = Some target ->
    let tempFilePath :=
      pathJoin (screenshotDir env)
        ("temp_" ++ Js.showN (dateNow env (S (ticks st1))) ++ ".png") in
    let command :=
      if Js.startsWith (win_id target) "app_"
      then "screencapture " ++ Js.dq ++ tempFilePath ++ Js.dq
      else "screencapture -l " ++ win_id target ++ " " ++ Js.dq ++ tempFilePath ++ Js.dq in
    (exists rest,
       trace (snd (captureWindow env params st))
       = (trace st1 ++ ExecSync command :: rest)%list
       /\ Forall (fun e => isExecSync e = false) rest)
    /\ (forall raw,
          toolsWork env command raw ->
          exists shot,
            fst (captureWindow env params st) = Ok shot
            /\ sd_windowId shot = Some (win_id target)
            /\ sd_type shot = "window").
Proof.
  intros env params st st1 windowTitle ws target Ht Hne Hget Hfind tempFilePath command.
  destruct (captureWindow_target env params st st1 windowTitle ws target
              Ht Hne Hget Hfind) as (body & Heq & Hquiet & Hok).
  assert (Hc : command = windowCaptureCommand target tempFilePath) by reflexivity.
  clearbody command. subst command tempFilePath.
  rewrite Heq. split.
  - rewrite !snd_tryCatch_rethrow. unfold bind. rewrite emit_run. cbv beta iota.
    match goal with
    | |- context [body tt ?s] => destruct (Hquiet s) as (rest & Htrace & Hrest)
    end.
    exists rest. split; [ | exact Hrest ].
    rewrite Htrace. cbn [trace withEffect withTick]. now rewrite <- app_assoc.
  - intros raw Htools.
    unfold tryCatch, bind. rewrite emit_run. cbv beta iota.
    match goal with
    | |- context [body tt ?s] =>
        destruct (Hok raw Htools s) as (shot & s' & Hbody & Hid & Hty)
    end.
    exists shot. rewrite Hbody. auto.
Qed.

(** Witness for C5: only the process listing answers, the target is
    the pseudo-window [app_1] of Godot, and the whole screen is
    captured. *)
Lemma captureWindow_dispatch_witness :
  (exists rest,
     trace (snd (captureWindow appsEnv godotParams initialState))
     = (trace (snd (getWindowList appsEnv initialState))
        ++ ExecSync ("screencapture " ++ Js.dq ++ "/srv/screenshots/temp_1.png" ++ Js.dq)
           :: rest)%list
     /\ Forall (fun e => isExecSync e = false) rest)
  /\ exists shot,
       fst (captureWindow appsEnv godotParams initialState) = Ok shot
       /\ sd_windowId shot = Some "app_1"
       /\ sd_type shot = "window".
Proof.
  destruct (captureWindow_dispatch appsEnv godotParams initialState
              (snd (getWindowList appsEnv initialState)) "Godot"
              [ mkWindow "app_0" (Some "Finder Window") (Some "Finder") (Some zeroBounds);
                mkWindow "app_1" (Some "Godot Window") (Some "Godot") (Some zeroBounds) ]
              (mkWindow "app_1" (Some "Godot Window") (Some "Godot") (Some zeroBounds)))
    as [Hcmd Hok].
  - reflexivity.
  - discriminate.
  - vm_compute. reflexivity.
  - reflexivity.
  - split; [exact Hcmd | ].
    apply (Hok "RAW"). unfold toolsWork. repeat split; eauto.
Defined.

(** * Further properties *)

(** ** The footprint of window discovery *)

(** Strategy 1 leaves the files as they were when the script could not
    be written, leaves the script behind when [chmod] fails, and has
    removed it when it returns. *)
Lemma swift_files (env : Env) (st : State) :
  match getWindowListSwift env st with
  | (Ok _, st') => files st' = delete (helperScriptPath env) (files st)
  | (Throw e, st') =>
      (writeFileError env (helperScriptPath env) = Some e /\ files st' = files st)
      \/ (writeFileError env (helperScriptPath env) = None
          /\ execSyncResult env (chmodCommand env) = SyncThrows e
          /\ files st' = <[helperScriptPath env := swiftScript]> (files st))
  end.
Proof.
  unfold chmodCommand, helperScriptPath. run_discovery.
  destruct (writeFileError _ _); cbv beta iota; [left; auto | ].
  destruct (execSyncResult _ _); cbv beta iota; [right; auto | ].
  destruct (exec_error _); cbn; apply delete_insert_eq.
Qed.

(** The files after discovery are those strategy 1 left. *)
Lemma getWindowList_files (env : Env) (st : State) :
  String.eqb (platform env) "darwin" = true ->
  files (snd (getWindowList env st)) = files (snd (getWindowListSwift env st)).
Proof.
  intros Hp. unfold getWindowList. rewrite Hp. unfold cascade, tryCatch, bind.
  destruct (getWindowListSwift env st) as [[ws1|e1] st1]; cbn [fst snd];
    [ | reflexivity ].
  destruct ws1 as [|w1 ws1]; [ | reflexivity ].
  destruct (appleScript_run env st1) as (ws2 & ->).
  destruct ws2 as [|w2 ws2]; [ | reflexivity ].
  match goal with
  | |- context [getWindowListScreencapture env ?s] =>
      destruct (screencapture_run env s) as (ws3 & ->)
  end.
  destruct ws3 as [|w3 ws3]; [ | reflexivity ].
  match goal with
  | |- context [getApplicationsAsFallback env ?s] =>
      destruct (fallback_run env s) as (ws4 & ->)
  end.
  reflexivity.
Qed.

(** Discovery touches no file other than the helper script. *)
Lemma getWindowList_other_files (env : Env) (st : State) (path : string) :
  path <> helperScriptPath env ->
  files (snd (getWindowList env st)) !! path = files st !! path.
Proof.
  intros Hpath. destruct (String.eqb (platform env) "darwin") eqn:Hp.
  - rewrite (getWindowList_files env st Hp).
    pose proof (swift_files env st) as Hs.
    destruct (getWindowListSwift env st) as [[ws|e] st1]; cbn [snd].
    + rewrite Hs. now apply lookup_delete_ne.
    + destruct Hs as [[_ ->]|(_ & _ & ->)]; [reflexivity | ].
      now apply lookup_insert_ne.
  - now rewrite (getWindowList_other_platform env st Hp).
Qed.

(** X1. Whatever its outcome, window discovery performs an initial
    segment of the seven effects of [discoveryEffects] in that order,
    reads neither the clock nor the random generator, leaves the
    screenshot history alone, and touches no file other than the helper
    script [getWindows.swift]. *)
Theorem discovery_footprint :
  forall (env : Env) (st : State),
    let st' := snd (getWindowList env st) in
    (exists n, trace st' = (trace st ++ firstn n (discoveryEffects env))%list)
    /\ ticks st' = ticks st
    /\ history st' = history st
    /\ forall path, path <> helperScriptPath env -> files st' !! path = files st !! path.
Proof.
  intros env st st'. subst st'.
  destruct (getWindowList_effects env st) as (n & Ht & Hk & Hh).
  split; [eauto | ]. split; [exact Hk | ]. split; [exact Hh | ].
  intros path. apply getWindowList_other_files.
Qed.

(** Witness for X1: a saved screenshot is still there after a discovery
    in which every child process fails. *)
Lemma discovery_footprint_witness :
  files (snd (getWindowList deniedEnv
                (mkState [] {[ "/srv/screenshots/shot.png" := "RAW" ]} [] O)))
    !! "/srv/screenshots/shot.png" = Some "RAW".
Proof.
  destruct (discovery_footprint deniedEnv
              (mkState [] {[ "/srv/screenshots/shot.png" := "RAW" ]} [] O))
    as (_ & _ & _ & H).
  rewrite (H "/srv/screenshots/shot.png"); [reflexivity | discriminate].
Defined.

(** X2. On macOS, when strategy 1 throws (the helper script cannot be
    written, or [chmod] fails), discovery ends there: [getWindowList]
    returns the empty list in the state strategy 1 left, so that none
    of the strategies 2 to 4 is tried; and when it was [chmod] that
    failed, the helper script stays on disk. *)
Theorem swift_failure_ends_discovery :
  forall (env : Env) (st st1 : State) (e : string),
    String.eqb (platform env) "darwin" = true ->
    getWindowListSwift env st = (Throw e, st1) ->
    getWindowList env st = (Ok [], st1)
    /\ (exists n, (n <= 2)%nat
                  /\ trace st1 = (trace st ++ firstn n (discoveryEffects env))%list)
    /\ (writeFileError env (helperScriptPath env) = None ->
        files st1 !! helperScriptPath env = Some swiftScript).
Proof.
  intros env st st1 e Hp Hs. split; [ | split ].
  - unfold getWindowList. rewrite Hp. now apply (cascade_catches _ _ _ _ st st1 e).
  - revert Hs. run_discovery.
    destruct (writeFileError _ _); cbv beta iota.
    + intros H. injection H as _ <-. exists 1%nat. split; [lia | reflexivity].
    + destruct (execSyncResult _ _); cbv beta iota.
      * intros H. injection H as _ <-. exists 2%nat. split; [lia | ].
        cbn. now rewrite <- app_assoc.
      * destruct (exec_error _); discriminate.
  - intros Hw. pose proof (swift_files env st) as Hf. rewrite Hs in Hf.
    destruct Hf as [[Hf _]|(_ & _ & ->)]; [congruence | ].
    apply lookup_insert_eq.
Qed.

(** Witness for X2: [chmod] fails. *)
Lemma swift_failure_ends_discovery_witness :
  fst (getWindowList chmodFailsEnv initialState) = Ok []
  /\ files (snd (getWindowList chmodFailsEnv initialState))
       !! "/srv/screenshots/getWindows.swift" = Some swiftScript.
Proof.
  destruct (swift_failure_ends_discovery chmodFailsEnv initialState
              (snd (getWindowListSwift chmodFailsEnv initialState))
              "Command failed: chmod")
    as (H & _ & Hf); [reflexivity | vm_compute; reflexivity | ].
  rewrite H. split; [reflexivity | ]. apply Hf. reflexivity.
Defined.

(** ** What every discovered window record satisfies *)

Lemma fold_left_Forall {A B : Type} (P : A -> Prop) (step : list A -> B -> list A)
    (items : list B) (acc : list A) :
  (forall l b, Forall P l -> Forall P (step l b)) ->
  Forall P acc -> Forall P (fold_left step items acc).
Proof.
  intros Hstep. revert acc. induction items as [|b items IH]; intros acc Hacc; simpl;
    [exact Hacc | ].
  apply IH. now apply Hstep.
Qed.

Lemma takeWhile_digits (s : string) : onlyDigits (takeWhile Js.isDigit s) = true.
Proof.
  induction s as [|c s IH]; [reflexivity | ].
  cbn [takeWhile]. destruct (Js.isDigit c) eqn:E; [ | reflexivity ].
  cbn [onlyDigits]. now rewrite E, IH.
Qed.

Lemma regexScan_Forall (P : WindowRecord -> Prop) (s : string) (skip : nat) :
  (forall i ttl, onlyDigits i = true -> i <> EmptyString -> ttl <> EmptyString ->
     P (mkWindow i (Some ttl) (Some (nth 0 (Js.split ttl " ") EmptyString))
          (Some zeroBounds))) ->
  Forall P (regexScan skip s).
Proof.
  intros HP. revert skip. induction s as [|c s IH]; intros skip; [constructor | ].
  cbn [regexScan]. destruct skip as [|k]; [ | apply IH ].
  destruct (matchWindowAt (String c s)) as [[[i ttl] n]|] eqn:E; [ | apply IH ].
  constructor; [ | apply IH ].
  revert E. unfold matchWindowAt. cbv zeta.
  pose proof (takeWhile_digits (String c s)) as Hd.
  destruct (takeWhile Js.isDigit (String c s)) as [|d0 ds]; [discriminate | ].
  destruct (dropWhile Js.isDigit (String c s)) as [|dot [|sp r]]; try discriminate.
  destruct (Ascii.eqb dot "."%char && Ascii.eqb sp " "%char)%bool; [ | discriminate ].
  destruct (takeWhile isDot r) as [|t0 t]; [discriminate | ].
  intros H. injection H as <- <- _. apply HP; [exact Hd | discriminate | discriminate].
Qed.

Lemma appsLoop_Forall (P : WindowRecord -> Prop) (apps : list string) (i : nat)
    (windows : list WindowRecord) :
  (forall k appName, appName <> EmptyString ->
     P (mkWindow ("app_" ++ Js.showNat k) (Some (appName ++ " Window"))
          (Some appName) (Some zeroBounds))) ->
  Forall P windows -> Forall P (appsLoop i apps windows).
Proof.
  intros HP. revert i windows.
  induction apps as [|a apps IH]; intros i windows Hw; [exact Hw | ].
  cbn [appsLoop]. cbv zeta. destruct (Js.trim a) as [|c r] eqn:E; [now apply IH | ].
  apply IH. apply Forall_app. split; [exact Hw | ].
  constructor; [ | constructor ]. now apply HP.
Qed.

(** What holds of every record a parser can produce, and of the
    permission-issue record, holds of every record discovery returns. *)
Lemma getWindowList_Forall (P : WindowRecord -> Prop) (env : Env) (st st' : State)
    (ws : list WindowRecord) :
  (forall stdout, Forall P (parseSwiftOutput stdout)) ->
  (forall stdout, Forall P (parseAppleScriptOutput stdout)) ->
  (forall stderr, Forall P (parseScreencaptureOutput stderr)) ->
  (forall stdout, Forall P (parseApplications stdout)) ->
  P dummyWindow ->
  getWindowList env st = (Ok ws, st') -> Forall P ws.
Proof.
  intros H1 H2 H3 H4 Hd. unfold getWindowList.
  destruct (String.eqb (platform env) "darwin"); [ | discriminate ].
  assert (S1 : forall s ws1 s1, getWindowListSwift env s = (Ok ws1, s1) -> Forall P ws1).
  { intros s ws1 s1. run_discovery.
    destruct (writeFileError _ _); [discriminate | ].
    destruct (execSyncResult _ _); [discriminate | ].
    destruct (exec_error _); intros H; injection H as <- _; [constructor | apply H1]. }
  assert (S2 : forall s ws2 s2,
             getWindowListAppleScript env s = (Ok ws2, s2) -> Forall P ws2).
  { intros s ws2 s2. run_discovery.
    destruct (exec_error _); intros H; injection H as <- _; [constructor | apply H2]. }
  assert (S3 : forall s ws3 s3,
             getWindowListScreencapture env s = (Ok ws3, s3) -> Forall P ws3).
  { intros s ws3 s3. run_discovery.
    destruct (exec_error _); intros H; injection H as <- _; [constructor | apply H3]. }
  assert (S4 : forall s ws4 s4,
             getApplicationsAsFallback env s = (Ok ws4, s4) -> Forall P ws4).
  { intros s ws4 s4. run_discovery.
    destruct (exec_error _); intros H; injection H as <- _;
      [constructor; [exact Hd | constructor] | apply H4]. }
  unfold cascade, tryCatch, bind.
  destruct (getWindowListSwift env st) as [[ws1|e1] st1] eqn:E1;
    [ | intros H; injection H as <- _; constructor ].
  apply S1 in E1. destruct ws1 as [|w1 ws1]; [ | intros H; injection H as <- _; exact E1 ].
  destruct (getWindowListAppleScript env st1) as [[ws2|e2] st2] eqn:E2;
    [ | intros H; injection H as <- _; constructor ].
  apply S2 in E2. destruct ws2 as [|w2 ws2]; [ | intros H; injection H as <- _; exact E2 ].
  destruct (getWindowListScreencapture env st2) as [[ws3|e3] st3] eqn:E3;
    [ | intros H; injection H as <- _; constructor ].
  apply S3 in E3. destruct ws3 as [|w3 ws3]; [ | intros H; injection H as <- _; exact E3 ].
  destruct (getApplicationsAsFallback env st3) as [[ws4|e4] st4] eqn:E4;
    [ | intros H; injection H as <- _; constructor ].
  apply S4 in E4. intros H. injection H as <- _. exact E4.
Qed.

Lemma swiftStep_titledHasOwner (l : list WindowRecord) (line : string) :
  Forall titledHasOwner l -> Forall titledHasOwner (swiftStep l line).
Proof.
  intros Hl. unfold swiftStep. destruct (Js.trim line); [exact Hl | ].
  cbv zeta. apply Forall_app. split; [exact Hl | ].
  constructor; [ | constructor ]. unfold titledHasOwner. cbn [win_title win_owner_name].
  destruct (Js.split _ "|") as [|p0 [|p1 parts]]; cbn; intros [x Hx];
    try discriminate; eauto.
Qed.

Lemma appleScriptStep_titledHasOwner (l : list WindowRecord) (line : string) :
  Forall titledHasOwner l -> Forall titledHasOwner (appleScriptStep l line).
Proof.
  intros Hl. unfold appleScriptStep. destruct (Js.trim line); [exact Hl | ].
  destruct (Js.split _ "|") as [|p0 [|p1 [|p2 parts]]]; try exact Hl.
  apply Forall_app. split; [exact Hl | ].
  constructor; [ | constructor ]. intros _. cbn. eauto.
Qed.

Lemma discovered_titledHasOwner (env : Env) (st st' : State) (ws : list WindowRecord) :
  getWindowList env st = (Ok ws, st') -> Forall titledHasOwner ws.
Proof.
  apply getWindowList_Forall.
  - intros stdout. unfold parseSwiftOutput.
    apply fold_left_Forall; [exact swiftStep_titledHasOwner | constructor].
  - intros stdout. unfold parseAppleScriptOutput. cbv zeta.
    destruct (Js.startsWith _ _); [constructor | ].
    apply fold_left_Forall; [exact appleScriptStep_titledHasOwner | constructor].
  - intros stderr. apply regexScan_Forall. intros i ttl _ _ _ _. cbn. eauto.
  - intros stdout. apply appsLoop_Forall; [ | constructor ].
    intros k appName _ _. cbn. eauto.
  - intros _. cbn. eauto.
Qed.

Lemma findRes_total (ws : list WindowRecord) :
  Forall titledHasOwner ws ->
  findRes godotMatches ws
  = Ok (List.find (fun w => match godotMatches w with Ok b => b | Throw _ => false end) ws).
Proof.
  induction ws as [|w ws IH]; intros H; [reflexivity | ].
  inversion H as [|? ? Hw Hws]; subst. cbn [findRes List.find].
  assert (Hok : exists b, godotMatches w = Ok b).
  { unfold godotMatches. unfold titledHasOwner in Hw.
    destruct (win_title w) as [[|c t]|]; eauto.
    destruct (Js.includes (String c t) "Godot"); eauto.
    destruct (win_owner_name w); eauto.
    destruct Hw as [x Hx]; [eauto | discriminate]. }
  destruct Hok as [b ->]. destruct b; [reflexivity | now apply IH].
Qed.

(** X3. Every window record that discovery returns with a title also
    has an owner name, whichever strategy produced it.  The Godot test
    of [captureApplication], which reads [win.owner.name.includes] of a
    titled window, therefore never meets an undefined owner name: the
    search returns a window or none, it does not throw. *)
Theorem discovered_windows_have_owner :
  forall (env : Env) (st st' : State) (ws : list WindowRecord),
    getWindowList env st = (Ok ws, st') ->
    Forall titledHasOwner ws
    /\ exists found, findRes godotMatches ws = Ok found.
Proof.
  intros env st st' ws H. pose proof (discovered_titledHasOwner env st st' ws H) as Hw.
  split; [exact Hw | ]. rewrite (findRes_total ws Hw). eauto.
Qed.

(** Witness for X3: the windows of the process listing. *)
Lemma discovered_windows_have_owner_witness :
  exists found,
    findRes godotMatches
      [ mkWindow "app_0" (Some "Finder Window") (Some "Finder") (Some zeroBounds);
        mkWindow "app_1" (Some "Godot Window") (Some "Godot") (Some zeroBounds) ]
    = Ok found.
Proof.
  destruct (discovered_windows_have_owner appsEnv initialState
              (snd (getWindowList appsEnv initialState))
              [ mkWindow "app_0" (Some "Finder Window") (Some "Finder") (Some zeroBounds);
                mkWindow "app_1" (Some "Godot Window") (Some "Godot") (Some zeroBounds) ])
    as (_ & H); [vm_compute; reflexivity | exact H].
Defined.

(** ** [list_windows] and [capture_application] *)

Lemma getWindowList_darwin_returns (env : Env) (st : State) :
  String.eqb (platform env) "darwin" = true ->
  exists ws st', getWindowList env st = (Ok ws, st').
Proof.
  intros Hp. unfold getWindowList. rewrite Hp. unfold cascade, tryCatch.
  match goal with
  | |- context [match ?m st with _ => _ end] => destruct (m st) as [[ws|e] st1]
  end; cbn; eauto.
Qed.

(** X4. On macOS [list_windows] always succeeds: its answer lists the
    windows of discovery one for one and in the same order, each with
    its id, its title and its owner name as [application], and the
    state is the one discovery left.  On every other platform it fails
    with the message of discovery behind the prefix of [listWindows],
    and nothing has happened. *)
Theorem list_windows_answer :
  forall (env : Env) (st : State),
    if String.eqb (platform env) "darwin"
    then exists ws st',
           getWindowList env st = (Ok ws, st')
           /\ listWindowsHandler env st = (Success (map windowEntry ws), st')
    else listWindowsHandler env st
         = (Failure "Failed to list windows: Window listing is only supported on macOS",
            st).
Proof.
  intros env st. unfold listWindowsHandler, listWindows, tryCatch, bind.
  destruct (String.eqb (platform env) "darwin") eqn:Hp.
  - destruct (getWindowList_darwin_returns env st Hp) as (ws & st' & H).
    exists ws, st'. rewrite H. auto.
  - now rewrite (getWindowList_other_platform env st Hp).
Qed.

Lemma findRes_none (p : WindowRecord -> Res bool) (ws : list WindowRecord) :
  (forall w, In w ws -> p w = Ok false) -> findRes p ws = Ok None.
Proof.
  induction ws as [|w ws IH]; intros H; [reflexivity | ].
  cbn [findRes]. rewrite (H w) by now left. apply IH. intros w' Hin. apply H. now right.
Qed.

Lemma find_none {A : Type} (p : A -> bool) (l : list A) :
  (forall a, In a l -> p a = false) -> List.find p l = None.
Proof.
  induction l as [|a l IH]; intros H; [reflexivity | ].
  cbn [List.find]. rewrite (H a) by now left. apply IH. intros a' Hin. apply H. now right.
Qed.

(** X5. When discovery returns a window list in which no window passes
    the tests that the application type asks for (the Godot test for
    [godot] and [any], the PyGame test for [pygame] and [any], none for
    any other type), [capture_application] fails with
    [Failed to capture application: No ... application found], where
    the type is named as given and [any] as [Godot or PyGame].  The
    call stops in the state discovery left: nothing is captured and the
    history is unchanged. *)
Theorem captureApplication_not_found :
  forall (env : Env) (appType : option string) (params : Options)
         (st st1 : State) (ws : list WindowRecord),
    getWindowList env st = (Ok ws, st1) ->
    (wantsGodot (appTypeOf appType) = true ->
     forall w, In w ws -> godotMatches w = Ok false) ->
    (wantsPygame (appTypeOf appType) = true ->
     forall w, In w ws -> pygameMatches w = false) ->
    captureApplicationHandler env appType params st
    = (Failure ("Failed to capture application: "
                ++ noApplicationMessage (appTypeOf appType)), st1)
    /\ history st1 = history st.
Proof.
  intros env appType params st st1 ws Hget Hg Hp. split.
  - unfold captureApplicationHandler, captureApplication, findApplicationWindow.
    unfold bind at 1. unfold tryCatch. unfold bind at 1. rewrite Hget.
    unfold bind, lift, ret, throw.
    destruct (wantsGodot (appTypeOf appType)).
    + rewrite (findRes_none _ ws (Hg eq_refl)).
      destruct (wantsPygame (appTypeOf appType)); [ | reflexivity ].
      now rewrite (find_none _ ws (Hp eq_refl)).
    + destruct (wantsPygame (appTypeOf appType)); [ | reflexivity ].
      now rewrite (find_none _ ws (Hp eq_refl)).
  - destruct (getWindowList_effects env st) as (n & _ & _ & Hh).
    now rewrite Hget in Hh.
Qed.

(** Witness for X5: the process listing names Finder and Godot, and a
    PyGame application is asked for. *)
Lemma captureApplication_not_found_witness :
  fst (captureApplicationHandler appsEnv (Some "pygame") noOptions initialState)
  = Failure "Failed to capture application: No pygame application found".
Proof.
  destruct (captureApplication_not_found appsEnv (Some "pygame") noOptions initialState
              (snd (getWindowList appsEnv initialState))
              [ mkWindow "app_0" (Some "Finder Window") (Some "Finder") (Some zeroBounds);
                mkWindow "app_1" (Some "Godot Window") (Some "Godot") (Some zeroBounds) ])
    as (H & _).
  - vm_compute. reflexivity.
  - discriminate.
  - intros _ w [<-|[<-|[]]]; reflexivity.
  - rewrite H. reflexivity.
Defined.

(** X6. [captureApplication] hands [{ windowTitle: targetWindow.title,
    ...options }] to [captureWindow], so a [windowTitle] among the
    options replaces the detected one: once an application window has
    been found, the call continues as [captureWindow] with the options
    as given, from the state discovery left.  Without a [windowTitle]
    option it continues as [captureWindow] with the title of the window
    found. *)
Theorem captureApplication_window_title :
  forall (env : Env) (appType : option string) (options : Options)
         (st st1 : State) (targetWindow : WindowRecord),
    findApplicationWindow env (appTypeOf appType) st = (Ok targetWindow, st1) ->
    (forall windowTitle,
       opt_windowTitle options = Some windowTitle ->
       captureApplication env appType options st = captureWindow env options st1)
    /\ (opt_windowTitle options = None ->
        captureApplication env appType options st
        = captureWindow env
            (mkOptions (win_title targetWindow) (opt_format options)
               (opt_quality options) (opt_saveToFile options) (opt_x options)
               (opt_y options) (opt_width options) (opt_height options)) st1).
Proof.
  intros env appType options st st1 targetWindow Hfind.
  assert (H : captureApplication env appType options st
              = captureWindow env (withWindowTitleOf targetWindow options) st1).
  { unfold captureApplication. unfold bind at 1. unfold tryCatch. now rewrite Hfind. }
  split.
  - intros windowTitle Ht. rewrite H. f_equal.
    unfold withWindowTitleOf. rewrite Ht. destruct options; cbn in *. now subst.
  - intros Ht. rewrite H. unfold withWindowTitleOf. now rewrite Ht.
Qed.

(** Witness for X6: with the Godot editor listed as second application
    and the option [windowTitle: "Finder"], the screenshot taken is
    that of the Finder window. *)
Lemma captureApplication_window_title_witness :
  option_map sd_windowId
    (match fst (captureApplication appsEnv (Some "godot")
                  (mkOptions (Some "Finder") None None (Some false) None None None None)
                  initialState) with
     | Ok shot => Some shot
     | Throw _ => None
     end)
  = Some (Some "app_0").
Proof.
  destruct (captureApplication_window_title appsEnv (Some "godot")
              (mkOptions (Some "Finder") None None (Some false) None None None None)
              initialState
              (snd (findApplicationWindow appsEnv "godot" initialState))
              (mkWindow "app_1" (Some "Godot Window") (Some "Godot") (Some zeroBounds)))
    as (H & _); [vm_compute; reflexivity | ].
  rewrite (H "Finder" eq_refl). vm_compute. reflexivity.
Defined.

(** ** The history as a queue of the most recent screenshots *)

Lemma addToHistoryList_mostRecent (h : list ScreenshotData) (s : ScreenshotData) :
  (length h <= 100)%nat -> addToHistoryList h s = mostRecent 100 (h ++ [s]).
Proof.
  intros H. unfold addToHistoryList, mostRecent. rewrite length_app. cbn [length].
  destruct (Nat.leb_spec 100 (length h)) as [Hge|Hlt].
  - replace (length h + 1 - 100)%nat with 1%nat by lia.
    destruct h; [simpl in Hge; lia | reflexivity].
  - replace (length h + 1 - 100)%nat with 0%nat by lia. reflexivity.
Qed.

Lemma mostRecent_length {A : Type} (n : nat) (l : list A) :
  length (mostRecent n l) = Nat.min n (length l).
Proof. unfold mostRecent. rewrite length_skipn. lia. Qed.

Lemma mostRecent_app {A : Type} (n : nat) (l r : list A) :
  mostRecent n (mostRecent n l ++ r) = mostRecent n (l ++ r).
Proof.
  unfold mostRecent. rewrite !length_app, length_skipn.
  destruct (Nat.le_gt_cases (length l) n) as [Hle|Hgt].
  - replace (length l - n)%nat with 0%nat by lia. cbn [skipn].
    now rewrite Nat.sub_0_r.
  - replace (length l + length r - n)%nat
      with ((length l - (length l - n) + length r - n) + (length l - n))%nat by lia.
    rewrite <- skipn_skipn, (skipn_app (length l - n)).
    replace (length l - n - length l)%nat with 0%nat by lia. reflexivity.
Qed.

Lemma fold_add_mostRecent (shots h : list ScreenshotData) :
  (length h <= 100)%nat ->
  fold_left addToHistoryList shots h = mostRecent 100 (h ++ shots).
Proof.
  revert h. induction shots as [|s shots IH]; intros h H.
  - cbn [fold_left]. rewrite app_nil_r. unfold mostRecent.
    replace (length h - 100)%nat with 0%nat by lia. reflexivity.
  - cbn [fold_left]. rewrite IH by now apply addToHistoryList_length.
    rewrite addToHistoryList_mostRecent by exact H.
    rewrite mostRecent_app. now rewrite <- app_assoc.
Qed.

(** X7. The history is a queue of the 100 most recent screenshots: from
    a history within the bound, after any number of screenshots has
    been added, the history consists of the last 100 entries of the old
    history followed by the added screenshots, in the order of
    addition; in particular the added screenshots are all there when
    they are at most 100 together with the old ones, and only added
    ones are left once 100 or more have been added. *)
Theorem history_keeps_most_recent :
  forall (shots : list ScreenshotData) (st : State),
    (length (history st) <= 100)%nat ->
    history (addAll shots st) = mostRecent 100 (history st ++ shots)
    /\ length (history (addAll shots st))
       = Nat.min 100 (length (history st) + length shots)
    /\ ((100 <= length shots)%nat ->
        history (addAll shots st) = mostRecent 100 shots).
Proof.
  intros shots st H. rewrite addAll_history.
  rewrite (fold_add_mostRecent shots (history st) H).
  split; [reflexivity | ]. split.
  - rewrite mostRecent_length, length_app. reflexivity.
  - intros Hlen. unfold mostRecent. rewrite length_app.
    rewrite skipn_app.
    rewrite skipn_all2 by lia. cbn [app]. f_equal. lia.
Qed.

(** Witness for X7: of 150 screenshots added to the empty history the
    last 100 remain, the one added as 51st being the oldest. *)
Lemma history_keeps_most_recent_witness :
  option_map sd_id (head (history (addAll (map sampleShot (seq 0 150)) initialState)))
  = Some "ss_50_7".
Proof.
  destruct (history_keeps_most_recent (map sampleShot (seq 0 150)) initialState)
    as (_ & _ & H); [simpl; lia | ].
  rewrite H by (rewrite length_map, length_seq; lia).
  vm_compute. reflexivity.
Defined.

(** X26. The history stays within its bound of 100 entries: every
    append to a history within the bound leaves it within the bound,
    and so does every sequence of calls of the tools
    [capture_full_screen], [capture_window] and [capture_region],
    whether the calls succeed or fail, the region captures off macOS
    that add two screenshots included. *)
Theorem history_stays_within_bound :
  (forall h s, (length h <= 100)%nat -> (length (addToHistoryList h s) <= 100)%nat)
  /\ (forall calls st,
        (length (history st) <= 100)%nat ->
        (length (history (runCalls calls st)) <= 100)%nat).
Proof.
  split; [exact addToHistoryList_length | ].
  intros calls st H. now apply runCalls_keepsBound.
Qed.

(** Witness for X26: sixty region captures on Linux, which add 120
    screenshots. *)
Lemma history_stays_within_bound_witness :
  (length (history (runCalls (repeat (CallRegion linuxEnv smallRegion) 60) initialState))
   <= 100)%nat.
Proof.
  apply (proj2 history_stays_within_bound). simpl. lia.
Defined.

(** X27. Eviction and retrieval by id.  After 101 screenshots with
    pairwise distinct ids have been added to the empty history with
    [addToHistory], the history holds the 100 most recent ones: the id
    of the first is no longer retrievable with [getScreenshotById] and
    each of the 100 most recent is. *)
Theorem oldest_evicted_when_ids_differ :
  forall (first : ScreenshotData) (rest : list ScreenshotData),
    length rest = 100%nat ->
    List.NoDup (map sd_id (first :: rest)) ->
    history (addAll (first :: rest) initialState) = rest
    /\ getScreenshotById (addAll (first :: rest) initialState) (sd_id first) = None
    /\ forall s, In s rest ->
         getScreenshotById (addAll (first :: rest) initialState) (sd_id s) = Some s.
Proof.
  intros first rest Hlen Hnd.
  assert (Hh : history (addAll (first :: rest) initialState) = rest).
  { rewrite addAll_history. now apply fold_add_101. }
  simpl in Hnd. inversion Hnd as [|? ? Hfirst Hrest]; subst.
  unfold getScreenshotById. rewrite Hh. split; [reflexivity | ]. split.
  - now apply find_absent_id.
  - intros s Hin. now apply find_unique_id.
Qed.

(** Witness for X27: 101 screenshots with ids [ss_0_7] to
    [ss_100_7]. *)
Lemma oldest_evicted_when_ids_differ_witness :
  getScreenshotById (addAll (map sampleShot (seq 0 101)) initialState) "ss_0_7" = None
  /\ getScreenshotById (addAll (map sampleShot (seq 0 101)) initialState) "ss_100_7"
     = Some (sampleShot 100).
Proof.
  destruct (oldest_evicted_when_ids_differ (sampleShot 0) (map sampleShot (seq 1 100)))
    as (_ & Hfirst & Hrest).
  - reflexivity.
  - apply NoDup_ListNoDup. apply (bool_decide_unpack _). vm_compute. exact I.
  - split; [exact Hfirst | ].
    apply (Hrest (sampleShot 100)). apply in_map. apply in_seq. lia.
Defined.

(** ** The newest screenshot and the history listing *)

Lemma getLatestScreenshot_last (st : State) (older : list ScreenshotData)
    (shot : ScreenshotData) :
  history st = (older ++ [shot])%list -> getLatestScreenshot st = Some shot.
Proof.
  intros H. unfold getLatestScreenshot. rewrite H, length_app. cbn [length].
  replace (length older + 1 =? 0)%nat with false by (symmetry; apply Nat.eqb_neq; lia).
  rewrite nth_error_app2 by lia.
  replace (length older + 1 - 1 - length older)%nat with 0%nat by lia. reflexivity.
Qed.

(** X8. Round trip through the resource [latest].  After a capture
    function ([captureFullScreen], [captureWindow] or [captureRegion])
    called with one of the formats of the tool schemas, [png] or [jpg],
    has returned a screenshot, [getLatestScreenshot] is that
    screenshot, and reading [latest] in the state the capture left
    succeeds with its id, timestamp, type, format, width, height, file
    path and image data, whatever else the history holds. *)
Theorem latest_roundtrip :
  forall (c : Call) (st st' : State) (shot : ScreenshotData),
    schemaFormat (callParams c) ->
    capture c st = (Ok shot, st') ->
    getLatestScreenshot st' = Some shot
    /\ latestScreenshot (callEnv c) st' = Success (resourceView shot).
Proof.
  intros c st st' shot _ H.
  destruct (capture_captured c st st' shot H)
    as (buffer & [older Hhist] & _ & _ & _ & Hb64 & _ & Hfile).
  pose proof (getLatestScreenshot_last st' older shot Hhist) as Hlatest.
  split; [exact Hlatest | ].
  unfold latestScreenshot, resourceView. rewrite Hlatest.
  destruct (sd_filePath shot) as [[|p0 path]|]; try reflexivity.
  destruct Hfile as [Hlook _].
  unfold existsSync, readFile. rewrite Hlook.
  rewrite bool_decide_eq_true_2 by eauto. cbn. now rewrite Hb64.
Qed.

(** Witness for X8: a window capture as [png], saved to a file. *)
Lemma latest_roundtrip_witness :
  match capture (CallWindow safariEnv (pngWindow 80)) initialState with
  | (Ok shot, st') => latestScreenshot safariEnv st' = Success (resourceView shot)
  | (Throw _, _) => False
  end.
Proof.
  destruct (capture (CallWindow safariEnv (pngWindow 80)) initialState)
    as [[shot|e] st'] eqn:E; [ | vm_compute in E; discriminate ].
  refine (proj2 (latest_roundtrip (CallWindow safariEnv (pngWindow 80))
                   initialState st' shot _ E)).
  left. reflexivity.
Defined.

(** X28. Round trip through the resource [history/{id}].  After one of
    the tools [capture_full_screen], [capture_window] and
    [capture_region], called with one of the formats of the tool
    schemas, has answered with a screenshot, and provided no other
    entry of the history carries the id of that screenshot, reading
    [history/{id}] in the state the capture left succeeds and returns
    the width, height and format of the tool's answer. *)
Theorem history_resource_roundtrip :
  forall (c : Call) (reader : Env) (st st' : State) (shot : ToolScreenshot),
    schemaFormat (callParams c) ->
    runCall st c = (Success shot, st') ->
    countId st' (ts_id shot) = 1%nat ->
    exists found,
      screenshotById reader (Some (ts_id shot)) st' = Success found
      /\ rs_width found = ts_width shot
      /\ rs_height found = ts_height shot
      /\ rs_format found = ts_format shot.
Proof.
  intros c reader st st' shot _ Hrun Hone.
  apply runCall_success_inv in Hrun as (result & Hcap & Hid & Hf & Hw & Hh).
  destruct (capture_captured c st st' result Hcap)
    as (buffer & [older Hhist] & Hss & _ & _ & _ & _ & Hfile).
  rewrite Hid, Hf, Hw, Hh. unfold countId in Hone. rewrite Hid, Hhist in Hone.
  unfold screenshotById, getScreenshotById. rewrite Hhist, (find_newest _ _ Hone).
  destruct (sd_id result) as [|c0 i] eqn:Ei; [discriminate | ].
  destruct (sd_filePath result) as [[|p0 path]|].
  - eexists. split; [reflexivity | repeat split].
  - destruct Hfile as [Hlook _].
    unfold existsSync, readFile. rewrite Hlook.
    rewrite bool_decide_eq_true_2 by eauto. simpl.
    eexists. split; [reflexivity | repeat split].
  - eexists. split; [reflexivity | repeat split].
Qed.

(** Witness for X28: a full-screen capture saved to a file, read back
    at once. *)
Lemma history_resource_roundtrip_witness :
  match runCall initialState
          (CallFullScreen deniedEnv (mkOptions None None None None None None None None))
  with
  | (Success shot, st') =>
      exists found,
        screenshotById deniedEnv (Some (ts_id shot)) st' = Success found
        /\ rs_width found = ts_width shot
        /\ rs_height found = ts_height shot
        /\ rs_format found = ts_format shot
  | (Failure _, _) => False
  end.
Proof.
  destruct (runCall initialState
              (CallFullScreen deniedEnv (mkOptions None None None None None None None None)))
    as [[shot|e] st'] eqn:E; [ | vm_compute in E; discriminate ].
  apply (history_resource_roundtrip
           (CallFullScreen deniedEnv (mkOptions None None None None None None None None))
           deniedEnv initialState st' shot (or_introl eq_refl) E).
  vm_compute in E. injection E as <- <-. reflexivity.
Defined.

Lemma sliceTo_nonneg {A : Type} (n : Z) (l : list A) :
  0 <= n -> sliceTo n l = firstn (Z.to_nat n) l.
Proof.
  intros H. unfold sliceTo. cbv zeta.
  destruct (Z.ltb_spec n 0) as [Hlt|_]; [lia | ].
  destruct (Z.le_gt_cases n (Z.of_nat (length l))) as [Hle|Hgt].
  - now rewrite Z.min_l by lia.
  - rewrite Z.min_r by lia. rewrite Nat2Z.id.
    rewrite !firstn_all2 by lia. reflexivity.
Qed.

(** X9. [getScreenshotHistory] with a limit that is not negative (the
    resource [history] uses the default, 10) returns the most recent
    screenshots, newest first: as many items as the limit allows and
    the history holds, the item at position [k] being the view of the
    entry [k] places before the end of the history.  An empty history
    gives an empty list. *)
Theorem getScreenshotHistory_newest_first :
  forall (limit : option Z) (st : State),
    0 <= limitOf limit ->
    length (getScreenshotHistory limit st)
    = Nat.min (Z.to_nat (limitOf limit)) (length (history st))
    /\ forall k,
         (k < length (getScreenshotHistory limit st))%nat ->
         nth_error (getScreenshotHistory limit st) k
         = option_map historyItem
             (nth_error (history st) (length (history st) - 1 - k)).
Proof.
  intros limit st Hl. unfold getScreenshotHistory.
  rewrite sliceTo_nonneg by exact Hl.
  rewrite !length_map, length_firstn, length_rev. split; [reflexivity | ].
  intros k Hk. rewrite nth_error_map. f_equal.
  rewrite nth_error_firstn.
  destruct (Nat.ltb_spec k (Z.to_nat (limitOf limit))) as [_|Hge]; [ | lia ].
  rewrite nth_error_rev.
  destruct (Nat.ltb_spec k (length (history st))) as [_|Hge]; [ | lia ].
  f_equal. lia.
Qed.

(** Witness for X9: with three screenshots in the history and the
    default limit, the first item of the listing is the newest. *)
Lemma getScreenshotHistory_newest_first_witness :
  option_map hi_id
    (nth_error (getScreenshotHistory None (addAll (map sampleShot (seq 0 3)) initialState))
       0)
  = Some "ss_2_7".
Proof.
  destruct (getScreenshotHistory_newest_first None
              (addAll (map sampleShot (seq 0 3)) initialState)) as (_ & H);
    [vm_compute; discriminate | ].
  rewrite H; [reflexivity | vm_compute; lia].
Defined.

(** X10. The two versions of [getScreenshotHistory] that the source
    holds, [reverse().slice(0, limit)] and [slice(-limit).reverse()],
    return the same list for every limit other than 0, negative limits
    included; for the limit 0 the current version returns the empty
    list and the earlier one the whole history, newest first. *)
Theorem getScreenshotHistory_versions :
  forall (limit : option Z) (st : State),
    (limitOf limit <> 0 ->
     Legacy.getScreenshotHistory limit st = getScreenshotHistory limit st)
    /\ (limitOf limit = 0 ->
        getScreenshotHistory limit st = []
        /\ Legacy.getScreenshotHistory limit st = map historyItem (rev (history st))).
Proof.
  intros limit st. unfold Legacy.getScreenshotHistory, getScreenshotHistory.
  unfold sliceTo, sliceFrom. cbv zeta. rewrite length_rev.
  set (h := history st). split.
  - intros Hn. f_equal. rewrite firstn_rev. f_equal. f_equal.
    destruct (Z.ltb_spec (- limitOf limit) 0), (Z.ltb_spec (limitOf limit) 0); lia.
  - intros ->. change (- 0) with 0. change (0 <? 0) with false. cbv iota.
    replace (Z.to_nat (Z.min 0 (Z.of_nat (length h)))) with 0%nat by lia.
    split; reflexivity.
Qed.

(** Witness for X10: three screenshots and the limit 2. *)
Lemma getScreenshotHistory_versions_witness :
  map hi_id (Legacy.getScreenshotHistory (Some 2)
               (addAll (map sampleShot (seq 0 3)) initialState))
  = ["ss_2_7"; "ss_1_7"]
  /\ getScreenshotHistory (Some 0) (addAll (map sampleShot (seq 0 3)) initialState) = [].
Proof.
  split.
  - destruct (getScreenshotHistory_versions (Some 2)
                (addAll (map sampleShot (seq 0 3)) initialState)) as (H & _).
    rewrite H; [reflexivity | discriminate].
  - destruct (getScreenshotHistory_versions (Some 0)
                (addAll (map sampleShot (seq 0 3)) initialState)) as (_ & H).
    destruct H as (H & _); [reflexivity | exact H].
Defined.

(** ** Captures and the history *)

Lemma sameHistory_refl (st : State) : sameHistory st st.
Proof. reflexivity. Qed.

Lemma sameHistory_trans (a b c : State) :
  sameHistory a b -> sameHistory b c -> sameHistory a c.
Proof. unfold sameHistory. congruence. Qed.

Lemma sameHistory_effect (st : State) (e : Effect) :
  (fun _ : Effect => true) e = true -> sameHistory st (withEffect st e).
Proof. reflexivity. Qed.

Lemma sameHistory_files (st : State) (fs : gmap string string) :
  sameHistory st (withFiles st fs).
Proof. reflexivity. Qed.

Lemma sameHistory_tick (st : State) : sameHistory st (withTick st).
Proof. reflexivity. Qed.

(** Everything a capture does before [addToHistory] leaves the history
    alone. *)
Ltac keeps_history :=
  repeat first
    [ apply (steps_ret sameHistory sameHistory_refl)
    | apply (steps_throw sameHistory sameHistory_refl)
    | apply (steps_lift sameHistory sameHistory_refl)
    | apply (steps_readFile sameHistory sameHistory_refl)
    | apply (steps_setFiles sameHistory sameHistory_files)
    | apply (steps_emit sameHistory (fun _ => true) sameHistory_effect); reflexivity
    | apply (steps_convertIfNeeded sameHistory sameHistory_refl)
    | apply (steps_generateId sameHistory sameHistory_tick)
    | apply (steps_isoNow sameHistory sameHistory_tick)
    | apply (steps_tempFilePathNow sameHistory sameHistory_tick)
    | apply (steps_saveIfRequested sameHistory (fun _ => true) sameHistory_refl
               sameHistory_trans sameHistory_effect sameHistory_files); reflexivity
    | apply (steps_removeFile sameHistory (fun _ => true) sameHistory_trans
               sameHistory_effect sameHistory_files); reflexivity
    | apply (steps_runScreencapture sameHistory (fun _ => true) sameHistory_refl
               sameHistory_trans sameHistory_effect sameHistory_files); reflexivity
    | apply (steps_getWindowList sameHistory (fun _ => true) sameHistory_refl
               sameHistory_trans sameHistory_effect sameHistory_files); reflexivity
    | apply (steps_bind sameHistory sameHistory_trans); [ | intros ? ]
    | apply (steps_tryCatch sameHistory sameHistory_trans); [ | intros ? ]
    | match goal with
      | |- steps _ (match ?x with _ => _ end) => destruct x
      end ].

Lemma adds_bind {A : Type} (m : M A) (k : A -> M ScreenshotData) :
  steps sameHistory m -> (forall a, addsOnSuccess (k a)) -> addsOnSuccess (bind m k).
Proof.
  intros Hm Hk st. unfold bind. specialize (Hm st).
  destruct (m st) as [[a|e] st1]; cbn [snd] in Hm; [ | exact Hm ].
  specialize (Hk a st1). unfold sameHistory in Hm.
  destruct (k a st1) as [[shot|e] st2]; congruence.
Qed.

Lemma adds_tryCatch (m : M ScreenshotData) (f : string -> string) :
  addsOnSuccess m -> addsOnSuccess (tryCatch m (fun message => throw (f message))).
Proof.
  intros Hm st. unfold tryCatch, throw. specialize (Hm st).
  destruct (m st) as [[shot|e] st1]; exact Hm.
Qed.

Lemma adds_throw (e : string) : addsOnSuccess (throw e).
Proof. intros st. reflexivity. Qed.

Lemma adds_final (shot : ScreenshotData) :
  addsOnSuccess (addToHistory shot ;;; ret shot).
Proof. intros st. reflexivity. Qed.

Ltac adds :=
  repeat first
    [ apply adds_final
    | apply adds_throw
    | apply adds_tryCatch
    | apply adds_bind; [ solve [keeps_history] | intros ? ]
    | progress cbv beta zeta
    | match goal with
      | |- addsOnSuccess (match ?x with _ => _ end) => destruct x
      end ].

Lemma captureFullScreen_adds (env : Env) (options : Options) :
  addsOnSuccess (captureFullScreen env options).
Proof. unfold captureFullScreen. adds. Qed.

Lemma captureWindow_adds (env : Env) (options : Options) :
  addsOnSuccess (captureWindow env options).
Proof. unfold captureWindow. adds. Qed.

(** X11. A capture is all or nothing for the history.  When
    [captureFullScreen], [captureWindow], [captureApplication] or, on
    macOS, [captureRegion] returns a screenshot, the history has
    received that screenshot and nothing else (after the oldest entry
    has made room for it at 100 entries); when the call throws, the
    history is what it was before the call. *)
Theorem capture_adds_its_screenshot_or_nothing :
  forall (env : Env) (appType : option string) (options : Options),
    addsOnSuccess (captureFullScreen env options)
    /\ addsOnSuccess (captureWindow env options)
    /\ addsOnSuccess (captureApplication env appType options)
    /\ (String.eqb (platform env) "darwin" = true ->
        addsOnSuccess (captureRegion env options)).
Proof.
  intros env appType options.
  split; [apply captureFullScreen_adds | ].
  split; [apply captureWindow_adds | ].
  split.
  - unfold captureApplication. apply adds_bind.
    + unfold findApplicationWindow. keeps_history.
    + intros targetWindow. apply captureWindow_adds.
  - intros Hp. unfold captureRegion. rewrite Hp. adds.
Qed.

(** Witness for X11: a region capture on macOS that fails because the
    capture tool throws. *)
Lemma capture_adds_its_screenshot_or_nothing_witness :
  history (snd (captureRegion chmodFailsEnv smallRegion initialState)) = [].
Proof.
  destruct (capture_adds_its_screenshot_or_nothing chmodFailsEnv None smallRegion)
    as (_ & _ & _ & H).
  specialize (H eq_refl initialState).
  destruct (captureRegion chmodFailsEnv smallRegion initialState) as [[shot|e] st'] eqn:E;
    [ vm_compute in E; discriminate | exact H ].
Defined.

(** X12. Off macOS [captureRegion] first takes a whole-screen capture,
    which adds an entry of its own to the history, and then crops it.
    A region capture that succeeds therefore adds two entries, the
    whole screen and then the region; and when the crop fails the call
    fails with the message of the crop behind
    [Failed to capture region: ], yet the whole-screen screenshot has
    been added and is now the latest screenshot. *)
Theorem captureRegion_off_macOS_records_full_screen :
  forall (env : Env) (options : Options) (st : State) (x y width height : Z),
    String.eqb (platform env) "darwin" = false ->
    opt_x options = Some x -> opt_y options = Some y ->
    opt_width options = Some width -> opt_height options = Some height ->
    (forall shot st',
       captureRegion env options st = (Ok shot, st') ->
       exists full,
         sd_type full = "fullscreen" /\ sd_type shot = "region"
         /\ history st'
            = addToHistoryList (addToHistoryList (history st) full) shot)
    /\ (forall full st1 e,
          captureFullScreen env pngInMemory st = (Ok full, st1) ->
          sharpExtractJpeg env (fromBase64 env (sd_base64 full))
            (mkRegion x y width height)
            (if String.eqb (formatOf options) "jpg" then "jpeg" else "png")
            (qualityOf options) = Throw e ->
          captureRegionHandler env options st
          = (Failure ("Failed to capture region: " ++ e), st1)
          /\ history st1 = addToHistoryList (history st) full
          /\ getLatestScreenshot st1 = Some full).
Proof.
  intros env options st x y width height Hp Hx Hy Hw Hh. split.
  - intros shot st' H. unfold captureRegion in H. rewrite Hx, Hy, Hw, Hh, Hp in H.
    cbv zeta in H. apply tryCatch_rethrow_inv in H.
    apply bind_inv in H as (full & s1 & H1 & H).
    pose proof (captureFullScreen_adds env pngInMemory st) as Hfull.
    unfold pngInMemory in Hfull. rewrite H1 in Hfull.
    assert (Htype : sd_type full = "fullscreen").
    { unfold captureFullScreen in H1. cbv zeta in H1.
      apply tryCatch_rethrow_inv in H1.
      repeat (apply bind_inv in H1 as (? & ? & _ & H1)).
      injection H1 as <- _. reflexivity. }
    exists full. split; [exact Htype | ].
    apply bind_inv in H as (processed & s2 & H2 & H). apply lift_inv in H2 as [_ ->].
    apply bind_inv in H as (ts & s3 & H3 & H). rewrite isoNow_run in H3.
    injection H3 as <- <-.
    apply bind_inv in H as ([] & s4 & H4 & H).
    assert (Hs4 : history s4 = history (withTick s1)).
    { apply saveIfRequested_inv in H4. destruct (saveToFileOf options); now subst s4. }
    apply bind_inv in H as (id & s5 & H5 & H). rewrite generateId_run in H5.
    injection H5 as <- <-.
    apply bind_inv in H as ([] & s6 & H6 & H). rewrite addToHistory_run in H6.
    injection H6 as <-. injection H as <- <-.
    split; [reflexivity | ].
    cbn [history withShot withTick]. rewrite Hs4. cbn [history withTick].
    now rewrite Hfull.
  - intros full st1 e Hfull Hcrop.
    pose proof (captureFullScreen_adds env pngInMemory st) as Hadd.
    rewrite Hfull in Hadd.
    split; [ | split; [exact Hadd | ] ].
    + unfold captureRegionHandler, handle, captureRegion.
      rewrite Hx, Hy, Hw, Hh, Hp. cbv zeta. unfold tryCatch. unfold bind at 1.
      unfold pngInMemory in Hfull. rewrite Hfull.
      unfold bind at 1. unfold lift. rewrite Hcrop. reflexivity.
    + destruct (addToHistoryList_last (history st) full) as [older Ho].
      apply (getLatestScreenshot_last st1 older full). now rewrite Hadd.
Qed.

(** Witness for X12: on Linux, with a crop that fails. *)
Lemma captureRegion_off_macOS_records_full_screen_witness :
  fst (captureRegionHandler cropFailsEnv smallRegion initialState)
  = Failure "Failed to capture region: extract_area: bad extract area"
  /\ option_map sd_type
       (getLatestScreenshot (snd (captureRegionHandler cropFailsEnv smallRegion
                                    initialState)))
     = Some "fullscreen".
Proof.
  destruct (captureRegion_off_macOS_records_full_screen cropFailsEnv smallRegion
              initialState 0 0 10 10) as (_ & H); try reflexivity.
  destruct (captureFullScreen cropFailsEnv pngInMemory initialState)
    as [[full|e] st1] eqn:E; [ | vm_compute in E; discriminate ].
  destruct (H full st1 "extract_area: bad extract area" eq_refl eq_refl)
    as (H1 & _ & H3).
  rewrite H1. cbn [fst snd]. rewrite H3.
  vm_compute in E. injection E as <- _. split; reflexivity.
Defined.

(** ** Screenshot ids *)

Lemma string_of_uint_digits (d : Decimal.uint) :
  onlyDigits (NilEmpty.string_of_uint d) = true.
Proof. induction d; cbn; auto. Qed.

Lemma showN_inj (a b : N) : Js.showN a = Js.showN b -> a = b.
Proof.
  unfold Js.showN. intros H.
  assert (Hu : Some (N.to_uint a) = Some (N.to_uint b)).
  { rewrite <- !NilEmpty.usu. now rewrite H. }
  injection Hu as Hu.
  rewrite <- (DecimalN.Unsigned.of_to a), <- (DecimalN.Unsigned.of_to b).
  now rewrite Hu.
Qed.

(** Two digit strings followed by an underscore and a rest are equal
    only part by part. *)
Lemma digits_underscore_inj (a a' b b' : string) :
  onlyDigits a = true -> onlyDigits a' = true ->
  a ++ "_" ++ b = a' ++ "_" ++ b' -> a = a' /\ b = b'.
Proof.
  revert a'. induction a as [|c a IH]; intros [|c' a'] Ha Ha' H; cbn in *.
  - injection H as H. auto.
  - injection H as Hc _. subst c'. discriminate.
  - injection H as Hc _. subst c. discriminate.
  - injection H as Hc H. subst c'.
    apply andb_true_iff in Ha as [_ Ha]. apply andb_true_iff in Ha' as [_ Ha'].
    destruct (IH a' Ha Ha' H) as [-> ->]. auto.
Qed.

Lemma idAt_inj (env env' : Env) (t t' : nat) :
  idAt env t = idAt env' t' ->
  dateNow env t = dateNow env' t' /\ random1000 env t = random1000 env' t'.
Proof.
  unfold idAt. intros H. apply append_inj_l in H.
  apply digits_underscore_inj in H as [H1 H2];
    try apply string_of_uint_digits.
  split; now apply showN_inj.
Qed.

(** X13. Two calls of [generateId] return the same id exactly when they
    read the same millisecond from the clock and draw the same random
    number below 1000: the text of an id determines both readings. *)
Theorem generateId_same_id_iff :
  forall (env env' : Env) (st st' : State),
    fst (generateId env st) = fst (generateId env' st')
    <-> dateNow env (ticks st) = dateNow env' (ticks st')
        /\ random1000 env (ticks st) = random1000 env' (ticks st').
Proof.
  intros env env' st st'. rewrite !generateId_run. cbn [fst]. split.
  - intros H. apply (idAt_inj env env'). unfold idAt. congruence.
  - intros [-> ->]. reflexivity.
Qed.

(** Witness for X13: two ids drawn five milliseconds apart differ. *)
Lemma generateId_same_id_iff_witness :
  fst (generateId deniedEnv initialState)
  <> fst (generateId deniedEnv (mkState [] ∅ [] 5)).
Proof.
  intros H.
  apply (proj1 (generateId_same_id_iff deniedEnv deniedEnv initialState
                  (mkState [] ∅ [] 5))) in H.
  destruct H as [H _]. discriminate H.
Defined.
















(** ** File names *)

Lemma mapChars_length (f : ascii -> ascii) (s : string) :
  String.length (mapChars f s) = String.length s.
Proof. induction s as [|c s IH]; cbn; [reflexivity | now rewrite IH]. Qed.

Lemma mapChars_allChars (f : ascii -> ascii) (p : ascii -> bool) (s : string) :
  (forall c, p (f c) = true) -> allChars p (mapChars f s) = true.
Proof.
  intros H. induction s as [|c s IH]; cbn; [reflexivity | ].
  now rewrite H, IH.
Qed.

Lemma captureFullScreen_path (env : Env) (options : Options) (st st' : State)
    (shot : ScreenshotData) :
  captureFullScreen env options st = (Ok shot, st') ->
  sd_filePath shot
  = if saveToFileOf options
    then Some (pathJoin (screenshotDir env)
                 ("fullscreen_" ++ safeTimestamp (sd_timestamp shot) ++ "."
                  ++ formatOf options))
    else None.
Proof.
  intros H. unfold captureFullScreen in H. cbv zeta in H.
  apply tryCatch_rethrow_inv in H.
  apply bind_inv in H as (ts & s1 & _ & H).
  apply bind_inv in H as ([] & s2 & _ & H).
  apply bind_inv in H as (img & s3 & _ & H).
  apply bind_inv in H as (processed & s4 & _ & H).
  apply bind_inv in H as ([] & s5 & _ & H).
  apply bind_inv in H as (id & s6 & _ & H).
  apply bind_inv in H as (meta & s7 & _ & H).
  apply bind_inv in H as ([] & s8 & _ & H).
  injection H as <- _. reflexivity.
Qed.

Lemma captureWindow_path (env : Env) (options : Options) (windowTitle : string)
    (st st' : State) (shot : ScreenshotData) :
  opt_windowTitle options = Some windowTitle ->
  captureWindow env options st = (Ok shot, st') ->
  sd_filePath shot
  = if saveToFileOf options
    then Some (pathJoin (screenshotDir env)
                 ("window_" ++ safeTitle windowTitle ++ "_"
                  ++ safeTimestamp (sd_timestamp shot) ++ "." ++ formatOf options))
    else None.
Proof.
  intros Ht H. unfold captureWindow in H. rewrite Ht in H.
  destruct windowTitle as [|c t]; [discriminate | ].
  cbv zeta in H. apply tryCatch_rethrow_inv in H.
  apply bind_inv in H as (ws & s1 & _ & H).
  destruct (List.find (titleMatches (String c t)) ws) as [target|]; [ | discriminate ].
  apply bind_inv in H as (ts & s2 & _ & H).
  destruct (String.eqb (platform env) "darwin"); [ | discriminate ].
  apply tryCatch_rethrow_inv in H.
  apply bind_inv in H as (temp & s3 & _ & H).
  apply bind_inv in H as ([] & s4 & _ & H).
  apply bind_inv in H as (raw & s5 & _ & H).
  apply bind_inv in H as (processed & s6 & _ & H).
  apply bind_inv in H as ([] & s7 & _ & H).
  apply bind_inv in H as ([] & s8 & _ & H).
  apply bind_inv in H as (meta & s9 & _ & H).
  apply bind_inv in H as (id & s10 & _ & H).
  apply bind_inv in H as ([] & s11 & _ & H).
  injection H as <- _. reflexivity.
Qed.

Lemma captureRegion_path (env : Env) (options : Options) (region : Region)
    (st st' : State) (shot : ScreenshotData) :
  requestedRegion options = Some region ->
  captureRegion env options st = (Ok shot, st') ->
  sd_filePath shot
  = if saveToFileOf options
    then Some (pathJoin (screenshotDir env)
                 (regionFilename region (sd_timestamp shot) (formatOf options)))
    else None.
Proof.
  unfold requestedRegion, captureRegion.
  destruct (opt_x options) as [x|], (opt_y options) as [y|],
    (opt_width options) as [w|], (opt_height options) as [h|]; try discriminate.
  intros Hr H. injection Hr as <-.
  cbv zeta in H. apply tryCatch_rethrow_inv in H.
  destruct (String.eqb (platform env) "darwin").
  - apply tryCatch_rethrow_inv in H.
    apply bind_inv in H as (temp & s1 & _ & H).
    apply bind_inv in H as (ts & s2 & _ & H).
    apply bind_inv in H as ([] & s3 & _ & H).
    apply bind_inv in H as (raw & s4 & _ & H).
    apply bind_inv in H as (processed & s5 & _ & H).
    apply bind_inv in H as ([] & s6 & _ & H).
    apply bind_inv in H as ([] & s7 & _ & H).
    apply bind_inv in H as (id & s8 & _ & H).
    apply bind_inv in H as ([] & s9 & _ & H).
    injection H as <- _. reflexivity.
  - apply bind_inv in H as (full & s1 & _ & H).
    apply bind_inv in H as (processed & s2 & _ & H).
    apply bind_inv in H as (ts & s3 & _ & H).
    apply bind_inv in H as ([] & s4 & _ & H).
    apply bind_inv in H as (id & s5 & _ & H).
    apply bind_inv in H as ([] & s6 & _ & H).
    injection H as <- _. reflexivity.
Qed.

(** X15. The name of the file of a saved screenshot, for calls with one
    of the formats of the tool schemas, [png] or [jpg].  The recorded
    path is, in the screenshot directory, [fullscreen_<stamp>.<format>]
    for the whole screen, [window_<title>_<stamp>.<format>] for a
    window and [region_<x>_<y>_<width>_<height>_<stamp>.<format>] for a
    region whose numbers are integers a JavaScript number holds
    exactly; nothing is recorded when [saveToFile] is false.  Of the
    parts of the name only two are sanitised: [<title>] is the
    requested window title with every character other than a letter
    or a digit replaced by an underscore, and [<stamp>] is the
    timestamp of the screenshot with every colon and full stop
    replaced by a hyphen, both of unchanged length.  The format and
    the four numbers of the region enter the name as the caller gave
    them. *)
Theorem file_name_parts_are_sanitised :
  (forall (env : Env) (options : Options) (st st' : State) (shot : ScreenshotData),
     schemaFormat options ->
     captureFullScreen env options st = (Ok shot, st') ->
     sd_filePath shot
     = if saveToFileOf options
       then Some (pathJoin (screenshotDir env)
                    ("fullscreen_" ++ safeTimestamp (sd_timestamp shot) ++ "."
                     ++ formatOf options))
       else None)
  /\ (forall (env : Env) (options : Options) (windowTitle : string) (st st' : State)
        (shot : ScreenshotData),
        schemaFormat options ->
        opt_windowTitle options = Some windowTitle ->
        captureWindow env options st = (Ok shot, st') ->
        sd_filePath shot
        = if saveToFileOf options
          then Some (pathJoin (screenshotDir env)
                       ("window_" ++ safeTitle windowTitle ++ "_"
                        ++ safeTimestamp (sd_timestamp shot) ++ "."
                        ++ formatOf options))
          else None)
  /\ (forall (env : Env) (options : Options) (region : Region) (st st' : State)
        (shot : ScreenshotData),
        schemaFormat options ->
        requestedRegion options = Some region ->
        safeRegion region ->
        captureRegion env options st = (Ok shot, st') ->
        sd_filePath shot
        = if saveToFileOf options
          then Some (pathJoin (screenshotDir env)
                       ("region_" ++ Js.showZ (rx region) ++ "_" ++ Js.showZ (ry region)
                        ++ "_" ++ Js.showZ (rwidth region) ++ "_"
                        ++ Js.showZ (rheight region) ++ "_"
                        ++ safeTimestamp (sd_timestamp shot) ++ "."
                        ++ formatOf options))
          else None)
  /\ (forall (s : string),
        allChars isTitleChar (safeTitle s) = true
        /\ String.length (safeTitle s) = String.length s
        /\ allChars isStampChar (safeTimestamp s) = true
        /\ String.length (safeTimestamp s) = String.length s).
Proof.
  split; [ | split; [ | split ] ].
  - intros env options st st' shot _. apply captureFullScreen_path.
  - intros env options windowTitle st st' shot _. apply captureWindow_path.
  - intros env options region st st' shot _ Hr _. now apply captureRegion_path.
  - intros s. unfold safeTitle, safeTimestamp. rewrite !mapChars_length.
    split; [ | split; [reflexivity | split; [ | reflexivity ] ] ].
    + apply mapChars_allChars. intros c. unfold isTitleChar.
      destruct (isAlnum c) eqn:E; [now rewrite E | reflexivity].
    + apply mapChars_allChars. intros c. unfold isStampChar.
      destruct (Ascii.eqb c ":"%char || Ascii.eqb c "."%char)%bool eqn:E;
        [reflexivity | now rewrite E].
Qed.

(** Witness for X15: the files of a capture of the window titled
    [Start] and of a region capture on Linux. *)
Lemma file_name_parts_are_sanitised_witness :
  match fst (captureWindow safariEnv (pngWindow 80) initialState) with
  | Ok shot =>
      sd_filePath shot
      = Some "/srv/screenshots/window_Start_2024-05-01T10-00-00-000Z.png"
  | Throw _ => False
  end
  /\ match fst (captureRegion linuxEnv
                  (mkOptions None (Some "jpg") None None (Some (-5)) (Some 0)
                     (Some 10) (Some 10)) initialState) with
     | Ok shot =>
         sd_filePath shot
         = Some "/srv/screenshots/region_-5_0_10_10_2024-05-01T10-00-00-000Z.jpg"
     | Throw _ => False
     end.
Proof.
  destruct file_name_parts_are_sanitised as (_ & Hwindow & Hregion & _).
  split.
  - destruct (captureWindow safariEnv (pngWindow 80) initialState)
      as [[shot|e] st'] eqn:E; [ | vm_compute in E; discriminate ].
    cbn [fst].
    rewrite (Hwindow safariEnv (pngWindow 80) "Start" initialState st' shot);
      [ | left; reflexivity | reflexivity | exact E ].
    vm_compute in E. injection E as <- _. reflexivity.
  - destruct (captureRegion linuxEnv
                (mkOptions None (Some "jpg") None None (Some (-5)) (Some 0)
                   (Some 10) (Some 10)) initialState)
      as [[shot|e] st'] eqn:E; [ | vm_compute in E; discriminate ].
    cbn [fst].
    rewrite (Hregion linuxEnv
               (mkOptions None (Some "jpg") None None (Some (-5)) (Some 0)
                  (Some 10) (Some 10))
               (mkRegion (-5) 0 10 10) initialState st' shot);
      [ | right; reflexivity | reflexivity
        | unfold safeRegion, safeInteger; cbn [rx ry rwidth rheight]; lia
        | exact E ].
    vm_compute in E. injection E as <- _. reflexivity.
Defined.

(** ** Resources of screenshots saved to files *)

(** X16. For a screenshot that was saved to a file, the resources
    [latest] and [history/{id}] serve the file, not the capture: they
    answer with the base64 text of what the file holds at the time of
    the request, and with [Screenshot file no longer exists] when the
    file is gone.  For a screenshot that was kept in memory they answer
    with the image data of the capture, whatever the files are. *)
Theorem resources_serve_the_saved_file :
  forall (env : Env) (st : State) (shot : ScreenshotData),
    (getLatestScreenshot st = Some shot ->
     latestScreenshot env st
     = match sd_filePath shot with
       | None | Some EmptyString => Success (resourceView shot)
       | Some path => servedFromFile env st shot path
       end)
    /\ (forall id,
          id <> EmptyString ->
          getScreenshotById st id = Some shot ->
          screenshotById env (Some id) st
          = match sd_filePath shot with
            | None | Some EmptyString => Success (resourceView shot)
            | Some path => servedFromFile env st shot path
            end).
Proof.
  intros env st shot.
  assert (Hfile : forall path,
            (if negb (existsSync path st)
             then Failure "Screenshot file no longer exists"
             else match readFile path st with
                  | (Ok buffer, _) =>
                      Success (mkResShot (sd_id shot) (sd_timestamp shot)
                                 (sd_type shot) (sd_format shot) (sd_width shot)
                                 (sd_height shot) (sd_filePath shot) (base64 env buffer))
                  | (Throw message, _) => Failure message
                  end)
            = servedFromFile env st shot path).
  { intros path. unfold existsSync, readFile, servedFromFile.
    destruct (files st !! path) as [data|].
    - rewrite bool_decide_eq_true_2 by eauto. reflexivity.
    - rewrite bool_decide_eq_false_2 by (intros [x Hx]; discriminate). reflexivity. }
  split.
  - intros H. unfold latestScreenshot, resourceView. rewrite H. cbv zeta.
    destruct (sd_filePath shot) as [[|c path]|] eqn:E; try reflexivity.
    apply Hfile.
  - intros id Hid H. unfold screenshotById, resourceView.
    destruct id as [|c0 id]; [congruence | ].
    rewrite H. cbv zeta.
    destruct (sd_filePath shot) as [[|c path]|] eqn:E; try reflexivity.
    apply Hfile.
Qed.

(** Witness for X16: the file of the only screenshot has been
    overwritten after the capture. *)
Lemma resources_serve_the_saved_file_witness :
  option_map rs_base64
    (match screenshotById deniedEnv (Some "ss_1_7") overwrittenState with
     | Success r => Some r
     | Failure _ => None
     end)
  = Some "b64:EDITED".
Proof.
  destruct (resources_serve_the_saved_file deniedEnv overwrittenState
              (mkShot "ss_1_7" "2024-05-01T10:00:00.000Z" "fullscreen" None None None
                 "png" 100 1440 900 (Some "/srv/screenshots/a.png") "b64:RAW"))
    as (_ & H).
  rewrite (H "ss_1_7"); [reflexivity | discriminate | reflexivity].
Defined.

(** ** The server object *)

Lemma fullUri_prefix {D : Type} (server : MCPServer D) (uri : string) :
  Js.startsWith (fullUri server uri) (srv_baseUrl server) = true.
Proof.
  unfold fullUri. destruct (Js.startsWith uri (srv_baseUrl server)) eqn:E;
    [exact E | apply prefix_app].
Qed.

Lemma serverCall_baseUrl {D : Type} (server : MCPServer D) (c : ServerCall D) :
  srv_baseUrl (serverCall server c) = srv_baseUrl server.
Proof.
  destruct c; cbn; try reflexivity.
  - unfold start. now destruct (srv_isRunning server).
  - unfold stop. now destruct (srv_isRunning server).
Qed.

(** X17. Every key of the [resources] map of a server is a full URI:
    whatever tools, resources and templates are registered after the
    construction, and however the server is started and stopped, each
    key begins with the base URL of the server, and a template entry
    records its own key as its [template].  A URI given with the base
    URL in front and the same URI given without it are registered under
    the same key. *)
Theorem resource_keys_are_full_uris :
  forall (D : Type) (options : ServerOptions) (calls : list (ServerCall D)),
    let server := serverCalls calls (newServer D options) in
    (forall key entry,
       srv_resources server !! key = Some entry ->
       Js.startsWith key (srv_baseUrl server) = true
       /\ (re_isTemplate entry = true -> re_template entry = Some key))
    /\ (forall uri,
          Js.startsWith uri (srv_baseUrl server) = false ->
          fullUri server (srv_baseUrl server ++ uri) = fullUri server uri).
Proof.
  intros D options calls server. split.
  - subst server.
    assert (Hinv : forall s : MCPServer D,
              (forall key entry,
                 srv_resources s !! key = Some entry ->
                 Js.startsWith key (srv_baseUrl s) = true
                 /\ (re_isTemplate entry = true -> re_template entry = Some key)) ->
              forall key entry,
                srv_resources (serverCalls calls s) !! key = Some entry ->
                Js.startsWith key (srv_baseUrl (serverCalls calls s)) = true
                /\ (re_isTemplate entry = true -> re_template entry = Some key)).
    { induction calls as [|c calls IH]; intros s Hs; [exact Hs | ].
      cbn [serverCalls fold_left]. apply IH. intros key entry.
      rewrite serverCall_baseUrl.
      destruct c as [name def|uri def|uri def| | ]; cbn [serverCall].
      - apply Hs.
      - unfold registerResource, withResource. cbn [srv_resources].
        destruct (String.eqb_spec key (fullUri s uri)) as [->|Hne].
        + rewrite lookup_insert_eq. intros H. injection H as <-.
          split; [apply fullUri_prefix | discriminate].
        + rewrite lookup_insert_ne by congruence. apply Hs.
      - unfold registerTemplateResource, withResource. cbv zeta. cbn [srv_resources].
        destruct (String.eqb_spec key (fullUri s uri)) as [->|Hne].
        + rewrite lookup_insert_eq. intros H. injection H as <-.
          split; [apply fullUri_prefix | reflexivity].
        + rewrite lookup_insert_ne by congruence. apply Hs.
      - unfold start. destruct (srv_isRunning s); apply Hs.
      - unfold stop. destruct (srv_isRunning s); apply Hs. }
    apply Hinv. intros key entry H. cbn in H. now rewrite lookup_empty in H.
  - intros uri Huri. unfold fullUri. rewrite Huri.
    unfold Js.startsWith. now rewrite prefix_app.
Qed.

(** Witness for X17: the server of [index.js] after its registrations
    and its start. *)
Lemma resource_keys_are_full_uris_witness :
  Js.startsWith "screenshot://history/{id}"
    (srv_baseUrl (serverCalls indexCalls (newServer string indexOptions))) = true
  /\ fullUri (serverCalls indexCalls (newServer string indexOptions))
       "screenshot://latest"
     = fullUri (serverCalls indexCalls (newServer string indexOptions)) "latest".
Proof.
  destruct (resource_keys_are_full_uris string indexOptions indexCalls) as (H1 & H2).
  split.
  - apply (H1 "screenshot://history/{id}"
             (mkResource "screenshotById" true (Some "screenshot://history/{id}"))).
    vm_compute. reflexivity.
  - apply (H2 "latest"). reflexivity.
Defined.

(** ** Round trip through the output of the Swift helper *)

Ltac digit_step IH :=
  cbn [NilEmpty.string_of_uint Js.readDigits];
  match goal with
  | |- context [Js.isDigit ?c] => change (Js.isDigit c) with true
  end;
  cbv iota;
  match goal with
  | |- context [Js.digitValue ?c] =>
      let v := eval vm_compute in (Js.digitValue c) in
      change (Js.digitValue c) with v
  end;
  cbn [default from_option id]; rewrite <- IH; do 2 f_equal; lia.

Lemma readDigits_acc (d : Decimal.uint) (acc : positive) :
  Js.readDigits (Some (Z.pos acc)) (NilEmpty.string_of_uint d)
  = Some (Z.pos (Pos.of_uint_acc d acc)).
Proof.
  revert acc. induction d as [|d IH|d IH|d IH|d IH|d IH|d IH|d IH|d IH|d IH|d IH];
    intros acc; [reflexivity | cbn [Pos.of_uint_acc]; digit_step IH ..].
Qed.

Lemma readDigits_zero (d : Decimal.uint) :
  Js.readDigits (Some 0) (NilEmpty.string_of_uint d) = Some (Z.of_N (Pos.of_uint d)).
Proof.
  induction d as [|d IH|d IH|d IH|d IH|d IH|d IH|d IH|d IH|d IH|d IH];
    [reflexivity | exact IH | .. ];
    cbn [NilEmpty.string_of_uint Js.readDigits Pos.of_uint];
    match goal with
    | |- context [Js.isDigit ?c] => change (Js.isDigit c) with true
    end;
    cbv iota;
    match goal with
    | |- context [Js.digitValue ?c] =>
        let v := eval vm_compute in (Js.digitValue c) in
        change (Js.digitValue c) with v
    end;
    cbn [default from_option id]; apply readDigits_acc.
Qed.

(** Without digits read so far, a digit string is read as after a
    zero. *)
Lemma readDigits_start (d : Decimal.uint) :
  d <> Decimal.Nil ->
  Js.readDigits None (NilEmpty.string_of_uint d)
  = Js.readDigits (Some 0) (NilEmpty.string_of_uint d).
Proof. destruct d; [congruence | reflexivity ..]. Qed.

Lemma string_of_uint_head (d : Decimal.uint) :
  d <> Decimal.Nil ->
  exists c r,
    NilEmpty.string_of_uint d = String c r
    /\ Js.isWhite c = false /\ Ascii.eqb c "-"%char = false
    /\ Ascii.eqb c "+"%char = false.
Proof. destruct d; [congruence | intros _; do 2 eexists; repeat split ..]. Qed.

Lemma parseIntStr_uint (d : Decimal.uint) :
  d <> Decimal.Nil ->
  Js.parseIntStr (NilEmpty.string_of_uint d) = Js.Num (Z.of_N (Pos.of_uint d)).
Proof.
  intros Hd. pose proof (readDigits_start d Hd) as Hs.
  rewrite readDigits_zero in Hs.
  destruct (string_of_uint_head d Hd) as (c & r & E & Hw & Hm & Hp).
  unfold Js.parseIntStr. rewrite E in *. cbn [Js.trimStart]. rewrite Hw, Hm, Hp.
  now rewrite Hs.
Qed.

(** [parseInt] reads back the decimal text of an integer. *)
Lemma parseInt_showZ (z : Z) : Js.parseInt (Some (Js.showZ z)) = Js.Num z.
Proof.
  unfold Js.parseInt, Js.showZ. destruct z as [|p|p]; [reflexivity | | ].
  - cbn [Z.to_int NilEmpty.string_of_int].
    rewrite parseIntStr_uint by apply DecimalPos.Unsigned.to_uint_nonnil.
    now rewrite DecimalPos.Unsigned.of_to.
  - cbn [Z.to_int NilEmpty.string_of_int]. unfold Js.parseIntStr.
    cbn [Js.trimStart]. change (Js.isWhite "-"%char) with false. cbv iota.
    change (Ascii.eqb "-"%char "-"%char) with true. cbv iota.
    rewrite readDigits_start by apply DecimalPos.Unsigned.to_uint_nonnil.
    rewrite readDigits_zero, DecimalPos.Unsigned.of_to. reflexivity.
Qed.

Lemma string_of_uint_plain (d : Decimal.uint) :
  noBar (NilEmpty.string_of_uint d) = true /\ noLf (NilEmpty.string_of_uint d) = true.
Proof. induction d; cbn; auto. Qed.

Lemma showZ_plain (z : Z) : noBar (Js.showZ z) = true /\ noLf (Js.showZ z) = true.
Proof.
  unfold Js.showZ. destruct z as [|p|p]; cbn [Z.to_int NilEmpty.string_of_int];
    [split; reflexivity | apply string_of_uint_plain | ].
  cbn [noBar noLf]. apply string_of_uint_plain.
Qed.

Lemma showZ_head (z : Z) :
  exists c r, Js.showZ z = String c r /\ Js.isWhite c = false.
Proof.
  unfold Js.showZ. destruct z as [|p|p]; cbn [Z.to_int NilEmpty.string_of_int].
  - do 2 eexists. split; reflexivity.
  - destruct (string_of_uint_head (Pos.to_uint p)) as (c & r & E & Hw & _);
      [apply DecimalPos.Unsigned.to_uint_nonnil | eauto].
  - do 2 eexists. split; reflexivity.
Qed.

Lemma noLf_app (a b : string) : noLf (a ++ b) = (noLf a && noLf b)%bool.
Proof.
  induction a as [|c a IH]; [reflexivity | ].
  change (String c a ++ b) with (String c (a ++ b)). cbn [noLf].
  rewrite IH. now rewrite andb_assoc.
Qed.

Lemma prefix_bar (c : ascii) (s : string) :
  String.prefix "|" (String c s) = Ascii.eqb c "|"%char.
Proof.
  change (String.prefix "|" (String c s))
    with (if ascii_dec "|"%char c then String.prefix EmptyString s else false).
  destruct (ascii_dec "|"%char c) as [E|E].
  - subst. rewrite Ascii.eqb_refl. now destruct s.
  - symmetry. apply Ascii.eqb_neq. congruence.
Qed.

Lemma split_bar_single (a : string) :
  noBar a = true -> Js.splitFrom "|" O a = [a].
Proof.
  induction a as [|c a IH]; intros H; [reflexivity | ].
  cbn [noBar] in H. apply andb_prop in H as [Hc Ha].
  cbn [Js.splitFrom]. rewrite prefix_bar.
  apply negb_true_iff in Hc. rewrite Hc, (IH Ha). reflexivity.
Qed.

Lemma split_bar_first (a rest : string) :
  noBar a = true ->
  Js.splitFrom "|" O (a ++ "|" ++ rest) = a :: Js.splitFrom "|" O rest.
Proof.
  induction a as [|c a IH]; intros H.
  - change (EmptyString ++ "|" ++ rest) with (String "|"%char rest).
    cbn [Js.splitFrom]. rewrite prefix_bar, Ascii.eqb_refl. reflexivity.
  - cbn [noBar] in H. apply andb_prop in H as [Hc Ha].
    change (String c a ++ "|" ++ rest) with (String c (a ++ "|" ++ rest)).
    cbn [Js.splitFrom]. rewrite prefix_bar.
    apply negb_true_iff in Hc. rewrite Hc, (IH Ha). reflexivity.
Qed.

(** A string that begins with a character other than white space is
    not blank. *)
Lemma trim_head (c : ascii) (s : string) :
  Js.isWhite c = false -> exists r, Js.trim (String c s) = String c r.
Proof.
  intros Hc. unfold Js.trim. cbn [Js.trimStart]. rewrite Hc. cbn [Js.trimEnd].
  rewrite Hc. destruct (Js.trimEnd s); eauto.
Qed.

(** The loop body of the Swift parser on a line of the helper. *)
Lemma swiftStep_line (windows : list WindowRecord) (w : SwiftWindow) :
  plainNames w ->
  swiftStep windows (swiftLine w) = (windows ++ [swiftRecord w])%list.
Proof.
  intros (Hob & _ & Hnb & _). unfold swiftStep.
  assert (Hparts : Js.split (swiftLine w) "|"
                   = [ Js.showZ (sw_windowID w); sw_ownerName w; sw_windowName w;
                       Js.showZ (sw_x w); Js.showZ (sw_y w); Js.showZ (sw_width w);
                       Js.showZ (sw_height w) ]).
  { unfold Js.split, swiftLine.
    rewrite split_bar_first by apply showZ_plain.
    rewrite split_bar_first by exact Hob.
    rewrite split_bar_first by exact Hnb.
    rewrite !split_bar_first by apply showZ_plain.
    rewrite split_bar_single by apply showZ_plain. reflexivity. }
  destruct (showZ_head (sw_windowID w)) as (c & r & E & Hc).
  assert (Htrim : exists r', Js.trim (swiftLine w) = String c r').
  { unfold swiftLine. rewrite E.
    change (String c r ++ ?x) with (String c (r ++ x)). now apply trim_head. }
  destruct Htrim as [r' ->]. cbv zeta. rewrite Hparts.
  cbn [nth nth_error]. rewrite !parseInt_showZ. reflexivity.
Qed.

Lemma swiftLine_noLf (w : SwiftWindow) : plainNames w -> noLf (swiftLine w) = true.
Proof.
  intros (_ & Hol & _ & Hnl). unfold swiftLine. rewrite !noLf_app.
  rewrite Hol, Hnl. rewrite !(proj2 (showZ_plain _)). reflexivity.
Qed.

Lemma swift_loop (ws : list SwiftWindow) (windows : list WindowRecord) :
  Forall plainNames ws ->
  fold_left swiftStep (Js.split (swiftOutput ws) Js.lf) windows
  = (windows ++ map swiftRecord ws)%list.
Proof.
  intros Hws. revert windows.
  induction Hws as [|w ws Hw Hws IH]; intros windows.
  - cbn. now rewrite app_nil_r.
  - cbn [swiftOutput map]. unfold Js.split in *.
    rewrite (split_first_line _ _ (swiftLine_noLf w Hw)).
    cbn [fold_left]. rewrite (swiftStep_line windows w Hw), IH.
    now rewrite <- app_assoc.
Qed.

(** X18. Round trip through the output of the Swift helper.  The helper
    prints one line [windowID|ownerName|windowName|x|y|width|height]
    per window; when the names hold neither a vertical bar nor a line
    feed and the four bounds are integers that a JavaScript number
    holds exactly (between -2^53 and 2^53), [parseSwiftOutput] returns
    one record per window, in the order printed, each with the window
    number as its id, the two names, and the four bounds as the
    numbers that were printed, negative ones included. *)
Theorem swift_output_roundtrip :
  forall (ws : list SwiftWindow),
    Forall plainNames ws ->
    Forall exactBounds ws ->
    parseSwiftOutput (swiftOutput ws) = map swiftRecord ws.
Proof.
  intros ws Hws _. unfold parseSwiftOutput. now rewrite (swift_loop ws [] Hws).
Qed.

(** Witness for X18: two windows, the second one partly off screen. *)
Lemma swift_output_roundtrip_witness :
  parseSwiftOutput
    (swiftOutput [ mkSwiftWindow 71 "Safari" "Start Page" 0 25 1440 875;
                   mkSwiftWindow 412 "Godot" "Godot Engine - demo" (-120) 40 800 600 ])
  = [ mkWindow "71" (Some "Start Page") (Some "Safari")
        (Some (mkBounds (Js.Num 0) (Js.Num 25) (Js.Num 1440) (Js.Num 875)));
      mkWindow "412" (Some "Godot Engine - demo") (Some "Godot")
        (Some (mkBounds (Js.Num (-120)) (Js.Num 40) (Js.Num 800) (Js.Num 600))) ].
Proof.
  apply (swift_output_roundtrip
           [ mkSwiftWindow 71 "Safari" "Start Page" 0 25 1440 875;
             mkSwiftWindow 412 "Godot" "Godot Engine - demo" (-120) 40 800 600 ]).
  - repeat constructor.
  - repeat constructor; cbn; lia.
Defined.

(** ** Window ids and the capture command *)

Lemma digits_not_app (i : string) :
  onlyDigits i = true -> Js.startsWith i "app_" = false.
Proof.
  destruct i as [|c i]; [reflexivity | ].
  cbn [onlyDigits]. intros H. apply andb_prop in H as [Hc _].
  unfold Js.startsWith.
  change (String.prefix "app_" (String c i))
    with (if ascii_dec "a"%char c then String.prefix "pp_" i else false).
  destruct (ascii_dec "a"%char c) as [<-|_]; [discriminate | reflexivity].
Qed.

(** X19. The id of a window record decides how [captureWindow] captures
    it.  Every record of strategy 3 (the listing of [screencapture])
    has a non-empty id of decimal digits and a non-empty title, and it
    is captured by its id with [screencapture -l].  Every record that
    strategy 4 builds from the process listing has an id that begins
    with [app_], the title [<application> Window] and the application
    as owner, and it is captured as the whole screen.  Both kinds carry
    zero bounds. *)
Theorem window_id_decides_capture_command :
  (forall stderr w tempFilePath,
     In w (parseScreencaptureOutput stderr) ->
     onlyDigits (win_id w) = true /\ win_id w <> EmptyString
     /\ (exists title, title <> EmptyString /\ win_title w = Some title)
     /\ win_bounds w = Some zeroBounds
     /\ windowCaptureCommand w tempFilePath = windowIdCommand (win_id w) tempFilePath)
  /\ (forall stdout w tempFilePath,
        In w (parseApplications stdout) ->
        (exists appName,
           appName <> EmptyString
           /\ win_title w = Some (appName ++ " Window")
           /\ win_owner_name w = Some appName)
        /\ win_bounds w = Some zeroBounds
        /\ windowCaptureCommand w tempFilePath = wholeScreenCommand tempFilePath).
Proof.
  split.
  - intros stderr w tempFilePath Hin.
    assert (H : Forall (fun w =>
                  onlyDigits (win_id w) = true /\ win_id w <> EmptyString
                  /\ (exists title, title <> EmptyString /\ win_title w = Some title)
                  /\ win_bounds w = Some zeroBounds)
                (parseScreencaptureOutput stderr)).
    { apply regexScan_Forall. intros i ttl Hd Hi Ht. cbn. eauto 6. }
    rewrite Forall_forall in H. apply list_elem_of_In in Hin.
    destruct (H w Hin) as (Hd & Hne & Ht & Hb).
    repeat split; try assumption.
    unfold windowCaptureCommand. now rewrite (digits_not_app _ Hd).
  - intros stdout w tempFilePath Hin.
    assert (H : Forall (fun w =>
                  (exists appName,
                     appName <> EmptyString
                     /\ win_title w = Some (appName ++ " Window")
                     /\ win_owner_name w = Some appName)
                  /\ win_bounds w = Some zeroBounds
                  /\ Js.startsWith (win_id w) "app_" = true)
                (parseApplications stdout)).
    { apply appsLoop_Forall; [ | constructor ].
      intros k appName Hne. cbn [win_title win_owner_name win_bounds win_id].
      split; [eauto | ]. split; [reflexivity | apply prefix_app]. }
    rewrite Forall_forall in H. apply list_elem_of_In in Hin.
    destruct (H w Hin) as (Hn & Hb & Hid).
    repeat split; try assumption.
    unfold windowCaptureCommand. now rewrite Hid.
Qed.

(** Witness for X19: the record of the second application of a process
    listing. *)
Lemma window_id_decides_capture_command_witness :
  windowCaptureCommand
    (mkWindow "app_1" (Some "Godot Window") (Some "Godot") (Some zeroBounds))
    "/srv/screenshots/temp_5.png"
  = wholeScreenCommand "/srv/screenshots/temp_5.png".
Proof.
  destruct window_id_decides_capture_command as (_ & H).
  destruct (H ("Finder, Godot" ++ Js.lf)
              (mkWindow "app_1" (Some "Godot Window") (Some "Godot") (Some zeroBounds))
              "/srv/screenshots/temp_5.png") as (_ & _ & Hc).
  - vm_compute. tauto.
  - exact Hc.
Defined.

(** ** Off macOS *)

(** X20. On every platform other than macOS the tools that need the
    window list fail before they do anything: [capture_window] (given
    a title) and [capture_application] answer with the message of
    window discovery behind their own prefix, in the unchanged state.
    The branch of [captureWindow] for other platforms, with its message
    [Window capture is currently only supported on macOS], is therefore
    never reached. *)
Theorem window_tools_off_macOS :
  forall (env : Env) (appType : option string) (params : Options) (st : State),
    String.eqb (platform env) "darwin" = false ->
    captureApplicationHandler env appType params st
    = (Failure ("Failed to capture application: "
                ++ "Window listing is only supported on macOS"), st)
    /\ (forall windowTitle,
          opt_windowTitle params = Some windowTitle -> windowTitle <> EmptyString ->
          captureWindowHandler env params st
          = (Failure ("Failed to capture window: "
                      ++ "Window listing is only supported on macOS"), st)).
Proof.
  intros env appType params st Hp. split.
  - unfold captureApplicationHandler, captureApplication, findApplicationWindow.
    unfold bind at 1. unfold tryCatch. unfold bind at 1.
    now rewrite (getWindowList_other_platform env st Hp).
  - intros windowTitle Ht Hne.
    unfold captureWindowHandler, handle, captureWindow. rewrite Ht.
    destruct windowTitle as [|c t]; [congruence | ].
    cbv zeta. unfold tryCatch. unfold bind at 1.
    now rewrite (getWindowList_other_platform env st Hp).
Qed.

(** Witness for X20: a window capture on Linux. *)
Lemma window_tools_off_macOS_witness :
  captureWindowHandler linuxEnv godotParams initialState
  = (Failure "Failed to capture window: Window listing is only supported on macOS",
     initialState).
Proof.
  destruct (window_tools_off_macOS linuxEnv None godotParams initialState eq_refl)
    as (_ & H).
  apply (H "Godot"); [reflexivity | discriminate].
Defined.

(** ** Files left by a capture *)

Lemma runScreencapture_inv (env : Env) (cmd tempFilePath : string) (st st' : State)
    (u : unit) :
  runScreencapture env cmd tempFilePath st = (Ok u, st') ->
  ticks st' = ticks st
  /\ forall path, path <> tempFilePath -> files st' !! path = files st !! path.
Proof.
  unfold runScreencapture, execSync, bind, emit, setFiles, ret, throw.
  destruct (execSyncResult env cmd) as [e|[data|]]; intros H; try discriminate;
    injection H as _ <-; cbn; split; try reflexivity.
  intros path Hp. apply lookup_insert_ne. congruence.
Qed.

Lemma saveIfRequested_other_files (env : Env) (filePath : option string)
    (buffer : string) (st st' : State) (u : unit) :
  saveIfRequested env filePath buffer st = (Ok u, st') ->
  ticks st' = ticks st
  /\ forall path, filePath <> Some path -> files st' !! path = files st !! path.
Proof.
  intros H. apply saveIfRequested_inv in H. destruct filePath as [p|]; subst st'.
  - cbn. split; [reflexivity | ]. intros path Hp. apply lookup_insert_ne. congruence.
  - auto.
Qed.

Lemma captureFullScreen_files (env : Env) (options : Options) (st st' : State)
    (shot : ScreenshotData) :
  captureFullScreen env options st = (Ok shot, st') ->
  forall path, sd_filePath shot <> Some path -> files st' !! path = files st !! path.
Proof.
  intros H. unfold captureFullScreen in H. cbv zeta in H.
  apply tryCatch_rethrow_inv in H.
  apply bind_inv in H as (ts & s1 & H1 & H). rewrite isoNow_run in H1.
  injection H1 as <- <-.
  apply bind_inv in H as ([] & s2 & H2 & H). rewrite emit_run in H2.
  injection H2 as <-.
  apply bind_inv in H as (img & s3 & H3 & H). apply lift_inv in H3 as [H3 ->].
  apply bind_inv in H as (processed & s4 & H4 & H).
  apply convertIfNeeded_inv in H4 as [-> H4].
  apply bind_inv in H as ([] & s5 & H5 & H).
  apply saveIfRequested_other_files in H5 as [_ H5].
  apply bind_inv in H as (id & s6 & H6 & H). rewrite generateId_run in H6.
  injection H6 as <- <-.
  apply bind_inv in H as (meta & s7 & H7 & H). apply lift_inv in H7 as [H7 ->].
  apply bind_inv in H as ([] & s8 & H8 & H). rewrite addToHistory_run in H8.
  injection H8 as <-. injection H as <- <-.
  intros path Hp. cbn [sd_filePath files withShot withTick] in *.
  now rewrite (H5 path Hp).
Qed.

Lemma captureRegion_files (env : Env) (options : Options) (st st' : State)
    (shot : ScreenshotData) :
  String.eqb (platform env) "darwin" = true ->
  captureRegion env options st = (Ok shot, st') ->
  files st' !! tempPathAt env (ticks st) = None
  /\ forall path,
       path <> tempPathAt env (ticks st) -> sd_filePath shot <> Some path ->
       files st' !! path = files st !! path.
Proof.
  intros Hp H. unfold captureRegion in H.
  destruct (opt_x options) as [x|], (opt_y options) as [y|],
    (opt_width options) as [w|], (opt_height options) as [h|]; try discriminate.
  cbv zeta in H. rewrite Hp in H. do 2 apply tryCatch_rethrow_inv in H.
  apply bind_inv in H as (temp & s1 & H1 & H). rewrite tempFilePathNow_run in H1.
  injection H1 as <- <-.
  apply bind_inv in H as (ts & s2 & H2 & H). rewrite isoNow_run in H2.
  injection H2 as <- <-.
  apply bind_inv in H as ([] & s3 & H3 & H).
  apply runScreencapture_inv in H3 as [_ H3].
  apply bind_inv in H as (raw & s4 & H4 & H). apply readFile_inv in H4 as [_ ->].
  apply bind_inv in H as (processed & s5 & H5 & H).
  apply convertIfNeeded_inv in H5 as [-> H5].
  apply bind_inv in H as ([] & s6 & H6 & H).
  apply saveIfRequested_other_files in H6 as [_ H6].
  apply bind_inv in H as ([] & s7 & H7 & H). rewrite removeFile_run in H7.
  injection H7 as <-.
  apply bind_inv in H as (id & s8 & H8 & H). rewrite generateId_run in H8.
  injection H8 as <- <-.
  apply bind_inv in H as ([] & s9 & H9 & H). rewrite addToHistory_run in H9.
  injection H9 as <-. injection H as <- <-.
  cbn [sd_filePath files withShot withTick withFiles withEffect] in *.
  fold (tempPathAt env (ticks st)) in *. split.
  - apply lookup_delete_eq.
  - intros path Ht Hs. rewrite lookup_delete_ne by congruence.
    rewrite (H6 path Hs). now apply H3.
Qed.

Lemma captureWindow_files (env : Env) (options : Options) (st st' : State)
    (shot : ScreenshotData) :
  captureWindow env options st = (Ok shot, st') ->
  files st' !! tempPathAt env (S (ticks st)) = None
  /\ forall path,
       path <> tempPathAt env (S (ticks st)) -> path <> helperScriptPath env ->
       sd_filePath shot <> Some path ->
       files st' !! path = files st !! path.
Proof.
  intros H. unfold captureWindow in H.
  destruct (opt_windowTitle options) as [[|c t]|]; try discriminate.
  cbv zeta in H. apply tryCatch_rethrow_inv in H.
  apply bind_inv in H as (ws & s1 & H1 & H).
  destruct (getWindowList_effects env st) as (n & _ & Hticks & _).
  pose proof (getWindowList_other_files env st) as Hdisc.
  rewrite H1 in Hticks, Hdisc. cbn [snd] in Hticks, Hdisc.
  destruct (List.find (titleMatches (String c t)) ws) as [target|]; [ | discriminate ].
  apply bind_inv in H as (ts & s2 & H2 & H). rewrite isoNow_run in H2.
  injection H2 as <- <-.
  destruct (String.eqb (platform env) "darwin"); [ | discriminate ].
  apply tryCatch_rethrow_inv in H.
  apply bind_inv in H as (temp & s3 & H3 & H). rewrite tempFilePathNow_run in H3.
  injection H3 as <- <-.
  apply bind_inv in H as ([] & s4 & H4 & H).
  apply runScreencapture_inv in H4 as [_ H4].
  apply bind_inv in H as (raw & s5 & H5 & H). apply readFile_inv in H5 as [_ ->].
  apply bind_inv in H as (processed & s6 & H6 & H).
  apply convertIfNeeded_inv in H6 as [-> H6].
  apply bind_inv in H as ([] & s7 & H7 & H).
  apply saveIfRequested_other_files in H7 as [_ H7].
  apply bind_inv in H as ([] & s8 & H8 & H). rewrite removeFile_run in H8.
  injection H8 as <-.
  apply bind_inv in H as (meta & s9 & H9 & H). apply lift_inv in H9 as [H9 ->].
  apply bind_inv in H as (id & s10 & H10 & H). rewrite generateId_run in H10.
  injection H10 as <- <-.
  apply bind_inv in H as ([] & s11 & H11 & H). rewrite addToHistory_run in H11.
  injection H11 as <-. injection H as <- <-.
  cbn [sd_filePath files ticks withShot withTick withFiles withEffect] in *.
  rewrite Hticks in *. fold (tempPathAt env (S (ticks st))) in *. split.
  - apply lookup_delete_eq.
  - intros path Ht Hh Hs. rewrite lookup_delete_ne by congruence.
    rewrite (H7 path Hs), (H4 path Ht). now apply Hdisc.
Qed.

(** X21. A capture that succeeds leaves no temporary image behind and
    touches no file of others.  After [captureWindow], and after
    [captureRegion] on macOS, there is no file at the temporary path
    the capture tool wrote to, and every path other than that one, the
    path of the saved screenshot and (for [captureWindow]) the helper
    script of discovery holds what it held before; after
    [captureFullScreen] every path other than that of the saved
    screenshot holds what it held before. *)
Theorem successful_capture_leaves_no_temp_file :
  forall (env : Env) (options : Options) (st st' : State) (shot : ScreenshotData),
    (captureFullScreen env options st = (Ok shot, st') ->
     forall path, sd_filePath shot <> Some path -> files st' !! path = files st !! path)
    /\ (captureWindow env options st = (Ok shot, st') ->
        files st' !! tempPathAt env (S (ticks st)) = None
        /\ forall path,
             path <> tempPathAt env (S (ticks st)) -> path <> helperScriptPath env ->
             sd_filePath shot <> Some path ->
             files st' !! path = files st !! path)
    /\ (String.eqb (platform env) "darwin" = true ->
        captureRegion env options st = (Ok shot, st') ->
        files st' !! tempPathAt env (ticks st) = None
        /\ forall path,
             path <> tempPathAt env (ticks st) -> sd_filePath shot <> Some path ->
             files st' !! path = files st !! path).
Proof.
  intros env options st st' shot.
  split; [apply captureFullScreen_files | ].
  split; [apply captureWindow_files | apply captureRegion_files].
Qed.

(** Witness for X21: a region capture on macOS saved to a file; the
    first reading of the clock is 0. *)
Lemma successful_capture_leaves_no_temp_file_witness :
  files (snd (captureRegion deniedEnv
                (mkOptions None None None None (Some 0) (Some 0) (Some 10) (Some 10))
                initialState))
    !! "/srv/screenshots/temp_0.png" = None.
Proof.
  destruct (captureRegion deniedEnv
              (mkOptions None None None None (Some 0) (Some 0) (Some 10) (Some 10))
              initialState) as [[shot|e] st'] eqn:E; [ | vm_compute in E; discriminate ].
  destruct (successful_capture_leaves_no_temp_file deniedEnv
              (mkOptions None None None None (Some 0) (Some 0) (Some 10) (Some 10))
              initialState st' shot) as (_ & _ & H).
  destruct (H eq_refl E) as (Hnone & _). exact Hnone.
Defined.

(** ** A failure after the file has been written *)

Lemma convertIfNeeded_run (env : Env) (options : Options) (buffer : string)
    (st : State) :
  convertIfNeeded env (formatOf options) (qualityOf options) buffer st
  = (processedBy env options buffer, st).
Proof.
  unfold convertIfNeeded, processedBy.
  destruct (String.eqb (formatOf options) "jpg" || (qualityOf options <? 100))%bool;
    reflexivity.
Qed.

(** X22. [captureFullScreen] writes the file before it measures the
    image.  When the screen is captured, converted and saved, and the
    measurement then fails, the call fails with the message of the
    measurement behind [Failed to capture full screen: ]; the history
    is unchanged, so no resource will ever name the screenshot, but the
    file is on disk. *)
Theorem late_failure_leaves_the_saved_file :
  forall (env : Env) (options : Options) (st : State) (img processed e : string),
    saveToFileOf options = true ->
    screenshotDesktop env = Ok img ->
    processedBy env options img = Ok processed ->
    writeFileError env (fullScreenPath env options (ticks st)) = None ->
    sharpMetadata env processed = Throw e ->
    exists st',
      captureFullScreenHandler env options st
      = (Failure ("Failed to capture full screen: " ++ e), st')
      /\ files st' !! fullScreenPath env options (ticks st) = Some processed
      /\ history st' = history st.
Proof.
  intros env options st img processed e Hsave Hshot Hconv Hwrite Hmeta.
  unfold captureFullScreenHandler, handle, captureFullScreen. cbv zeta.
  rewrite Hsave. unfold tryCatch. unfold bind at 1. rewrite isoNow_run.
  unfold bind at 1. rewrite emit_run. unfold bind at 1. unfold lift at 1.
  rewrite Hshot. unfold bind at 1. rewrite convertIfNeeded_run, Hconv.
  unfold bind at 1. unfold saveIfRequested, writeFile. unfold bind at 1.
  rewrite emit_run. fold (fullScreenPath env options (ticks st)). rewrite Hwrite.
  unfold setFiles. unfold bind at 1. rewrite generateId_run.
  unfold bind at 1. unfold lift. rewrite Hmeta. unfold throw.
  eexists. split; [reflexivity | ]. cbn. split; [apply lookup_insert_eq | reflexivity].
Qed.

(** Witness for X22: the image cannot be measured. *)
Lemma late_failure_leaves_the_saved_file_witness :
  exists st',
    captureFullScreenHandler metadataFailsEnv noOptions initialState
    = (Failure ("Failed to capture full screen: "
                ++ "Input buffer contains unsupported image format"), st')
    /\ files st' !! "/srv/screenshots/fullscreen_2024-05-01T10-00-00-000Z.png"
       = Some "RAW"
    /\ history st' = [].
Proof.
  apply (late_failure_leaves_the_saved_file metadataFailsEnv noOptions initialState
           "RAW" "RAW" "Input buffer contains unsupported image format");
    reflexivity.
Defined.

(** ** The dimensions of a screenshot *)

Lemma captureFullScreen_measured (env : Env) (options : Options) (st st' : State)
    (shot : ScreenshotData) :
  captureFullScreen env options st = (Ok shot, st') ->
  exists processed,
    sd_base64 shot = base64 env processed
    /\ sharpMetadata env processed = Ok (sd_width shot, sd_height shot).
Proof.
  intros H. unfold captureFullScreen in H. cbv zeta in H.
  apply tryCatch_rethrow_inv in H.
  apply bind_inv in H as (ts & s1 & _ & H).
  apply bind_inv in H as ([] & s2 & _ & H).
  apply bind_inv in H as (img & s3 & _ & H).
  apply bind_inv in H as (processed & s4 & _ & H).
  apply bind_inv in H as ([] & s5 & _ & H).
  apply bind_inv in H as (id & s6 & _ & H).
  apply bind_inv in H as (meta & s7 & H7 & H). apply lift_inv in H7 as [H7 _].
  apply bind_inv in H as ([] & s8 & _ & H). injection H as <- _.
  exists processed. cbn. split; [reflexivity | ]. now destruct meta.
Qed.

Lemma captureWindow_measured (env : Env) (options : Options) (st st' : State)
    (shot : ScreenshotData) :
  captureWindow env options st = (Ok shot, st') ->
  exists processed,
    sd_base64 shot = base64 env processed
    /\ sharpMetadata env processed = Ok (sd_width shot, sd_height shot).
Proof.
  intros H. unfold captureWindow in H.
  destruct (opt_windowTitle options) as [[|c t]|]; try discriminate.
  cbv zeta in H. apply tryCatch_rethrow_inv in H.
  apply bind_inv in H as (ws & s1 & _ & H).
  destruct (List.find (titleMatches (String c t)) ws) as [target|]; [ | discriminate ].
  apply bind_inv in H as (ts & s2 & _ & H).
  destruct (String.eqb (platform env) "darwin"); [ | discriminate ].
  apply tryCatch_rethrow_inv in H.
  apply bind_inv in H as (temp & s3 & _ & H).
  apply bind_inv in H as ([] & s4 & _ & H).
  apply bind_inv in H as (raw & s5 & _ & H).
  apply bind_inv in H as (processed & s6 & _ & H).
  apply bind_inv in H as ([] & s7 & _ & H).
  apply bind_inv in H as ([] & s8 & _ & H).
  apply bind_inv in H as (meta & s9 & H9 & H). apply lift_inv in H9 as [H9 _].
  apply bind_inv in H as (id & s10 & _ & H).
  apply bind_inv in H as ([] & s11 & _ & H). injection H as <- _.
  exists processed. cbn. split; [reflexivity | ]. now destruct meta.
Qed.

Lemma captureRegion_as_requested (env : Env) (options : Options) (st st' : State)
    (shot : ScreenshotData) :
  captureRegion env options st = (Ok shot, st') ->
  exists x y width height,
    opt_x options = Some x /\ opt_y options = Some y
    /\ opt_width options = Some width /\ opt_height options = Some height
    /\ sd_region shot = Some (mkRegion x y width height)
    /\ sd_width shot = width /\ sd_height shot = height.
Proof.
  intros H. unfold captureRegion in H.
  destruct (opt_x options) as [x|], (opt_y options) as [y|],
    (opt_width options) as [w|], (opt_height options) as [h|]; try discriminate.
  exists x, y, w, h. do 4 (split; [reflexivity | ]).
  cbv zeta in H. apply tryCatch_rethrow_inv in H.
  destruct (String.eqb (platform env) "darwin").
  - apply tryCatch_rethrow_inv in H.
    do 8 (apply bind_inv in H as (? & ? & _ & H)).
    injection H as <- _. repeat split.
  - do 6 (apply bind_inv in H as (? & ? & _ & H)).
    injection H as <- _. repeat split.
Qed.

(** X23. Where the width and height of a screenshot come from.  A
    screenshot of [captureFullScreen] or [captureWindow] carries the
    width and height that sharp measured on the very buffer whose
    base64 text it returns.  A screenshot of [captureRegion] carries
    the width and height that were asked for, with the region as given,
    on macOS and elsewhere: the captured image is not measured. *)
Theorem where_dimensions_come_from :
  forall (env : Env) (options : Options) (st st' : State) (shot : ScreenshotData),
    (captureFullScreen env options st = (Ok shot, st')
     \/ captureWindow env options st = (Ok shot, st') ->
     exists processed,
       sd_base64 shot = base64 env processed
       /\ sharpMetadata env processed = Ok (sd_width shot, sd_height shot))
    /\ (captureRegion env options st = (Ok shot, st') ->
        exists x y width height,
          opt_x options = Some x /\ opt_y options = Some y
          /\ opt_width options = Some width /\ opt_height options = Some height
          /\ sd_region shot = Some (mkRegion x y width height)
          /\ sd_width shot = width /\ sd_height shot = height).
Proof.
  intros env options st st' shot. split.
  - intros [H|H]; [now apply (captureFullScreen_measured env options st st')
                  | now apply (captureWindow_measured env options st st')].
  - apply captureRegion_as_requested.
Qed.

(** Witness for X23: a ten-by-ten region of a screen whose captures
    measure 1440 by 900. *)
Lemma where_dimensions_come_from_witness :
  match fst (captureRegion deniedEnv smallRegion initialState) with
  | Ok shot => sd_width shot = 10 /\ sd_height shot = 10
  | Throw _ => False
  end.
Proof.
  destruct (captureRegion deniedEnv smallRegion initialState) as [[shot|e] st'] eqn:E;
    [ | vm_compute in E; discriminate ].
  destruct (where_dimensions_come_from deniedEnv smallRegion initialState st' shot)
    as (_ & H).
  destruct (H E) as (x & y & w & h & _ & _ & Hw & Hh & _ & Hsw & Hsh).
  cbn in Hw, Hh. injection Hw as <-. injection Hh as <-. cbn [fst]. auto.
Defined.

(** ** The history listing and the lookup by id *)

Lemma find_id_exists (h : list ScreenshotData) (s : ScreenshotData) :
  In s h ->
  exists found,
    List.find (fun screenshot => String.eqb (sd_id screenshot) (sd_id s)) h = Some found
    /\ sd_id found = sd_id s.
Proof.
  induction h as [|x h IH]; intros Hin; [destruct Hin | ].
  cbn [List.find]. destruct (String.eqb_spec (sd_id x) (sd_id s)) as [E|E].
  - eauto.
  - destruct Hin as [->|Hin]; [congruence | now apply IH].
Qed.

Lemma In_sliceTo {A : Type} (n : Z) (l : list A) (a : A) :
  In a (sliceTo n l) -> In a l.
Proof.
  unfold sliceTo. cbv zeta. intros H.
  match type of H with
  | In a (firstn ?k l) => rewrite <- (firstn_skipn k l)
  end.
  apply in_or_app. now left.
Qed.

(** X24. The resource [history] and the resource [history/{id}] agree:
    for every limit, each item that [getScreenshotHistory] lists is the
    view of an entry of the history, and looking its id up with
    [getScreenshotById] finds a screenshot with that id. *)
Theorem listed_ids_are_retrievable :
  forall (limit : option Z) (st : State) (item : HistoryItem),
    In item (getScreenshotHistory limit st) ->
    (exists shot, In shot (history st) /\ item = historyItem shot)
    /\ exists found,
         getScreenshotById st (hi_id item) = Some found /\ sd_id found = hi_id item.
Proof.
  intros limit st item Hin. unfold getScreenshotHistory in Hin.
  apply in_map_iff in Hin as (shot & <- & Hin).
  apply In_sliceTo in Hin. apply in_rev in Hin.
  split; [eauto | ]. unfold getScreenshotById. cbn [hi_id historyItem].
  now apply find_id_exists.
Qed.

(** Witness for X24: the newest of three screenshots. *)
Lemma listed_ids_are_retrievable_witness :
  exists found,
    getScreenshotById (addAll (map sampleShot (seq 0 3)) initialState) "ss_2_7"
    = Some found
    /\ sd_id found = "ss_2_7".
Proof.
  destruct (listed_ids_are_retrievable None
              (addAll (map sampleShot (seq 0 3)) initialState)
              (historyItem (sampleShot 2))) as (_ & H).
  - vm_compute. tauto.
  - exact H.
Defined.

(** ** Captures that succeed *)

Lemma captureFullScreen_succeeds (env : Env) (options : Options) (st : State) :
  everythingWorks env ->
  exists shot st',
    captureFullScreen env options st = (Ok shot, st') /\ sd_type shot = "fullscreen".
Proof.
  intros ([img Himg] & _ & Hjpeg & _ & Hmeta & Hwrite).
  unfold captureFullScreen. cbv zeta.
  cbv [tryCatch convertIfNeeded saveIfRequested writeFile lift bind emit
       setFiles generateId isoNow tick addToHistory ret].
  rewrite Himg.
  destruct (String.eqb (formatOf options) "jpg" || (qualityOf options <? 100))%bool;
    [ destruct (Hjpeg img (qualityOf options)) as [out ->] | ];
    destruct (saveToFileOf options); try rewrite Hwrite;
    match goal with
    | |- context [sharpMetadata env ?b] => destruct (Hmeta b) as [size ->]
    end;
    do 2 eexists; split; reflexivity.
Qed.

(** X25. [captureFullScreen] and [captureRegion] work on every
    platform.  When the desktop capture, the [screencapture] tool,
    sharp and the file system all do their work, [captureFullScreen]
    returns a screenshot of type [fullscreen] for any options, and
    [captureRegion] returns a screenshot of type [region] as soon as
    the four coordinates are given, on macOS through [screencapture -R]
    and elsewhere through a crop of the whole screen. *)
Theorem full_screen_and_region_succeed :
  forall (env : Env) (options : Options) (st : State),
    everythingWorks env ->
    (exists shot st',
       captureFullScreen env options st = (Ok shot, st') /\ sd_type shot = "fullscreen")
    /\ (opt_x options <> None -> opt_y options <> None ->
        opt_width options <> None -> opt_height options <> None ->
        exists shot st',
          captureRegion env options st = (Ok shot, st') /\ sd_type shot = "region").
Proof.
  intros env options st Hworks.
  split; [now apply captureFullScreen_succeeds | ].
  intros Hx Hy Hw Hh. unfold captureRegion.
  destruct (opt_x options) as [x|], (opt_y options) as [y|],
    (opt_width options) as [w|], (opt_height options) as [h|]; try congruence.
  cbv zeta. destruct (String.eqb (platform env) "darwin").
  - destruct Hworks as (_ & Hsync & Hjpeg & _ & _ & Hwrite).
    cbv [tryCatch runScreencapture execSync tempFilePathNow isoNow tick bind
         emit ret].
    match goal with
    | |- context [execSyncResult env ?cmd] => destruct (Hsync cmd) as [raw ->]
    end.
    cbv [setFiles readFile]. cbn [files withFiles withEffect withTick].
    rewrite lookup_insert_eq.
    cbv [convertIfNeeded saveIfRequested writeFile lift bind emit setFiles
         removeFile generateId tick addToHistory ret].
    destruct (String.eqb (formatOf options) "jpg" || (qualityOf options <? 100))%bool;
      [ destruct (Hjpeg raw (qualityOf options)) as [out ->] | ];
      destruct (saveToFileOf options); try rewrite Hwrite;
      do 2 eexists; split; reflexivity.
  - destruct (captureFullScreen_succeeds env
                (mkOptions None (Some "png") None (Some false) None None None None)
                st Hworks) as (full & st1 & Hfull & _).
    destruct Hworks as (_ & _ & _ & Hcrop & _ & Hwrite).
    unfold tryCatch. unfold bind at 1. rewrite Hfull.
    cbv [lift saveIfRequested writeFile bind emit setFiles generateId isoNow
         tick addToHistory ret].
    match goal with
    | |- context [sharpExtractJpeg env ?b ?r ?f ?q] =>
        destruct (Hcrop b r f q) as [out ->]
    end.
    destruct (saveToFileOf options); try rewrite Hwrite;
      do 2 eexists; split; reflexivity.
Qed.

(** Witness for X25: a ten-by-ten region on Linux. *)
Lemma full_screen_and_region_succeed_witness :
  exists shot st',
    captureRegion linuxEnv smallRegion initialState = (Ok shot, st')
    /\ sd_type shot = "region".
Proof.
  destruct (full_screen_and_region_succeed linuxEnv smallRegion initialState) as (_ & H).
  - split; [exists "RAW"; reflexivity | ].
    split; [intros cmd; exists "RAW"; reflexivity | ].
    split; [intros buffer quality; eexists; reflexivity | ].
    split; [intros buffer region format quality; eexists; reflexivity | ].
    split; [intros buffer; eexists; reflexivity | reflexivity].
  - apply H; discriminate.
Defined.
